(** * run_pipeline.py: the pipeline orchestrator and the PDF page-count resolver

    A shallow embedding of [src/run_pipeline.py].  Python values, the file
    system and the external programs are modelled first; the functions of the
    script ([run_command], [rename_file], [copy_file], [get_pdf_page_count],
    [main]) follow, written statement by statement in a small monad that
    threads the world and carries Python's [return] and [raise]. *)

From Stdlib Require Import ZArith List Lia.
From Stdlib Require Import Strings.Ascii Strings.String Strings.Byte.
From stdpp Require Import base option list gmap.

Local Open Scope Z_scope.

(** ** Python text and bytes *)

(** A Python [str] is a sequence of Unicode code points; a [bytes] object is a
    sequence of bytes. *)
Abbreviation str := (list N).
Abbreviation bytes := (list byte).

(** A string literal of the script (all of them are ASCII). *)
Definition lit (s : string) : str :=
  map (fun a : ascii => N_of_ascii a) (list_ascii_of_string s).

(** A bytes literal [b'...']. *)
Definition blit (s : string) : bytes := list_byte_of_string s.

(** [c * n] for a one-character string [c]. *)
Definition times (c : string) (n : nat) : str := concat (repeat (lit c) n).

(** [sep.join(l)]. *)
Fixpoint join (sep : str) (l : list str) : str :=
  match l with
  | [] => []
  | [x] => x
  | x :: rest => x ++ sep ++ join sep rest
  end.

(** [str(n)] for an [int], as an f-string renders it. *)
Fixpoint digits_of_pos_fuel (fuel : nat) (n : N) (acc : str) : str :=
  match fuel with
  | O => acc
  | S fuel' =>
      let acc' := (48 + n mod 10)%N :: acc in
      if (n <? 10)%N then acc' else digits_of_pos_fuel fuel' (n / 10)%N acc'
  end.

Definition str_of_N (n : N) : str := digits_of_pos_fuel (S (N.to_nat (N.log2 n))) n [].

Definition str_of_int (z : Z) : str :=
  if z <? 0 then lit "-" ++ str_of_N (Z.to_N (- z)) else str_of_N (Z.to_N z).

(** [bytes.decode('latin-1')]: every byte is the code point of the same
    number, so the decoding cannot fail. *)
Definition decode_latin1 (b : bytes) : str := map Byte.to_N b.

(** [bytes.count(sub)] for a non-empty [sub]: the number of non-overlapping
    occurrences, found from left to right.  After a match the scan resumes
    behind it, which [skip] counts down. *)
Fixpoint bytes_prefix (sub s : bytes) : bool :=
  match sub, s with
  | [], _ => true
  | x :: sub', y :: s' => Byte.eqb x y && bytes_prefix sub' s'
  | _ :: _, [] => false
  end.

Fixpoint count_from (sub : bytes) (skip : nat) (s : bytes) : Z :=
  match s with
  | [] => 0
  | _ :: s' =>
      match skip with
      | S k => count_from sub k s'
      | O =>
          if bytes_prefix sub s
          then 1 + count_from sub (Nat.pred (List.length sub)) s'
          else count_from sub O s'
      end
  end.

Definition bytes_count (s sub : bytes) : Z := count_from sub O s.

(** The markers of a byte stream, told apart. A pages-collection marker is
    an occurrence of [/Type /Pages]; a page-object marker is an occurrence of
    [/Type /Page] that is not the start of one. The scan is the one of
    [bytes.count]: from left to right, resuming behind each marker. The
    result is the number of page-object markers and the number of
    pages-collection markers. *)
Fixpoint markers_from (skip : nat) (s : bytes) : Z * Z :=
  match s with
  | [] => (0, 0)
  | _ :: s' =>
      match skip with
      | S k => markers_from k s'
      | O =>
          if bytes_prefix (blit "/Type /Pages") s
          then (fst (markers_from 11 s'), 1 + snd (markers_from 11 s'))
          else if bytes_prefix (blit "/Type /Page") s
          then (1 + fst (markers_from 10 s'), snd (markers_from 10 s'))
          else markers_from 0 s'
      end
  end.

Definition page_object_markers (s : bytes) : Z := fst (markers_from 0 s).
Definition pages_collection_markers (s : bytes) : Z := snd (markers_from 0 s).

(** *** The regular expressions of the script

    [re.search] on a [str] pattern: [\s] is Unicode white space and [\d] any
    Unicode decimal digit, which [int] converts as well. The white-space
    table is short and fixed; the decimal-digit table is the interpreter's
    (it grows with the Unicode version) and is taken as the parameter
    [decimal], giving the value of a decimal digit. *)

Definition is_space (c : N) : bool :=
  ((9 <=? c) && (c <=? 13) || (28 <=? c) && (c <=? 32)
   || (c =? 133) || (c =? 160) || (c =? 5760)
   || (8192 <=? c) && (c <=? 8202)
   || (c =? 8232) || (c =? 8233) || (c =? 8239) || (c =? 8287) || (c =? 12288))%N.

(** The digit table of plain ASCII, the part of [decimal] every interpreter
    agrees on. *)
Definition ascii_decimal (c : N) : option N :=
  if ((48 <=? c) && (c <=? 57))%N then Some (c - 48)%N else None.

Inductive item :=
| Lit (c : N)          (* a literal character *)
| Spaces0              (* \s*    *)
| Spaces1              (* \s+    *)
| Digits1.             (* (\d+), the capturing group *)

Section Regex.
Variable decimal : N -> option N.

Definition is_digit (c : N) : bool :=
  match decimal c with Some _ => true | None => false end.

(** Greedy repetition with backtracking: the longest run is tried first. *)
Fixpoint star {A} (cls : N -> bool) (k : str -> option A) (s : str) : option A :=
  match s with
  | c :: s' =>
      if cls c
      then match star cls k s' with
           | Some r => Some r
           | None => k s
           end
      else k s
  | [] => k s
  end.

(** The capturing group [(\d+)]: one digit or more, greedy; the result is
    the text of the group when the rest of the pattern matches behind it. *)
Fixpoint capture (k : str -> option str) (s : str) : option str :=
  match s with
  | c :: s' =>
      if is_digit c
      then match capture k s' with
           | Some g => Some (c :: g)
           | None => match k s' with Some _ => Some [c] | None => None end
           end
      else None
  | [] => None
  end.

(** Match a pattern at the start of [s]; the result is [group(1)]. *)
Fixpoint match_here (p : list item) (s : str) : option str :=
  match p with
  | [] => Some []
  | Lit c :: p' =>
      match s with
      | x :: s' => if (x =? c)%N then match_here p' s' else None
      | [] => None
      end
  | Spaces0 :: p' => star is_space (match_here p') s
  | Spaces1 :: p' =>
      match s with
      | x :: s' => if is_space x then star is_space (match_here p') s' else None
      | [] => None
      end
  | Digits1 :: p' => capture (match_here p') s
  end.

(** [re.search(p, s)]: the leftmost match; [None] when there is none. *)
Fixpoint re_search (p : list item) (s : str) : option str :=
  match match_here p s with
  | Some g => Some g
  | None => match s with
            | [] => None
            | _ :: s' => re_search p s'
            end
  end.

(** [int(g)] for the text of a [(\d+)] group: its value. An interpreter
    that limits the length of integer strings raises beyond its limit
    instead; the value is exact up to [int_max_str_digits_floor] digits. *)
Definition int_of_digits (g : str) : Z :=
  fold_left (fun acc c => 10 * acc + Z.of_N (default 0%N (decimal c))) g 0.
End Regex.

(** The lowest value the limit on the digits of an integer string can be set
    to ([sys.int_info.str_digits_check_threshold]); the default limit is
    4300, and interpreters without the limit accept every length. *)
Definition int_max_str_digits_floor : nat := 640.

Definition lits (s : string) : list item := map Lit (lit s).

(** r'kMDItemNumberOfPages\s*=\s*(\d+)' *)
Definition mdls_pattern : list item :=
  lits "kMDItemNumberOfPages" ++ [Spaces0; Lit 61; Spaces0; Digits1].

(** r'Pages:\s*(\d+)' *)
Definition pdfinfo_pattern : list item := lits "Pages:" ++ [Spaces0; Digits1].

(** r'/Count\s+(\d+)' *)
Definition count_pattern : list item := lits "/Count" ++ [Spaces1; Digits1].

(** [bytes.decode('utf-8')] in strict mode, as text-mode [open] applies it:
    [None] stands for [UnicodeDecodeError]. Over-long forms, surrogates and
    code points above U+10FFFF are rejected. *)
Definition is_cont (b : N) : bool := ((128 <=? b) && (b <=? 191))%N.

Fixpoint utf8_decode_N (l : list N) : option str :=
  match l with
  | [] => Some []
  | b0 :: l1 =>
      if (b0 <? 128)%N then cons b0 <$> utf8_decode_N l1
      else
        match l1 with
        | [] => None
        | b1 :: l2 =>
            if ((194 <=? b0) && (b0 <=? 223))%N then
              if is_cont b1
              then cons ((b0 - 192) * 64 + (b1 - 128))%N <$> utf8_decode_N l2
              else None
            else
              match l2 with
              | [] => None
              | b2 :: l3 =>
                  if ((224 <=? b0) && (b0 <=? 239))%N then
                    if (is_cont b1 && is_cont b2
                        && (negb (b0 =? 224) || (160 <=? b1))
                        && (negb (b0 =? 237) || (b1 <=? 159)))%N
                    then cons ((b0 - 224) * 4096 + (b1 - 128) * 64 + (b2 - 128))%N
                           <$> utf8_decode_N l3
                    else None
                  else
                    match l3 with
                    | [] => None
                    | b3 :: l4 =>
                        if ((240 <=? b0) && (b0 <=? 244))%N then
                          if (is_cont b1 && is_cont b2 && is_cont b3
                              && (negb (b0 =? 240) || (144 <=? b1))
                              && (negb (b0 =? 244) || (b1 <=? 143)))%N
                          then cons ((b0 - 240) * 262144 + (b1 - 128) * 4096
                                     + (b2 - 128) * 64 + (b3 - 128))%N
                                 <$> utf8_decode_N l4
                          else None
                        else None
                    end
              end
        end
  end.

Definition utf8_decode (b : bytes) : option str := utf8_decode_N (map Byte.to_N b).

(** Universal newlines of a text-mode [read]: CR LF and a lone CR become LF. *)
Fixpoint universal_newlines (s : str) : str :=
  match s with
  | [] => []
  | 13%N :: t =>
      match t with
      | 10%N :: t' => 10%N :: universal_newlines t'
      | _ => 10%N :: universal_newlines t
      end
  | c :: t => c :: universal_newlines t
  end.

Definition nl : str := [10%N].

(** [if s:] for a string. *)
Definition nonempty (s : str) : bool := match s with [] => false | _ => true end.

(** ** Paths

    A [pathlib.Path] is the list of its components below the root; the
    script builds all of them from [base_dir], which is absolute. *)
Abbreviation Path := (list str).

Definition joinpath (p : Path) (name : string) : Path := p ++ [lit name].
Notation "p // name" := (joinpath p name) (at level 40, left associativity).

(** [str(p)] *)
Definition path_str (p : Path) : str :=
  match p with
  | [] => lit "/"
  | _ => concat (map (fun c => lit "/" ++ c) p)
  end.

(** [p.parent] *)
Definition parent (p : Path) : Path := removelast p.

(** ** Exceptions, processes and the world *)

(** The exceptions the modelled operations raise; all of them are subclasses
    of [Exception]. *)
Inductive exn :=
| FileNotFoundError (filename : str) (filename2 : option str)
| SameFileError (src dst : str)
| UnicodeDecodeError
| OSError (errno : Z) (strerror : str).

(** What [subprocess.run(..., capture_output=True, text=True)] hands back. *)
Record CompletedProcess := mkCompleted {
  returncode : Z;
  stdout : str;
  stderr : str
}.

(** One call of [subprocess.run]: the argument vector, [cwd=] and [input=]. *)
Record Spawn := mkSpawn {
  args : list str;
  cwd : option str;
  input : option str
}.

(** The file system holds regular files only, as a finite map from paths to
    contents; directories are implicit, and permissions and device errors are
    outside the model. *)
Abbreviation FS := (gmap Path bytes).

(** No folder on the way to [p] is a regular file: no proper prefix of [p],
    the root included, holds a file. This is what [mkdir(parents=True,
    exist_ok=True)] on the folder of [p] needs in order to succeed. *)
Definition no_file_above (p : Path) (fs : FS) : bool :=
  forallb (fun n => bool_decide (fs !! take n p = None)) (seq 0 (length p)).

(** [p] is not a folder that holds files: no file lies below it. *)
Definition no_file_below (p : Path) (fs : FS) : bool :=
  bool_decide (map_Forall (fun q (_ : bytes) => p `prefix_of` q -> q = p) fs).

(** The place of [p] can take a regular file: the folders on the way to it
    are there or can be made, and [p] itself is not a folder. *)
Definition place_for_file (p : Path) (fs : FS) : bool :=
  no_file_above p fs && no_file_below p fs.

(** What the script does not define itself: the interpreter's tables and
    the programs it launches.  [Ext] is whatever state lives outside the
    machine's file system (the HTTP services, for instance); a launched
    program may read and change both. [spawn] answers with the completed
    process, or with the exception [subprocess.run] raises (the executable is
    missing, its output does not decode, ...). *)
Record Platform (Ext : Type) := mkPlatform {
  decimal : N -> option N;
  exn_str : exn -> str;
  spawn : Spawn -> FS -> Ext -> (exn + CompletedProcess) * FS * Ext
}.
Arguments decimal {Ext} _ _.
Arguments exn_str {Ext} _ _.
Arguments spawn {Ext} _ _ _ _.

(** The state a run threads along: the files, the outside, the lines printed
    so far and the processes launched so far, both oldest first. *)
Record World (Ext : Type) := mkWorld {
  files : FS;
  outside : Ext;
  console : list str;
  spawned : list Spawn
}.
Arguments mkWorld {Ext} _ _ _ _.
Arguments files {Ext} _.
Arguments outside {Ext} _.
Arguments console {Ext} _.
Arguments spawned {Ext} _.

(** ** The monad

    A statement either completes, executes [return r], or raises. *)
Inductive outcome (R A : Type) :=
| Normal (a : A)
| Returned (r : R)
| Raised (e : exn).
Arguments Normal {R A} _.
Arguments Returned {R A} _.
Arguments Raised {R A} _.

Definition M (Ext R A : Type) : Type := World Ext -> outcome R A * World Ext.

Section Monad.
Context {Ext R : Type}.

Definition M_ret {A} (a : A) : M Ext R A := fun w => (Normal a, w).

Definition M_bind {A B} (f : A -> M Ext R B) (m : M Ext R A) : M Ext R B :=
  fun w =>
    match m w with
    | (Normal a, w') => f a w'
    | (Returned r, w') => (Returned r, w')
    | (Raised e, w') => (Raised e, w')
    end.

(** [return r] *)
Definition return_ {A} (r : R) : M Ext R A := fun w => (Returned r, w).

(** [raise e] *)
Definition raise {A} (e : exn) : M Ext R A := fun w => (Raised e, w).

(** [try: body  except Exception as e: handler e]. What [body] did to the
    world before it raised stays done. *)
Definition try_except {A} (body : M Ext R A) (handler : exn -> M Ext R A) : M Ext R A :=
  fun w =>
    match body w with
    | (Raised e, w') => handler e w'
    | r => r
    end.

(** [if b: m] *)
Definition when_ (b : bool) (m : M Ext R unit) : M Ext R unit :=
  if b then m else M_ret tt.
End Monad.

#[global] Instance M_mret {Ext R} : MRet (M Ext R) := @M_ret Ext R.
#[global] Instance M_mbind {Ext R} : MBind (M Ext R) := @M_bind Ext R.

(** [for x in l: body x] *)
Fixpoint for_ {Ext R X} (l : list X) (body : X -> M Ext R unit) : M Ext R unit :=
  match l with
  | [] => mret tt
  | x :: l' => body x;; for_ l' body
  end.

(** A function call: the body runs to its [return]; an exception passes
    through. A body of type [M Ext R Empty_set] cannot fall off its end. *)
Definition call {Ext R R'} (body : M Ext R Empty_set) : M Ext R' R :=
  fun w =>
    match body w with
    | (Normal a, _) => match a with end
    | (Returned r, w') => (Normal r, w')
    | (Raised e, w') => (Raised e, w')
    end.

(** [range(a, b)] *)
Definition range (a b : Z) : list Z :=
  map (fun i => a + Z.of_nat i) (seq 0 (Z.to_nat (b - a))).

(** ** The primitive operations *)

Section Script.
Context {Ext : Type} (P : Platform Ext).

Section Primitives.
Context {R : Type}.

(** [print(s)] *)
Definition print (s : str) : M Ext R unit :=
  fun w => (Normal tt, mkWorld (files w) (outside w) (console w ++ [s]) (spawned w)).

Definition set_files (fs : FS) (w : World Ext) : World Ext :=
  mkWorld fs (outside w) (console w) (spawned w).

(** [subprocess.run(cmd, cwd=cwd, input=input_text, text=True,
    capture_output=True)]: the platform runs the program, which may change
    the files and the outside. *)
Definition subprocess_run (cmd : list str) (cwd input_text : option str)
  : M Ext R CompletedProcess :=
  fun w =>
    let call := mkSpawn cmd cwd input_text in
    let '(r, fs, o) := spawn P call (files w) (outside w) in
    (match r with inl e => Raised e | inr c => Normal c end,
     mkWorld fs o (console w) (spawned w ++ [call])).

(** [p.exists()] *)
Definition path_exists (p : Path) : M Ext R bool :=
  fun w => (Normal (bool_decide (is_Some (files w !! p))), w).

(** [p.unlink()] *)
Definition unlink (p : Path) : M Ext R unit :=
  fun w =>
    match files w !! p with
    | Some _ => (Normal tt, set_files (delete p (files w)) w)
    | None => (Raised (FileNotFoundError (path_str p) None), w)
    end.

(** [src.rename(dst)]: a missing [src] raises; an existing [dst] is
    replaced. Directories are implicit, so the folder of [dst] is taken to
    be there and [dst] not to be a folder: this is exact for a rename
    within the folder of [src], which is what the script does, onto a path
    with no file below it ([no_file_below]); statements that a rename
    succeeds are made for that case only. *)
Definition rename (src dst : Path) : M Ext R unit :=
  fun w =>
    match files w !! src with
    | Some c => (Normal tt, set_files (<[dst := c]> (delete src (files w))) w)
    | None => (Raised (FileNotFoundError (path_str src) (Some (path_str dst))), w)
    end.

(** [p.mkdir(parents=True, exist_ok=True)]: directories are implicit, and
    the call is taken to succeed. It does when no path up to [p] is a
    regular file ([no_file_above]); statements that a copy behind it
    succeeds are made for a destination that can take a file
    ([place_for_file]) only. *)
Definition mkdir_parents (p : Path) : M Ext R unit := mret tt.

(** [shutil.copy2(src, dst)] *)
Definition copy2 (src dst : Path) : M Ext R unit :=
  fun w =>
    match files w !! src with
    | Some c =>
        if decide (src = dst)
        then (Raised (SameFileError (path_str src) (path_str dst)), w)
        else (Normal tt, set_files (<[dst := c]> (files w)) w)
    | None => (Raised (FileNotFoundError (path_str src) None), w)
    end.

(** [shutil.move(str(src), str(dst))] for regular files: a rename. *)
Definition move (src dst : Path) : M Ext R unit :=
  fun w =>
    match files w !! src with
    | Some c => (Normal tt, set_files (<[dst := c]> (delete src (files w))) w)
    | None => (Raised (FileNotFoundError (path_str src) None), w)
    end.

(** [with open(p, 'rb') as f: f.read()] *)
Definition read_bytes (p : Path) : M Ext R bytes :=
  fun w =>
    match files w !! p with
    | Some c => (Normal c, w)
    | None => (Raised (FileNotFoundError (path_str p) None), w)
    end.

(** [with open(p, 'r', encoding='utf-8') as f: f.read()] *)
Definition read_text (p : Path) : M Ext R str :=
  raw ← read_bytes p;
  match utf8_decode raw with
  | Some s => mret (universal_newlines s)
  | None => raise UnicodeDecodeError
  end.
End Primitives.

(** ** The functions of the script *)

Definition run_command {R'} (cmd : list str) (cwd input_text : option str) : M Ext R' bool :=
  call (
    print (nl ++ times "=" 60);;
    print (lit "Running: " ++ join (lit " ") cmd);;
    when_ (nonempty (default [] cwd))
      (print (lit "Working directory: " ++ default [] cwd));;
    print (times "=" 60);;
    try_except (
      result ← subprocess_run cmd cwd input_text;
      print (stdout result);;
      when_ (nonempty (stderr result)) (print (lit "STDERR: " ++ stderr result));;
      when_ (negb (returncode result =? 0)) (
        print (lit "ERROR: Command failed with return code "
               ++ str_of_int (returncode result));;
        return_ false);;
      return_ true)
    (fun e =>
      print (lit "ERROR: " ++ exn_str P e);;
      return_ false)).

Definition rename_file {R'} (src dst : Path) : M Ext R' bool :=
  call (
    print (nl ++ times "=" 60);;
    print (lit "Renaming: " ++ path_str src ++ lit " -> " ++ path_str dst);;
    print (times "=" 60);;
    try_except (
      there ← path_exists dst;
      when_ there (unlink dst);;
      rename src dst;;
      print (lit "Successfully renamed to " ++ path_str dst);;
      return_ true)
    (fun e =>
      print (lit "ERROR: Failed to rename file: " ++ exn_str P e);;
      return_ false)).

Definition copy_file {R'} (src dst : Path) : M Ext R' bool :=
  call (
    print (nl ++ times "=" 60);;
    print (lit "Copying: " ++ path_str src ++ lit " -> " ++ path_str dst);;
    print (times "=" 60);;
    try_except (
      mkdir_parents (parent dst);;
      copy2 src dst;;
      print (lit "Successfully copied to " ++ path_str dst);;
      return_ true)
    (fun e =>
      print (lit "ERROR: Failed to copy file: " ++ exn_str P e);;
      return_ false)).

(** *** [get_pdf_page_count]

    The function is four [try] blocks in a row and a final [return None].
    Each block is named here after its comment in the source. A block
    that executes [return] ends the function; one that completes hands
    over to the next. The result is [Some n] for an [int] and [None] for
    Python's [None]. *)

Definition mdls_cmd (pdf_path : Path) : list str :=
  [lit "mdls"; lit "-name"; lit "kMDItemNumberOfPages"; path_str pdf_path].

Definition pdfinfo_cmd (pdf_path : Path) : list str :=
  [lit "pdfinfo"; path_str pdf_path].

(** Try using mdls (macOS) first *)
Definition try_mdls (pdf_path : Path) : M Ext (option Z) unit :=
  try_except (
    result ← subprocess_run (mdls_cmd pdf_path) None None;
    when_ (returncode result =? 0) (
      match re_search (decimal P) mdls_pattern (stdout result) with
      | Some g => return_ (Some (int_of_digits (decimal P) g))
      | None => mret tt
      end))
  (fun _ => mret tt).

(** Try using pdfinfo (if poppler is installed) *)
Definition try_pdfinfo (pdf_path : Path) : M Ext (option Z) unit :=
  try_except (
    result ← subprocess_run (pdfinfo_cmd pdf_path) None None;
    when_ (returncode result =? 0) (
      match re_search (decimal P) pdfinfo_pattern (stdout result) with
      | Some g => return_ (Some (int_of_digits (decimal P) g))
      | None => mret tt
      end))
  (fun _ => mret tt).

(** Fallback: parse PDF file directly to find page count *)
Definition try_markers (pdf_path : Path) : M Ext (option Z) unit :=
  try_except (
    content ← read_bytes pdf_path;
    (* Look for /Type /Page entries (not /Pages) *)
    let count := bytes_count content (blit "/Type /Page") in
    (* Subtract /Type /Pages entries *)
    let pages_count := bytes_count content (blit "/Type /Pages") in
    return_ (Some (if count >? pages_count then count - pages_count else count)))
  (fun _ => mret tt).

(** Last resort: try to find /Count in the PDF *)
Definition try_count (pdf_path : Path) : M Ext (option Z) unit :=
  try_except (
    raw ← read_bytes pdf_path;
    let content := decode_latin1 raw in
    match re_search (decimal P) count_pattern content with
    | Some g => return_ (Some (int_of_digits (decimal P) g))
    | None => mret tt
    end)
  (fun _ => mret tt).

Definition get_pdf_page_count {R'} (pdf_path : Path) : M Ext R' (option Z) :=
  call (
    try_mdls pdf_path;;
    try_pdfinfo pdf_path;;
    try_markers pdf_path;;
    try_count pdf_path;;
    return_ None).
End Script.

(** ** [main] *)

Section Main.
Context {Ext : Type} (P : Platform Ext).

(** [Path(__file__).resolve().parent] *)
Variable base_dir : Path.

Definition contract_number : str := lit "381034".

Definition cds_folder : Path := base_dir // "cds data population".
Definition cds_script : Path := cds_folder // "cds_mapping.py".
Definition cds_venv_python : Path := cds_folder // ".venv" // "bin" // "python3".
Definition cds_output_file : Path := cds_folder // "output" // "output.json".
Definition cds_renamed_file : Path := cds_folder // "output" // "input.json".

Definition rest_folder : Path := base_dir // "rest of the data population".
Definition rest_input_folder : Path := rest_folder // "input".
Definition rest_input_file : Path := rest_input_folder // "input.json".
Definition merge_script : Path := rest_folder // "merge_letterdata.py".
Definition rest_output_file : Path := rest_folder // "output" // "output.json".
Definition rest_renamed_file : Path := rest_folder // "output" // "input.json".

Definition script_resolution_folder : Path := base_dir // "scriptResolution".
Definition script_resolution_input : Path :=
  script_resolution_folder // "src" // "main" // "resources" // "input".
Definition script_resolution_input_file : Path := script_resolution_input // "input.json".
Definition mvnw : Path := base_dir // "pdfgen" // "mvnw".
Definition script_resolution_output : Path :=
  script_resolution_folder // "src" // "main" // "resources" // "output".
Definition script_resolution_output_file : Path := script_resolution_output // "output.json".
Definition script_resolution_renamed_file : Path := script_resolution_output // "input.json".

Definition pdfgen_test_folder : Path :=
  base_dir // "pdfgen" // "src" // "main" // "resources" // "testInput".
Definition pdfgen_input_file : Path := pdfgen_test_folder // "input.json".
Definition docx_file : Path := pdfgen_test_folder // "dest-with-header-footer.docx".
Definition storage_api_url : str :=
  lit "https://platform.dev-capability.zinnia.com/pdfgeneration-service/storage/docxs".
Definition render_api_url : str :=
  lit "https://platform.dev-capability.zinnia.com/pdfgeneration-service/docx/render-to-pdf?templateName=dest-with-header-footer.docx".
Definition test_output_folder : Path :=
  base_dir // "pdfgen" // "src" // "main" // "resources" // "testOutput".
Definition output_pdf_file : Path := test_output_folder // "output.pdf".
Definition stamp_api_url : str :=
  lit "https://platform.dev-capability.zinnia.com/pdfgeneration-service/pdf/stamp-image".
Definition barcode_image : Path := pdfgen_test_folder // "sample_barcode.jpg".
Definition temp_output : Path := test_output_folder // "output_temp.pdf".

(** The banner printed in front of every step. *)
Definition banner (title : string) : M Ext Z unit :=
  print (nl ++ nl ++ times "#" 70);;
  print (lit title);;
  print (times "#" 70).

Definition prologue : M Ext Z unit :=
  print (nl ++ times "=" 70);;
  print (lit "PIPELINE AUTOMATION SCRIPT");;
  print (lit "Contract Number: " ++ contract_number);;
  print (times "=" 70).

(** Step 1: Run cds_mapping.py with contract number input *)
Definition step1 : M Ext Z unit :=
  banner "# STEP 1: Running cds_mapping.py";;
  ok ← run_command P [path_str cds_venv_python; path_str cds_script]
         (Some (path_str cds_folder)) (Some (contract_number ++ nl));
  when_ (negb ok) (
    print (lit "ERROR: Step 1 failed - cds_mapping.py");;
    return_ 1).

(** Step 2: Rename output.json to input.json in cds data population/output *)
Definition step2 : M Ext Z unit :=
  banner "# STEP 2: Renaming output.json to input.json in cds data population/output";;
  ok ← rename_file P cds_output_file cds_renamed_file;
  when_ (negb ok) (
    print (lit "ERROR: Step 2 failed - renaming output.json");;
    return_ 1).

(** Step 3: Transfer input.json to rest of the data population/input *)
Definition step3 : M Ext Z unit :=
  banner "# STEP 3: Transferring input.json to rest of the data population/input";;
  ok ← copy_file P cds_renamed_file rest_input_file;
  when_ (negb ok) (
    print (lit "ERROR: Step 3 failed - transferring input.json");;
    return_ 1).

(** Step 4: Run merge_letterdata.py *)
Definition step4 : M Ext Z unit :=
  banner "# STEP 4: Running merge_letterdata.py";;
  ok ← run_command P [lit "python3"; path_str merge_script]
         (Some (path_str rest_folder)) None;
  when_ (negb ok) (
    print (lit "ERROR: Step 4 failed - merge_letterdata.py");;
    return_ 1).

(** Step 5: Rename output.json to input.json in rest of the data
    population/output *)
Definition step5 : M Ext Z unit :=
  banner "# STEP 5: Renaming output.json to input.json in rest of the data population/output";;
  ok ← rename_file P rest_output_file rest_renamed_file;
  when_ (negb ok) (
    print (lit "ERROR: Step 5 failed - renaming output.json");;
    return_ 1).

(** Step 6: Transfer input.json to scriptResolution/src/main/resources/input *)
Definition step6 : M Ext Z unit :=
  banner "# STEP 6: Transferring input.json to scriptResolution/src/main/resources/input";;
  ok ← copy_file P rest_renamed_file script_resolution_input_file;
  when_ (negb ok) (
    print (lit "ERROR: Step 6 failed - transferring input.json");;
    return_ 1).

(** Step 7: Compile and run ExprEval.java *)
Definition step7 : M Ext Z unit :=
  banner "# STEP 7: Running ExprEval.java (using Maven wrapper)";;
  ok ← run_command P
         [path_str mvnw; lit "compile"; lit "-q"; lit "-f";
          path_str (script_resolution_folder // "pom.xml")]
         (Some (path_str script_resolution_folder)) None;
  when_ (negb ok) (
    print (lit "ERROR: Step 7 failed - Maven compile");;
    return_ 1);;
  ok ← run_command P
         [path_str mvnw; lit "exec:java"; lit "-q"; lit "-f";
          path_str (script_resolution_folder // "pom.xml")]
         (Some (path_str script_resolution_folder)) None;
  when_ (negb ok) (
    print (lit "ERROR: Step 7 failed - running ExprEval");;
    return_ 1).

(** Step 8: Rename output.json to input.json in
    scriptResolution/src/main/resources/output *)
Definition step8 : M Ext Z unit :=
  banner "# STEP 8: Renaming output.json to input.json in scriptResolution resources/output";;
  ok ← rename_file P script_resolution_output_file script_resolution_renamed_file;
  when_ (negb ok) (
    print (lit "ERROR: Step 8 failed - renaming output.json");;
    return_ 1).

(** Step 9: Transfer input.json to pdfgen/src/main/resources/test *)
Definition step9 : M Ext Z unit :=
  banner "# STEP 9: Transferring input.json to pdfgen/src/main/resources/test";;
  ok ← copy_file P script_resolution_renamed_file pdfgen_input_file;
  when_ (negb ok) (
    print (lit "ERROR: Step 9 failed - transferring input.json");;
    return_ 1).

(** Step 10: Upload docx to Storage API *)
Definition upload_cmd : list str :=
  [lit "curl"; lit "-X"; lit "POST";
   lit "-F"; lit "file=@" ++ path_str docx_file;
   storage_api_url].

Definition step10 : M Ext Z unit :=
  banner "# STEP 10: Uploading dest-with-header-footer.docx to Storage API";;
  ok ← run_command P upload_cmd None None;
  when_ (negb ok) (
    print (lit "ERROR: Step 10 failed - Storage API upload");;
    return_ 1).

(** Step 11: Call Docx-to-PDF API and save response *)
Definition render_cmd (json_content : str) : list str :=
  [lit "curl"; lit "-X"; lit "POST";
   lit "-F"; lit "json=" ++ json_content;
   render_api_url;
   lit "-o"; path_str output_pdf_file].

Definition step11 : M Ext Z unit :=
  banner "# STEP 11: Calling Docx-to-PDF API and saving PDF output";;
  mkdir_parents test_output_folder;;
  json_content ← read_text pdfgen_input_file;
  print (nl ++ times "=" 60);;
  print (lit "Calling: " ++ render_api_url);;
  print (lit "Saving response to: " ++ path_str output_pdf_file);;
  print (times "=" 60);;
  try_except (
    result ← subprocess_run P (render_cmd json_content) None None;
    print (stdout result);;
    when_ (nonempty (stderr result)) (print (lit "STDERR: " ++ stderr result));;
    when_ (negb (returncode result =? 0)) (
      print (lit "ERROR: Docx-to-PDF API failed with return code "
             ++ str_of_int (returncode result));;
      return_ 1);;
    print (nl ++ lit "PDF saved to: " ++ path_str output_pdf_file))
  (fun e =>
    print (lit "ERROR: Failed to call Docx-to-PDF API: " ++ exn_str P e);;
    return_ 1).

(** Step 12: Stamp barcode image on each page of the PDF *)
Definition stamp_cmd (page : Z) : list str :=
  [lit "curl"; lit "-X"; lit "POST";
   lit "-F"; lit "pdf=@" ++ path_str output_pdf_file;
   lit "-F"; lit "image=@" ++ path_str barcode_image;
   stamp_api_url
     ++ lit "?x=204&y=220.8&width=6.4&height=45.2&units=mm&anchor=top-left&page="
     ++ str_of_int page;
   lit "-o"; path_str temp_output].

(** The body of the loop [for page in range(1, page_count + 1)]. *)
Definition stamp_page (page_count page : Z) : M Ext Z unit :=
  print (nl ++ times "=" 60);;
  print (lit "Stamping page " ++ str_of_int page ++ lit " of " ++ str_of_int page_count);;
  print (times "=" 60);;
  try_except (
    result ← subprocess_run P (stamp_cmd page) None None;
    when_ (nonempty (stderr result)) (print (lit "STDERR: " ++ stderr result));;
    when_ (negb (returncode result =? 0)) (
      print (lit "ERROR: Stamp API failed for page " ++ str_of_int page
             ++ lit " with return code " ++ str_of_int (returncode result));;
      return_ 1);;
    (* Replace original PDF with stamped version *)
    move temp_output output_pdf_file;;
    print (lit "Page " ++ str_of_int page ++ lit " stamped successfully"))
  (fun e =>
    print (lit "ERROR: Failed to stamp page " ++ str_of_int page ++ lit ": "
           ++ exn_str P e);;
    return_ 1).

(** [for page in range(1, page_count + 1): ...] *)
Definition stamp_loop (page_count : Z) : M Ext Z unit :=
  for_ (range 1 (page_count + 1)) (stamp_page page_count).

Definition step12 : M Ext Z unit :=
  banner "# STEP 12: Stamping barcode image on each page of the PDF";;
  page_count ← get_pdf_page_count P output_pdf_file;
  match page_count with
  | None =>
      print (lit "ERROR: Could not determine PDF page count");;
      return_ 1
  | Some page_count =>
      when_ (page_count <=? 0) (
        print (lit "ERROR: Could not determine PDF page count");;
        return_ 1);;
      print (lit "PDF has " ++ str_of_int page_count ++ lit " page(s)");;
      stamp_loop page_count;;
      print (nl ++ lit "All " ++ str_of_int page_count ++ lit " pages stamped successfully!")
  end.

Definition epilogue : M Ext Z Empty_set :=
  print (nl ++ nl ++ times "=" 70);;
  print (lit "PIPELINE COMPLETED SUCCESSFULLY!");;
  print (times "=" 70);;
  print (nl ++ lit "Final JSON location: " ++ path_str pdfgen_input_file);;
  print (lit "Final PDF location: " ++ path_str output_pdf_file);;
  return_ 0.

(** The body of [main]: the twelve steps in the order of the source; a
    step that executes [return 1] ends the function there. *)
Definition main_body : M Ext Z Empty_set :=
  prologue;;
  step1;; step2;; step3;; step4;; step5;; step6;;
  step7;; step8;; step9;; step10;; step11;; step12;;
  epilogue.

Definition main : M Ext unit Z := call main_body.

(** [exit(main())]: the exit status of the process.  An exception that
    leaves [main] ends the interpreter with a traceback on standard error
    and status 1. *)
Definition script (w : World Ext) : Z * World Ext :=
  match main w with
  | (Normal code, w') => (code, w')
  | (_, w') => (1, w')
  end.
End Main.

(** ** curl

    The three HTTP steps launch [curl -X POST -F ... URL [-o FILE]].  The
    script never passes [-f]/[--fail], and without it curl's exit status
    reports the transfer only: once a response has arrived the status is 0,
    whatever HTTP status the response carries, and the body goes to the [-o]
    file, or to standard output when there is none.  A non-zero exit status
    stands for a transfer that failed (host not resolved, connection refused,
    a form file that cannot be read, ...). *)

Record HttpResponse := mkResponse {
  status : Z;
  body : bytes
}.

Inductive transfer :=
| Transferred (r : HttpResponse)
| Failed (exit_status : Z) (diagnostic : str).

(** The path a string names: its components between the slashes. *)
Fixpoint split_path (s : str) (cur : str) : Path :=
  match s with
  | [] => match cur with [] => [] | _ => [cur] end
  | c :: s' =>
      if (c =? 47)%N
      then match cur with [] => split_path s' [] | _ => cur :: split_path s' [] end
      else split_path s' (cur ++ [c])
  end.

(** The argument behind [-o], if any. *)
Fixpoint output_option (argv : list str) : option Path :=
  match argv with
  | [] => None
  | a :: rest =>
      if decide (a = lit "-o")
      then match rest with
           | f :: _ => Some (split_path f [])
           | [] => None
           end
      else output_option rest
  end.

Section Curl.
Context {Ext : Type}.

(** The services answer a request, which is determined by curl's arguments
    and the files they name. [meter] is the progress meter curl writes to
    standard error when its output is not a terminal. *)
Variable service : list str -> FS -> Ext -> transfer * Ext.
Variable meter : str.

Definition curl (c : Spawn) (fs : FS) (o : Ext) : (exn + CompletedProcess) * FS * Ext :=
  let '(t, o') := service (args c) fs o in
  match t with
  | Failed code diagnostic => (inr (mkCompleted code [] diagnostic), fs, o')
  | Transferred r =>
      match output_option (args c) with
      | Some f => (inr (mkCompleted 0 [] meter), <[f := body r]> fs, o')
      | None =>
          match utf8_decode (body r) with
          | Some text => (inr (mkCompleted 0 text meter), fs, o')
          | None => (inl UnicodeDecodeError, fs, o')
          end
      end
  end.

(** A platform whose [curl] is the one above; every other program is
    [programs]. *)
Definition with_curl (decimal : N -> option N) (exn_str : exn -> str)
    (programs : Spawn -> FS -> Ext -> (exn + CompletedProcess) * FS * Ext)
  : Platform Ext :=
  mkPlatform Ext decimal exn_str
    (fun c fs o =>
       match args c with
       | prog :: _ => if decide (prog = lit "curl") then curl c fs o else programs c fs o
       | [] => programs c fs o
       end).
End Curl.

(** ** A concrete machine

    A small installation on which the script can be run by computation: the
    repository lives in [/repo], the three stage programs write the stage
    file, the Maven wrapper succeeds, [mdls] and [pdfinfo] are not installed,
    and the HTTP services answer every request.  The parameters choose what
    the stage programs write and how the services answer. *)

Module Demo.
Definition base : Path := [lit "repo"].

Definition exn_text (e : exn) : str :=
  match e with
  | FileNotFoundError f None => lit "[Errno 2] No such file or directory: " ++ f
  | FileNotFoundError f (Some g) =>
      lit "[Errno 2] No such file or directory: " ++ f ++ lit " -> " ++ g
  | SameFileError a b => a ++ lit " and " ++ b ++ lit " are the same file"
  | UnicodeDecodeError => lit "'utf-8' codec can't decode byte"
  | OSError _ m => m
  end.

(** A document of one page: one pages-collection object and one page
    object. *)
Definition one_page_pdf : bytes := blit "%PDF-1.4 /Type /Pages /Count 1 /Type /Page".

(** A document of two pages. *)
Definition two_page_pdf : bytes :=
  blit "%PDF-1.4 /Type /Pages /Count 2 /Type /Page /Type /Page".

Record config := mkConfig {
  cds_writes : bool;          (* does cds_mapping.py leave an output.json? *)
  stage_json : bytes;         (* what the stage programs write *)
  upload_status : Z;          (* the HTTP status of the upload *)
  rendered : bytes;           (* the body of the render response *)
  stamp_limit : Z             (* stamp calls for pages beyond it fail to connect *)
}.

Definition has_arg (a : str) (c : Spawn) : bool := bool_decide (a ∈ args c).

Definition ok : exn + CompletedProcess := inr (mkCompleted 0 [] []).

Definition programs (cfg : config) (c : Spawn) (fs : FS) (o : unit)
  : (exn + CompletedProcess) * FS * unit :=
  if has_arg (path_str (cds_script base)) c then
    (ok, if cds_writes cfg then <[cds_output_file base := stage_json cfg]> fs else fs, o)
  else if has_arg (path_str (merge_script base)) c then
    (ok, <[rest_output_file base := stage_json cfg]> fs, o)
  else if has_arg (lit "compile") c then (ok, fs, o)
  else if has_arg (lit "exec:java") c then
    (ok, <[script_resolution_output_file base := stage_json cfg]> fs, o)
  else (inl (FileNotFoundError (default [] (head (args c))) None), fs, o).

Definition service (cfg : config) (argv : list str) (fs : FS) (o : unit) : transfer * unit :=
  if bool_decide (storage_api_url ∈ argv) then
    (Transferred (mkResponse (upload_status cfg) (blit "{}")), o)
  else if bool_decide (render_api_url ∈ argv) then
    (Transferred (mkResponse 200 (rendered cfg)), o)
  else if bool_decide (argv ∈ map (stamp_cmd base) (range 1 (stamp_limit cfg + 1))) then
    (Transferred (mkResponse 200 (default [] (fs !! output_pdf_file base) ++ blit " stamped")), o)
  else (Failed 7 (lit "curl: (7) Failed to connect"), o).

Definition platform (cfg : config) : Platform unit :=
  with_curl (service cfg) (lit "  % Total") ascii_decimal exn_text (programs cfg).

Definition world (fs : FS) : World unit := mkWorld fs tt [] [].

(** Everything works. *)
Definition fine : config := mkConfig true (blit "{}") 200 two_page_pdf 2.



(** The stage file is not UTF-8. *)
Definition latin1_json : config := mkConfig true [x7b; xe9; x7d] 200 two_page_pdf 2.



(** The rendered document has no page marker at all. *)
Definition blank : config := mkConfig true (blit "{}") 200 (blit "%PDF-1.4") 2.

(** A stage file left behind by an earlier run. *)
Definition stale : FS := {[ cds_renamed_file base := blit "stale" ]}.

(** The produced document, alone on the disk. *)
Definition pdf : Path := output_pdf_file base.
Definition with_pdf (content : bytes) : World unit := world {[ pdf := content ]}.

(** A machine that has [mdls], which reports [pages] for every file. *)
Definition mac (pages : string) : Platform unit :=
  mkPlatform unit ascii_decimal exn_text
    (fun c fs o =>
       if has_arg (lit "mdls") c
       then (inr (mkCompleted 0 (lit "kMDItemNumberOfPages = " ++ lit pages ++ nl) []), fs, o)
       else (inl (FileNotFoundError (default [] (head (args c))) None), fs, o)).

Definition starts_with (prefix line : str) : bool :=
  bool_decide (take (length prefix) line = prefix).
End Demo.

(** A machine without [mdls] whose [pdfinfo] reports [pages] for every
    file. *)
Module Linux.
Definition machine (pages : string) : Platform unit :=
  mkPlatform unit ascii_decimal Demo.exn_text
    (fun c fs o =>
       if Demo.has_arg (lit "pdfinfo") c
       then (inr (mkCompleted 0
                    (lit "Producer:       pdfgen" ++ nl
                     ++ lit "Pages:          " ++ lit pages ++ nl
                     ++ lit "Encrypted:      no" ++ nl) []), fs, o)
       else (inl (FileNotFoundError (default [] (head (args c))) None), fs, o)).

(** The machine of [Demo.fine], except that the Maven build fails. *)
Definition no_maven : Platform unit :=
  mkPlatform unit ascii_decimal Demo.exn_text
    (fun c fs o =>
       if Demo.has_arg (lit "compile") c
       then (inr (mkCompleted 1 [] (lit "BUILD FAILURE")), fs, o)
       else Demo.programs Demo.fine c fs o).
End Linux.

(** A document of three pages: one pages-collection object and three page
    objects. *)
Definition three_page_pdf : bytes :=
  blit "%PDF-1.4 /Type /Pages /Count 3 /Type /Page /Type /Page /Type /Page".

(** A stage file with Windows line ends, alone on the disk. *)
Definition crlf_stage_file : World unit :=
  Demo.world {[ pdfgen_input_file Demo.base := [x7b; x0d; x0a; x7d] ]}.

(** ** Vocabulary of the statements *)

(** The success predicate of a process step: the process was launched and
    its exit status is zero. *)
Definition succeeded (r : exn + CompletedProcess) : bool :=
  match r with
  | inr c => returncode c =? 0
  | inl _ => false
  end.

(** What a strategy that runs a tool makes of the tool's answer: the integer
    behind the label when the tool exits with status 0 and the pattern is
    found in its output; nothing when the tool cannot be launched, fails, or
    prints no such line. *)
Definition process_answer (decimal : N -> option N) (pattern : list item)
    (r : exn + CompletedProcess) : option Z :=
  match r with
  | inr c =>
      if returncode c =? 0
      then int_of_digits decimal <$> re_search decimal pattern (stdout c)
      else None
  | inl _ => None
  end.

Section Vocabulary.
Context {Ext : Type} (P : Platform Ext) (base_dir : Path).

Definition mdls_call (pdf_path : Path) : Spawn := mkSpawn (mdls_cmd pdf_path) None None.
Definition pdfinfo_call (pdf_path : Path) : Spawn := mkSpawn (pdfinfo_cmd pdf_path) None None.
Definition stamp_call (page : Z) : Spawn := mkSpawn (stamp_cmd base_dir page) None None.
Definition upload_call : Spawn := mkSpawn (upload_cmd base_dir) None None.
Definition render_call (json_content : str) : Spawn :=
  mkSpawn (render_cmd base_dir json_content) None None.

(** The world right after a process has been launched from [w]. *)
Definition after_spawn (c : Spawn) (w : World Ext) : World Ext :=
  mkWorld (spawn P c (files w) (outside w)).1.2
          (spawn P c (files w) (outside w)).2
          (console w)
          (spawned w ++ [c]).

Definition answer (c : Spawn) (w : World Ext) : exn + CompletedProcess :=
  (spawn P c (files w) (outside w)).1.1.


(** The twelve steps of [main], in order. *)
Definition steps : list (M Ext Z unit) :=
  [step1 P base_dir; step2 P base_dir; step3 P base_dir; step4 P base_dir;
   step5 P base_dir; step6 P base_dir; step7 P base_dir; step8 P base_dir;
   step9 P base_dir; step10 P base_dir; step11 P base_dir; step12 P base_dir].

(** A run started in [w0] has completed the first [k] steps and stands in
    [w] in front of step [k + 1]. *)
Definition reaches (k : nat) (w0 w : World Ext) : Prop :=
  (prologue;; for_ (take k steps) (fun s => s)) w0 = (Normal tt, w).



(** What the specification says of the resolver's results: whatever
    integer it returns is positive. *)
Definition resolver_result_positive (pdf_path : Path) (w : World Ext) : Prop :=
  forall v w', get_pdf_page_count (R' := unit) P pdf_path w = (Normal (Some v), w') -> 0 < v.

(** What the specification says of a stream with three page-object markers
    and one pages-collection marker: with the two tools unavailable, its
    page count is 2. *)
Definition three_page_objects_give_two (pdf_path : Path) (w : World Ext) : Prop :=
  let w1 := after_spawn (mdls_call pdf_path) w in
  let w2 := after_spawn (pdfinfo_call pdf_path) w1 in
  forall content,
    (try_mdls P pdf_path w).1 = Normal tt ->
    (try_pdfinfo P pdf_path w1).1 = Normal tt ->
    files w2 !! pdf_path = Some content ->
    page_object_markers content = 3 ->
    pages_collection_markers content = 1 ->
    get_pdf_page_count (R' := unit) P pdf_path w = (Normal (Some 2), w2).
End Vocabulary.

(** [s] goes on as [p] does, for as long as both last. *)
Fixpoint agrees (p s : bytes) : bool :=
  match p, s with
  | x :: p', y :: s' => Byte.eqb x y && agrees p' s'
  | _, _ => true
  end.

(** A decimal-digit table that has the ASCII digits. *)
Definition ascii_digits (d : N -> option N) : Prop :=
  forall c, (48 <= c <= 57)%N -> d c = Some (c - 48)%N.

(** A line of the console that reports an error. *)
Definition is_error_line (line : str) : Prop := exists rest, line = lit "ERROR: " ++ rest.

(** A step completes, or executes [return 1] right after an error line, or
    lets an exception out. *)
Definition step_cases {Ext} (s : M Ext Z unit) (may_raise : bool) : Prop :=
  forall w,
    exists w',
      s w = (Normal tt, w')
      \/ (s w = (Returned 1, w') /\ exists line, last (console w') = Some line /\ is_error_line line)
      \/ (may_raise = true /\ exists e, s w = (Raised e, w')).


(** ** The stages of the pipeline *)

Section Stages.
Context {Ext : Type} (P : Platform Ext) (base_dir : Path).

(** The hand-overs of the stage file: the rename step and the copy step
    behind it, the file the stage program has written, its new name, and the
    input file of the next stage. *)
Definition handovers : list (M Ext Z unit * M Ext Z unit * Path * Path * Path) :=
  [(step2 P base_dir, step3 P base_dir,
    cds_output_file base_dir, cds_renamed_file base_dir, rest_input_file base_dir);
   (step5 P base_dir, step6 P base_dir,
    rest_output_file base_dir, rest_renamed_file base_dir,
    script_resolution_input_file base_dir);
   (step8 P base_dir, step9 P base_dir,
    script_resolution_output_file base_dir, script_resolution_renamed_file base_dir,
    pdfgen_input_file base_dir)].

(** The processes of the first ten steps. *)
Definition cds_call : Spawn :=
  mkSpawn [path_str (cds_venv_python base_dir); path_str (cds_script base_dir)]
    (Some (path_str (cds_folder base_dir))) (Some (contract_number ++ nl)).

Definition merge_call : Spawn :=
  mkSpawn [lit "python3"; path_str (merge_script base_dir)]
    (Some (path_str (rest_folder base_dir))) None.

Definition maven_call (goal : string) : Spawn :=
  mkSpawn [path_str (mvnw base_dir); lit goal; lit "-q"; lit "-f";
           path_str (script_resolution_folder base_dir // "pom.xml")]
    (Some (path_str (script_resolution_folder base_dir))) None.

(** What each of the first ten steps launches when it completes. *)
Definition stage_calls : list (list Spawn) :=
  [[cds_call]; []; []; [merge_call]; []; [];
   [maven_call "compile"; maven_call "exec:java"]; []; [];
   [upload_call base_dir]].
End Stages.

Arguments lit : simpl never.
Arguments times : simpl never.
Arguments join : simpl never.
Arguments str_of_int : simpl never.
Arguments path_str : simpl never.
Arguments joinpath : simpl never.
Arguments re_search : simpl never.
Arguments int_of_digits : simpl never.
Arguments bytes_count : simpl never.
Arguments utf8_decode : simpl never.
Arguments universal_newlines : simpl never.
Arguments decode_latin1 : simpl never.
Arguments range : simpl never.

(** * Properties *)

(** ** The monad *)

Section MonadFacts.
Context {Ext R : Type}.
Implicit Types w : World Ext.

Lemma bind_normal {A B} (m : M Ext R A) (f : A -> M Ext R B) w a w' :
  m w = (Normal a, w') -> (m ≫= f) w = f a w'.
Proof. intros H. unfold mbind, M_mbind, M_bind. now rewrite H. Qed.

Lemma bind_returned {A B} (m : M Ext R A) (f : A -> M Ext R B) w r w' :
  m w = (Returned r, w') -> (m ≫= f) w = (Returned r, w').
Proof. intros H. unfold mbind, M_mbind, M_bind. now rewrite H. Qed.

Lemma bind_raised {A B} (m : M Ext R A) (f : A -> M Ext R B) w e w' :
  m w = (Raised e, w') -> (m ≫= f) w = (Raised e, w').
Proof. intros H. unfold mbind, M_mbind, M_bind. now rewrite H. Qed.

(** A loop over [l ++ [x]] is the loop over [l] followed by the body at [x]. *)
Lemma for_snoc {X} (l : list X) (x : X) (body : X -> M Ext R unit) w :
  for_ (l ++ [x]) body w = (for_ l body;; body x) w.
Proof.
  revert w. induction l as [|y l IH]; intros w; simpl.
  - unfold mbind, M_mbind, M_bind. simpl.
    destruct (body x w) as [[[]| |] ?]; reflexivity.
  - unfold mbind, M_mbind, M_bind in *.
    destruct (body y w) as [[[]| |] w1]; try reflexivity.
    rewrite IH. reflexivity.
Qed.
End MonadFacts.

Lemma range_snoc a b : a <= b -> range a (b + 1) = range a b ++ [b].
Proof.
  intros H. unfold range.
  replace (Z.to_nat (b + 1 - a)) with (S (Z.to_nat (b - a))) by lia.
  rewrite seq_S, map_app. simpl. do 2 f_equal. lia.
Qed.


Ltac exec :=
  cbv beta iota zeta delta
    [call try_except mbind mret M_mbind M_mret M_bind M_ret return_ raise when_
     print set_files subprocess_run path_exists unlink rename mkdir_parents copy2 move
     read_bytes read_text files outside console spawned negb
     after_spawn answer].

Ltac tidy := repeat rewrite <- app_assoc; cbn [app].

(** ** Text *)

Example search_mdls_line :
  re_search ascii_decimal mdls_pattern (lit "kMDItemNumberOfPages = 12") = Some (lit "12")
  /\ int_of_digits ascii_decimal (lit "12") = 12.
Proof. split; vm_compute; exact eq_refl. Qed.

Example search_mdls_null :
  re_search ascii_decimal mdls_pattern (lit "kMDItemNumberOfPages = (null)") = None.
Proof. vm_compute; exact eq_refl. Qed.

Example search_pdfinfo_line :
  re_search ascii_decimal pdfinfo_pattern (lit "Title: x" ++ nl ++ lit "Pages:          5" ++ nl)
  = Some (lit "5").
Proof. vm_compute; exact eq_refl. Qed.

Example search_count_needs_space :
  re_search ascii_decimal count_pattern (lit "/Count3 /Count 42 /Count 7") = Some (lit "42").
Proof. vm_compute; exact eq_refl. Qed.

(** [bytes.count] does not count overlapping occurrences. *)
Example count_non_overlapping : bytes_count (blit "aaaaa") (blit "aa") = 2.
Proof. vm_compute; exact eq_refl. Qed.

(** The marker of a pages collection begins with the marker of a page
    object, so it is counted as one of those as well: three page objects and
    one pages collection make four occurrences of [/Type /Page]. *)
Example pages_marker_counts_as_page_marker :
  bytes_count (blit "/Type /Pages") (blit "/Type /Page") = 1
  /\ bytes_count (blit "/Type /Pages /Type /Page /Type /Page /Type /Page") (blit "/Type /Page") = 4.
Proof. split; vm_compute; exact eq_refl. Qed.

Example str_of_int_examples :
  str_of_int 0 = lit "0" /\ str_of_int 7 = lit "7" /\ str_of_int 120 = lit "120"
  /\ str_of_int 1000 = lit "1000" /\ str_of_int (-35) = lit "-35".
Proof. repeat split; vm_compute; exact eq_refl. Qed.

Example utf8_examples :
  utf8_decode [x7b; xc3; xa9; x7d] = Some [123; 233; 125]%N
  /\ utf8_decode [x7b; xe9; x7d] = None
  /\ utf8_decode [xe2; x82; xac] = Some [8364]%N
  /\ utf8_decode [xc0; x80] = None
  /\ utf8_decode [xed; xa0; x80] = None.
Proof. repeat split; vm_compute; exact eq_refl. Qed.

Lemma int_of_digits_from decimal (g : str) (acc : Z) :
  0 <= acc ->
  0 <= fold_left (fun acc c => 10 * acc + Z.of_N (default 0%N (decimal c))) g acc.
Proof.
  revert acc. induction g as [|c g IH]; intros acc Hacc; simpl; [assumption|].
  apply IH. lia.
Qed.

Lemma int_of_digits_nonneg decimal (g : str) : 0 <= int_of_digits decimal g.
Proof. unfold int_of_digits. apply int_of_digits_from. lia. Qed.

(** *** [str] and [int] *)

Lemma ascii_decimal_ascii_digits : ascii_digits ascii_decimal.
Proof.
  intros c Hc. unfold ascii_decimal.
  destruct (N.leb_spec 48 c), (N.leb_spec c 57); simpl; try lia. reflexivity.
Qed.

(** The digits [str] produces are ASCII digits, and there is at least one. *)
Lemma digits_of_pos_fuel_digits fuel n acc :
  Forall (fun c => (48 <= c <= 57)%N) acc ->
  Forall (fun c => (48 <= c <= 57)%N) (digits_of_pos_fuel fuel n acc).
Proof.
  revert n acc. induction fuel as [|fuel IH]; intros n acc Hacc; simpl; [exact Hacc|].
  assert (H : Forall (fun c => (48 <= c <= 57)%N) ((48 + n mod 10)%N :: acc)).
  { constructor; [|exact Hacc].
    assert (H : (n mod 10 < 10)%N) by (apply N.mod_upper_bound; lia).
    revert H. generalize (n mod 10)%N. intros m H. lia. }
  destruct (n <? 10)%N; [exact H|apply IH, H].
Qed.

Lemma digits_of_pos_fuel_nonempty fuel n acc :
  acc <> [] \/ fuel <> O -> digits_of_pos_fuel fuel n acc <> [].
Proof.
  revert n acc. induction fuel as [|fuel IH]; intros n acc H; simpl.
  - destruct H as [H|H]; [exact H|contradiction].
  - destruct (n <? 10)%N; [discriminate|]. apply IH. left. discriminate.
Qed.

Lemma str_of_N_digits n :
  str_of_N n <> [] /\ Forall (fun c => (48 <= c <= 57)%N) (str_of_N n).
Proof.
  split.
  - apply digits_of_pos_fuel_nonempty. right. discriminate.
  - apply digits_of_pos_fuel_digits. constructor.
Qed.

(** [int] reads back what [str] has written. *)
Lemma int_of_digits_of_pos_fuel d fuel n acc :
  ascii_digits d ->
  (n < 2 ^ N.of_nat fuel)%N ->
  fold_left (fun a c => 10 * a + Z.of_N (default 0%N (d c))) (digits_of_pos_fuel fuel n acc) 0
  = fold_left (fun a c => 10 * a + Z.of_N (default 0%N (d c))) acc (Z.of_N n).
Proof.
  intros Hd. revert n acc. induction fuel as [|fuel IH]; intros n acc Hn.
  - change (2 ^ N.of_nat 0)%N with 1%N in Hn.
    assert (n = 0%N) as -> by lia. reflexivity.
  - cbn [digits_of_pos_fuel].
    assert (Hdigit : d (48 + n mod 10)%N = Some (n mod 10)%N).
    { assert (H : (n mod 10 < 10)%N) by (apply N.mod_upper_bound; lia).
      revert H. generalize (n mod 10)%N. intros m H.
      rewrite Hd by lia. f_equal. lia. }
    destruct (N.ltb_spec n 10).
    + cbn [fold_left]. rewrite Hdigit. cbn [from_option id].
      rewrite N.mod_small by assumption. now rewrite Z.mul_0_r, Z.add_0_l.
    + rewrite IH.
      * cbn [fold_left]. rewrite Hdigit. cbn [from_option id].
        replace (10 * Z.of_N (n / 10) + Z.of_N (n mod 10)) with (Z.of_N n); [reflexivity|].
        rewrite (N.div_mod n 10) at 1 by lia.
        rewrite N2Z.inj_add, N2Z.inj_mul. reflexivity.
      * rewrite Nat2N.inj_succ, N.pow_succ_r' in Hn.
        apply N.Div0.div_lt_upper_bound. lia.
Qed.

Lemma int_of_str_of_N d n :
  ascii_digits d -> int_of_digits d (str_of_N n) = Z.of_N n.
Proof.
  intros Hd. unfold int_of_digits, str_of_N.
  rewrite int_of_digits_of_pos_fuel; [reflexivity|exact Hd|].
  rewrite Nat2N.inj_succ, N2Nat.id.
  destruct n as [|p]; [reflexivity|]. apply N.log2_spec. lia.
Qed.

(** Literal characters of a pattern match themselves. *)
Lemma match_here_lits d (l : str) (p : list item) (s : str) :
  match_here d (map Lit l ++ p) (l ++ s) = match_here d p s.
Proof.
  induction l as [|c l IH]; [reflexivity|].
  cbn [map app match_here]. now rewrite N.eqb_refl.
Qed.

Lemma ascii_digit_not_space c : (48 <= c <= 57)%N -> is_space c = false.
Proof.
  intros Hc. unfold is_space.
  rewrite (proj2 (N.leb_gt c 13)), (proj2 (N.leb_gt c 32)), (proj2 (N.leb_gt 8192 c)) by lia.
  rewrite !(proj2 (N.eqb_neq c _)) by lia.
  now rewrite !andb_false_r.
Qed.

(** The group [(\d+)] at the end of a pattern takes a run of digits that is
    followed by something else. *)
Lemma capture_run d (ds rest : str) :
  ascii_digits d ->
  ds <> [] ->
  Forall (fun c => (48 <= c <= 57)%N) ds ->
  match rest with [] => True | c :: _ => d c = None end ->
  capture d (match_here d []) (ds ++ rest) = Some ds.
Proof.
  intros Hd Hne Hds Hrest. induction Hds as [|c ds Hc Hds IH]; [contradiction|].
  cbn [app capture]. unfold is_digit at 1. rewrite (Hd c Hc).
  destruct ds as [|c' ds'].
  - cbn [app]. destruct rest as [|r rest]; [reflexivity|].
    cbn [capture]. unfold is_digit. now rewrite Hrest.
  - rewrite IH by discriminate. reflexivity.
Qed.

(** The line [mdls] prints for a file of [n] pages is read as [n]. *)
Lemma mdls_line_is_parsed d n :
  ascii_digits d ->
  d 10%N = None ->
  re_search d mdls_pattern (lit "kMDItemNumberOfPages = " ++ str_of_N n ++ nl)
  = Some (str_of_N n)
  /\ int_of_digits d (str_of_N n) = Z.of_N n.
Proof.
  intros Hd Hnl. split; [|now apply int_of_str_of_N].
  destruct (str_of_N_digits n) as [Hne Hds].
  change (lit "kMDItemNumberOfPages = ")
    with (lit "kMDItemNumberOfPages" ++ [32; 61; 32]%N).
  rewrite <- app_assoc.
  unfold re_search. 
  assert (E : match_here d mdls_pattern
                (lit "kMDItemNumberOfPages" ++ [32; 61; 32]%N ++ str_of_N n ++ nl)
              = Some (str_of_N n)).
  { unfold mdls_pattern, lits. rewrite match_here_lits.
    destruct (str_of_N n) as [|c ds] eqn:Es; [contradiction|].
    assert (Hc : is_space c = false)
      by (apply ascii_digit_not_space; now inversion Hds).
    cbn [app match_here star]. 
    change (is_space 32) with true. change (is_space 61) with false.
    cbn [N.eqb Pos.eqb]. cbn [star]. change (is_space 32) with true.
    cbn [star]. rewrite Hc.
    change (c :: ds ++ nl) with ((c :: ds) ++ nl).
    rewrite capture_run; [reflexivity|exact Hd|discriminate|exact Hds|exact Hnl]. }
  destruct (lit "kMDItemNumberOfPages" ++ [32; 61; 32]%N ++ str_of_N n ++ nl) eqn:El;
    cbn [re_search]; rewrite E; reflexivity.
Qed.

(** *** The two markers *)

Lemma agrees_of_prefix p s : bytes_prefix p s = true -> agrees p s = true.
Proof.
  revert s. induction p as [|x p IH]; intros [|y s]; simpl; try easy.
  intros H. apply andb_prop in H as [-> H]. simpl. now apply IH.
Qed.

Lemma bytes_prefix_app_l p q s : bytes_prefix (p ++ q) s = true -> bytes_prefix p s = true.
Proof.
  revert s. induction p as [|x p IH]; intros [|y s]; simpl; try easy.
  intros H. apply andb_prop in H as [-> H]. simpl. now apply IH.
Qed.

Lemma bytes_prefix_inv p s : bytes_prefix p s = true -> exists rest, s = p ++ rest.
Proof.
  revert s. induction p as [|x p IH]; intros s; simpl.
  - intros _. now exists s.
  - destruct s as [|y s]; [discriminate|].
    intros H. apply andb_prop in H as [Hxy H].
    apply Byte.byte_dec_bl in Hxy as ->.
    destruct (IH _ H) as [rest ->]. now exists rest.
Qed.

(** No occurrence of [/Type /Pages] starts inside an occurrence of
    [/Type /Page]: the text behind the first byte of a page marker never
    agrees with the start of a pages marker. *)
Lemma page_marker_has_no_border (k : nat) rest :
  (1 <= k <= 10)%nat ->
  agrees (drop (11 - k) (blit "/Type /Page")) (blit "/Type /Pages" ++ rest) = false.
Proof.
  intros Hk.
  do 11 (destruct k as [|k]; [try lia; try reflexivity|]). lia.
Qed.

(** Every occurrence [bytes.count] finds of [/Type /Pages] is one it finds of
    [/Type /Page] too.  [k1] is what is left to skip of a page marker just
    counted; the bytes ahead then agree with the rest of that marker. *)
Lemma pages_markers_le_from (s : bytes) (k1 k2 : nat) :
  (k1 <= 10)%nat ->
  agrees (drop (11 - k1) (blit "/Type /Page")) s = true ->
  count_from (blit "/Type /Pages") k2 s <= count_from (blit "/Type /Page") k1 s.
Proof.
  revert k1 k2. induction s as [|b s IH]; intros k1 k2 Hk1 Hag; [reflexivity|].
  assert (Hstep : forall k, (k <= 9)%nat ->
            agrees (drop (11 - S k) (blit "/Type /Page")) (b :: s) = true ->
            agrees (drop (11 - k) (blit "/Type /Page")) s = true).
  { intros k Hk H.
    destruct (lookup_lt_is_Some_2 (blit "/Type /Page") (11 - S k)) as [x Hx];
      [change (length (blit "/Type /Page")) with 11%nat; lia|].
    rewrite (drop_S _ _ _ Hx) in H. simpl in H. apply andb_prop in H as [_ H].
    replace (11 - k)%nat with (S (11 - S k)) by lia. exact H. }
  assert (Hzero : agrees (drop (11 - 0) (blit "/Type /Page")) s = true) by reflexivity.
  assert (Hafter : bytes_prefix (blit "/Type /Page") (b :: s) = true ->
            agrees (drop (11 - 10) (blit "/Type /Page")) s = true).
  { intros H. change (bytes_prefix (blit "/Type /Page") (b :: s))
      with (Byte.eqb "/"%byte b && bytes_prefix (drop 1 (blit "/Type /Page")) s) in H.
    apply andb_prop in H as [_ H]. now apply agrees_of_prefix. }
  assert (Hp : forall k2',
            count_from (blit "/Type /Pages") k2' s <= count_from (blit "/Type /Page") k1 (b :: s)).
  { intros k2'. cbn [count_from]. destruct k1 as [|k1].
    - destruct (bytes_prefix (blit "/Type /Page") (b :: s)) eqn:Hm.
      + change (Nat.pred (length (blit "/Type /Page"))) with 10%nat.
        specialize (IH 10%nat k2' (le_n _) (Hafter eq_refl)). lia.
      + apply IH; [lia|exact Hzero].
    - apply IH; [lia|]. apply Hstep; [lia|exact Hag]. }
  destruct k2 as [|k2]; [|exact (Hp k2)].
  assert (Hunfold : count_from (blit "/Type /Pages") 0 (b :: s)
                    = if bytes_prefix (blit "/Type /Pages") (b :: s)
                      then 1 + count_from (blit "/Type /Pages") 11 s
                      else count_from (blit "/Type /Pages") 0 s) by reflexivity.
  rewrite Hunfold. clear Hunfold.
  destruct (bytes_prefix (blit "/Type /Pages") (b :: s)) eqn:Hq; [|apply Hp].
  destruct k1 as [|k1].
  - assert (Hm : bytes_prefix (blit "/Type /Page") (b :: s) = true)
      by exact (bytes_prefix_app_l (blit "/Type /Page") (blit "s") _ Hq).
    assert (Hunfold : count_from (blit "/Type /Page") 0 (b :: s)
                      = if bytes_prefix (blit "/Type /Page") (b :: s)
                        then 1 + count_from (blit "/Type /Page") 10 s
                        else count_from (blit "/Type /Page") 0 s) by reflexivity.
    rewrite Hunfold, Hm.
    specialize (IH 10%nat 11%nat (le_n _) (Hafter Hm)). lia.
  - destruct (bytes_prefix_inv _ _ Hq) as [rest Hrest]. rewrite Hrest in Hag.
    rewrite page_marker_has_no_border in Hag by lia. discriminate.
Qed.

(** The pages-collection markers are among the page-object markers: the
    count of [/Type /Pages] never exceeds the count of [/Type /Page], so the
    heuristic returns the raw page-object count only when the two counts are
    equal. *)
Lemma pages_markers_le_page_markers (content : bytes) :
  bytes_count content (blit "/Type /Pages") <= bytes_count content (blit "/Type /Page").
Proof. apply pages_markers_le_from; [lia|reflexivity]. Qed.

(** So the two branches of the heuristic are: the difference when the counts
    differ, the raw count when they are equal. *)
Lemma heuristic_branches (content : bytes) :
  let count := bytes_count content (blit "/Type /Page") in
  let pages_count := bytes_count content (blit "/Type /Pages") in
  (if count >? pages_count then count - pages_count else count)
  = (if count =? pages_count then count else count - pages_count).
Proof.
  intros count pages_count.
  pose proof (pages_markers_le_page_markers content) as H. fold count pages_count in H.
  destruct (Z.gtb_spec count pages_count), (Z.eqb_spec count pages_count); lia.
Qed.

(** ** The file operations and [run_command] *)

Section Functions.
Context {Ext : Type} (P : Platform Ext).
Implicit Types w : World Ext.

Lemma rename_file_missing {R'} (src dst : Path) w :
  files w !! src = None ->
  rename_file (R':=R') P src dst w =
    (Normal false,
     mkWorld (delete dst (files w)) (outside w)
       (console w ++
          [nl ++ times "=" 60;
           lit "Renaming: " ++ path_str src ++ lit " -> " ++ path_str dst;
           times "=" 60;
           lit "ERROR: Failed to rename file: "
             ++ exn_str P (FileNotFoundError (path_str src) (Some (path_str dst)))])
       (spawned w)).
Proof.
  destruct w as [fs o con sp]. cbn [files outside console spawned]. intros Hsrc.
  unfold rename_file. exec.
  destruct (fs !! dst) as [c|] eqn:Hdst.
  - rewrite bool_decide_eq_true_2 by eauto. rewrite Hdst.
    replace (delete dst fs !! src) with (@None bytes)
      by (symmetry; apply lookup_delete_None; auto).
    tidy. reflexivity.
  - rewrite bool_decide_eq_false_2 by (intros [? ?]; discriminate).
    rewrite Hsrc. tidy. rewrite delete_id by assumption. reflexivity.
Qed.

Lemma rename_file_present {R'} (src dst : Path) w c :
  files w !! src = Some c -> src <> dst ->
  rename_file (R':=R') P src dst w =
    (Normal true,
     mkWorld (<[dst := c]> (delete src (files w))) (outside w)
       (console w ++
          [nl ++ times "=" 60;
           lit "Renaming: " ++ path_str src ++ lit " -> " ++ path_str dst;
           times "=" 60;
           lit "Successfully renamed to " ++ path_str dst])
       (spawned w)).
Proof.
  destruct w as [fs o con sp]. cbn [files outside console spawned]. intros Hsrc Hne.
  unfold rename_file. exec.
  destruct (fs !! dst) as [d|] eqn:Hdst.
  - rewrite bool_decide_eq_true_2 by eauto. rewrite Hdst.
    rewrite lookup_delete_ne by congruence. rewrite Hsrc. tidy.
    rewrite (delete_delete fs src dst), insert_delete_eq. reflexivity.
  - rewrite bool_decide_eq_false_2 by (intros [? ?]; discriminate).
    rewrite Hsrc. tidy. reflexivity.
Qed.

(** [rename_file] never raises and launches nothing. *)
Lemma rename_file_total {R'} (src dst : Path) w :
  exists b fs out,
    rename_file (R':=R') P src dst w =
      (Normal b, mkWorld fs (outside w) (console w ++ out) (spawned w)).
Proof.
  destruct w as [fs o con sp]. cbn [files outside console spawned].
  unfold rename_file. exec.
  destruct (fs !! dst) as [d|] eqn:Hdst.
  - rewrite bool_decide_eq_true_2 by eauto. rewrite Hdst.
    destruct (delete dst fs !! src); tidy; do 3 eexists; reflexivity.
  - rewrite bool_decide_eq_false_2 by (intros [? ?]; discriminate).
    destruct (fs !! src); tidy; do 3 eexists; reflexivity.
Qed.

(** [copy_file] never raises and launches nothing. *)
Lemma copy_file_total {R'} (src dst : Path) w :
  exists b fs out,
    copy_file (R':=R') P src dst w =
      (Normal b, mkWorld fs (outside w) (console w ++ out) (spawned w)).
Proof.
  destruct w as [fs o con sp]. cbn [files outside console spawned].
  unfold copy_file. exec.
  destruct (fs !! src); [destruct (decide (src = dst))|];
    tidy; do 3 eexists; reflexivity.
Qed.

(** [copy_file] with its source in place puts the copy at the destination. *)
Lemma copy_file_present {R'} (src dst : Path) w c :
  files w !! src = Some c -> src <> dst ->
  exists out,
    copy_file (R':=R') P src dst w =
      (Normal true, mkWorld (<[dst := c]> (files w)) (outside w) (console w ++ out) (spawned w)).
Proof.
  destruct w as [fs o con sp]. cbn [files outside console spawned]. intros Hsrc Hne.
  unfold copy_file. exec. rewrite Hsrc.
  destruct (decide (src = dst)); [contradiction|].
  tidy; eexists; reflexivity.
Qed.

(** [run_command] never raises; it answers whether the process succeeded
    and leaves the world as the process left it. *)
Lemma run_command_outcome {R'} cmd cwd inp w :
  exists out,
    run_command (R':=R') P cmd cwd inp w =
      (Normal (succeeded (answer P (mkSpawn cmd cwd inp) w)),
       mkWorld (files (after_spawn P (mkSpawn cmd cwd inp) w))
               (outside (after_spawn P (mkSpawn cmd cwd inp) w))
               (console w ++ out)
               (spawned w ++ [mkSpawn cmd cwd inp])).
Proof.
  destruct w as [fs o con sp]. cbn [files outside console spawned].
  unfold run_command. exec.
  destruct (nonempty (default [] cwd)); exec;
    (destruct (spawn P _ fs o) as [[[e|c] fs1] o1]; cbn [fst snd succeeded];
     [ tidy; eexists; reflexivity
     | destruct (nonempty (stderr c)); exec;
       destruct (returncode c =? 0); exec; tidy; eexists; reflexivity ]).
Qed.

(** When the process fails, the last line [run_command] prints reports it. *)
Lemma run_command_failure {R'} cmd cwd inp w c :
  answer P (mkSpawn cmd cwd inp) w = inr c -> returncode c <> 0 ->
  exists out,
    run_command (R':=R') P cmd cwd inp w =
      (Normal false,
       mkWorld (files (after_spawn P (mkSpawn cmd cwd inp) w))
               (outside (after_spawn P (mkSpawn cmd cwd inp) w))
               (console w ++ out ++
                  [lit "ERROR: Command failed with return code " ++ str_of_int (returncode c)])
               (spawned w ++ [mkSpawn cmd cwd inp])).
Proof.
  destruct w as [fs o con sp]. cbn [files outside console spawned].
  unfold run_command. intros Hc Hrc. apply Z.eqb_neq in Hrc.
  unfold answer in Hc. cbn [files outside] in Hc. exec.
  destruct (nonempty (default [] cwd)); exec;
    (destruct (spawn P _ fs o) as [[r fs1] o1]; cbn [fst snd] in *; subst r);
    destruct (nonempty (stderr c)); exec; rewrite Hrc; exec; tidy.
  - exists [nl ++ times "=" 60; lit "Running: " ++ join (lit " ") cmd;
            lit "Working directory: " ++ default [] cwd; times "=" 60;
            stdout c; lit "STDERR: " ++ stderr c]. reflexivity.
  - exists [nl ++ times "=" 60; lit "Running: " ++ join (lit " ") cmd;
            lit "Working directory: " ++ default [] cwd; times "=" 60;
            stdout c]. reflexivity.
  - exists [nl ++ times "=" 60; lit "Running: " ++ join (lit " ") cmd; times "=" 60;
            stdout c; lit "STDERR: " ++ stderr c]. reflexivity.
  - exists [nl ++ times "=" 60; lit "Running: " ++ join (lit " ") cmd; times "=" 60;
            stdout c]. reflexivity.
Qed.
End Functions.

(** ** The page-count resolver *)

Section Resolver.
Context {Ext : Type} (P : Platform Ext).
Implicit Types w : World Ext.

(** A tool strategy launches its tool once; it returns the integer the
    tool reports, and completes without a result otherwise: an exception
    is swallowed. *)
Lemma try_mdls_outcome path w :
  try_mdls P path w =
    (match process_answer (decimal P) mdls_pattern (answer P (mdls_call path) w) with
     | Some v => Returned (Some v)
     | None => Normal tt
     end,
     after_spawn P (mdls_call path) w).
Proof.
  destruct w as [fs o con sp]. unfold try_mdls, mdls_call. exec.
  destruct (spawn P _ fs o) as [[[e|c] fs1] o1]; cbn [fst snd process_answer]; [reflexivity|].
  destruct (returncode c =? 0); exec; [|reflexivity].
  destruct (re_search _ _ _); reflexivity.
Qed.

Lemma try_pdfinfo_outcome path w :
  try_pdfinfo P path w =
    (match process_answer (decimal P) pdfinfo_pattern (answer P (pdfinfo_call path) w) with
     | Some v => Returned (Some v)
     | None => Normal tt
     end,
     after_spawn P (pdfinfo_call path) w).
Proof.
  destruct w as [fs o con sp]. unfold try_pdfinfo, pdfinfo_call. exec.
  destruct (spawn P _ fs o) as [[[e|c] fs1] o1]; cbn [fst snd process_answer]; [reflexivity|].
  destruct (returncode c =? 0); exec; [|reflexivity].
  destruct (re_search _ _ _); reflexivity.
Qed.

(** The marker strategy on a readable file returns an integer. *)
Lemma try_markers_readable path w content :
  files w !! path = Some content ->
  try_markers path w =
    (Returned (Some
       (let count := bytes_count content (blit "/Type /Page") in
        let pages_count := bytes_count content (blit "/Type /Pages") in
        if count >? pages_count then count - pages_count else count)),
     w).
Proof.
  destruct w as [fs o con sp]. cbn [files]. intros H.
  unfold try_markers. exec. rewrite H. reflexivity.
Qed.

(** On a missing file it completes, having swallowed the exception. *)
Lemma try_markers_unreadable path w :
  files w !! path = None -> try_markers path w = (Normal tt, w).
Proof.
  destruct w as [fs o con sp]. cbn [files]. intros H.
  unfold try_markers. exec. rewrite H. reflexivity.
Qed.

Lemma try_count_unreadable path w :
  files w !! path = None -> try_count P path w = (Normal tt, w).
Proof.
  destruct w as [fs o con sp]. cbn [files]. intros H.
  unfold try_count. exec. rewrite H. reflexivity.
Qed.


(** [get_pdf_page_count] unfolded along its blocks. *)
Lemma get_pdf_page_count_blocks {R'} path w :
  get_pdf_page_count (R':=R') P path w =
    call (try_mdls P path;; try_pdfinfo P path;; try_markers path;;
          try_count P path;; return_ None) w.
Proof. reflexivity. Qed.

(** The whole resolver in one equation: the first strategy with an answer
    decides, and the later ones are not run. *)
Lemma get_pdf_page_count_outcome {R'} path w :
  let w1 := after_spawn P (mdls_call path) w in
  let w2 := after_spawn P (pdfinfo_call path) w1 in
  get_pdf_page_count (R':=R') P path w =
    match process_answer (decimal P) mdls_pattern (answer P (mdls_call path) w) with
    | Some v => (Normal (Some v), w1)
    | None =>
        match process_answer (decimal P) pdfinfo_pattern (answer P (pdfinfo_call path) w1) with
        | Some v => (Normal (Some v), w2)
        | None =>
            match files w2 !! path with
            | Some content =>
                (Normal (Some
                   (let count := bytes_count content (blit "/Type /Page") in
                    let pages_count := bytes_count content (blit "/Type /Pages") in
                    if count >? pages_count then count - pages_count else count)),
                 w2)
            | None => (Normal None, w2)
            end
        end
    end.
Proof.
  intros w1 w2. unfold get_pdf_page_count, call.
  unfold mbind at 1, M_mbind, M_bind at 1. rewrite try_mdls_outcome. fold w1.
  destruct (process_answer _ mdls_pattern _); [reflexivity|].
  unfold mbind at 1, M_bind at 1. rewrite try_pdfinfo_outcome. fold w2.
  destruct (process_answer _ pdfinfo_pattern _); [reflexivity|].
  unfold mbind at 1, M_bind at 1.
  destruct (files w2 !! path) as [content|] eqn:Hf.
  - rewrite (try_markers_readable _ _ _ Hf). reflexivity.
  - rewrite (try_markers_unreadable _ _ Hf).
    unfold mbind at 1, M_bind at 1. rewrite (try_count_unreadable _ _ Hf). reflexivity.
Qed.
End Resolver.

Lemma count_from_nonneg sub skip s : 0 <= count_from sub skip s.
Proof.
  revert skip. induction s as [|b s IH]; intros skip; simpl; [lia|].
  destruct skip; [|apply IH].
  destruct (bytes_prefix sub (b :: s)); [|apply IH].
  specialize (IH (Nat.pred (length sub))). lia.
Qed.

Lemma bytes_count_nonneg s sub : 0 <= bytes_count s sub.
Proof. apply count_from_nonneg. Qed.

Section ResolverClaims.
Context {Ext : Type} (P : Platform Ext).
Implicit Types w : World Ext.

(** When the two tools yield nothing and the file can be read, the marker
    strategy decides. *)
Lemma markers_decide {R'} path w content :
  let w1 := after_spawn P (mdls_call path) w in
  let w2 := after_spawn P (pdfinfo_call path) w1 in
  (try_mdls P path w).1 = Normal tt ->
  (try_pdfinfo P path w1).1 = Normal tt ->
  files w2 !! path = Some content ->
  get_pdf_page_count (R':=R') P path w =
    (Normal (Some
       (let count := bytes_count content (blit "/Type /Page") in
        let pages_count := bytes_count content (blit "/Type /Pages") in
        if count >? pages_count then count - pages_count else count)),
     w2).
Proof.
  intros w1 w2 H1 H2 Hf.
  rewrite get_pdf_page_count_outcome. fold w1 w2.
  rewrite try_mdls_outcome in H1. rewrite try_pdfinfo_outcome in H2. cbn [fst] in H1, H2.
  destruct (process_answer _ mdls_pattern _); [discriminate|].
  destruct (process_answer _ pdfinfo_pattern _); [discriminate|].
  rewrite Hf. reflexivity.
Qed.

(** Read as [bytes.count] counts: a byte stream in which [/Type /Page]
    occurs three times and [/Type /Pages] once has page count 2 when the
    metadata query and the introspection utility are unavailable. *)
Lemma three_page_markers_one_pages_marker path w content :
  let w1 := after_spawn P (mdls_call path) w in
  let w2 := after_spawn P (pdfinfo_call path) w1 in
  (try_mdls P path w).1 = Normal tt ->
  (try_pdfinfo P path w1).1 = Normal tt ->
  files w2 !! path = Some content ->
  bytes_count content (blit "/Type /Page") = 3 ->
  bytes_count content (blit "/Type /Pages") = 1 ->
  get_pdf_page_count (R':=unit) P path w = (Normal (Some 2), w2).
Proof.
  intros w1 w2 H1 H2 Hf H3 H4.
  rewrite (markers_decide path w content H1 H2 Hf). rewrite H3, H4. reflexivity.
Qed.

(** C3. When the metadata query and the introspection utility yield no
    value and the bytes of the file can be read, the resolver returns the
    number of [/Type /Page] markers minus the number of [/Type /Pages]
    markers if that difference is positive, and the number of
    [/Type /Page] markers otherwise. *)
Theorem marker_heuristic_result path w content :
  let w1 := after_spawn P (mdls_call path) w in
  let w2 := after_spawn P (pdfinfo_call path) w1 in
  (try_mdls P path w).1 = Normal tt ->
  (try_pdfinfo P path w1).1 = Normal tt ->
  files w2 !! path = Some content ->
  get_pdf_page_count (R':=unit) P path w =
    (Normal (Some
       (let page_markers := bytes_count content (blit "/Type /Page") in
        let pages_markers := bytes_count content (blit "/Type /Pages") in
        if 0 <? page_markers - pages_markers
        then page_markers - pages_markers
        else page_markers)),
     w2).
Proof.
  intros w1 w2 H1 H2 Hf.
  rewrite (markers_decide path w content H1 H2 Hf). cbv zeta.
  replace (0 <? bytes_count content (blit "/Type /Page")
                - bytes_count content (blit "/Type /Pages"))
    with (bytes_count content (blit "/Type /Page")
            >? bytes_count content (blit "/Type /Pages")); [reflexivity|].
  rewrite Z.gtb_ltb. apply eq_iff_eq_true. rewrite !Z.ltb_lt. lia.
Qed.

(** C4. When [mdls] exits with status 0 and its output carries the
    page-count attribute with a positive value, the resolver returns that
    value; no other strategy is consulted: [pdfinfo] is not launched and
    the file is not read. *)
Theorem metadata_value_is_returned path w c g :
  answer P (mdls_call path) w = inr c ->
  returncode c = 0 ->
  re_search (decimal P) mdls_pattern (stdout c) = Some g ->
  0 < int_of_digits (decimal P) g ->
  get_pdf_page_count (R':=unit) P path w =
    (Normal (Some (int_of_digits (decimal P) g)), after_spawn P (mdls_call path) w).
Proof.
  intros Hc Hrc Hg _.
  rewrite get_pdf_page_count_outcome. rewrite Hc. cbn [process_answer].
  rewrite Hrc, Hg. reflexivity.
Qed.

(** The same for the line [mdls] prints: a file of [n] pages, reported as
    [kMDItemNumberOfPages = n], has page count [n]. *)
Lemma mdls_page_count_is_returned path w (n : N) err :
  ascii_digits (decimal P) ->
  decimal P 10%N = None ->
  answer P (mdls_call path) w
  = inr (mkCompleted 0 (lit "kMDItemNumberOfPages = " ++ str_of_N n ++ nl) err) ->
  get_pdf_page_count (R':=unit) P path w
  = (Normal (Some (Z.of_N n)), after_spawn P (mdls_call path) w).
Proof.
  intros Hd Hnl Ha.
  destruct (mdls_line_is_parsed (decimal P) n Hd Hnl) as [Hs Hi].
  rewrite get_pdf_page_count_outcome, Ha. cbn [process_answer returncode stdout].
  change (0 =? 0) with true. cbv iota. rewrite Hs. cbn [fmap option_fmap option_map].
  now rewrite Hi.
Qed.


(** C6, as the code has it. Every integer the resolver returns is
    non-negative, and it is the value of the first block that returns one:
    the blocks run in the fixed order and the first value is returned as it
    is, zero included. *)
Theorem resolver_result_nonnegative path w v w' :
  let w1 := after_spawn P (mdls_call path) w in
  let w2 := after_spawn P (pdfinfo_call path) w1 in
  get_pdf_page_count (R':=unit) P path w = (Normal (Some v), w') ->
  0 <= v
  /\ ((try_mdls P path w).1 = Returned (Some v)
      \/ ((try_mdls P path w).1 = Normal tt
          /\ (try_pdfinfo P path w1).1 = Returned (Some v))
      \/ ((try_mdls P path w).1 = Normal tt
          /\ (try_pdfinfo P path w1).1 = Normal tt
          /\ (try_markers path w2).1 = Returned (Some v))
      \/ ((try_mdls P path w).1 = Normal tt
          /\ (try_pdfinfo P path w1).1 = Normal tt
          /\ (try_markers path w2).1 = Normal tt
          /\ (try_count P path w2).1 = Returned (Some v))).
Proof.
  intros w1 w2. rewrite get_pdf_page_count_outcome. fold w1 w2.
  rewrite try_mdls_outcome, try_pdfinfo_outcome. cbn [fst].
  destruct (answer P (mdls_call path) w) as [e|c] eqn:Ha; cbn [process_answer].
  2: destruct (returncode c =? 0).
  2: destruct (re_search (decimal P) mdls_pattern (stdout c)) as [g|]; cbn [fmap option_fmap option_map].
  2: { intros [= <- <-]. split; [apply int_of_digits_nonneg|]. left. reflexivity. }
  all: destruct (answer P (pdfinfo_call path) w1) as [e'|c'] eqn:Hb; cbn [process_answer].
  all: try destruct (returncode c' =? 0).
  all: try destruct (re_search (decimal P) pdfinfo_pattern (stdout c')) as [g'|];
    cbn [fmap option_fmap option_map].
  all: try (intros [= <- <-]; split; [apply int_of_digits_nonneg|]; right; left; split; reflexivity).
  all: destruct (files w2 !! path) as [content|] eqn:Hf; [|discriminate].
  all: intros [= <- <-]; split;
    [ cbv zeta; pose proof (bytes_count_nonneg content (blit "/Type /Page"));
      destruct (Z.gtb_spec (bytes_count content (blit "/Type /Page"))
                           (bytes_count content (blit "/Type /Pages"))); lia
    | right; right; left; rewrite (try_markers_readable _ _ _ Hf); repeat split ].
Qed.

(** C10. On a readable file the marker strategy always returns an integer,
    zero at the least; it hands over to the [/Count] fallback only when
    reading the file raises; so once the resolver gets to the marker
    strategy with a readable file, its result is not [None]. *)
Theorem marker_strategy_always_answers path w :
  let w1 := after_spawn P (mdls_call path) w in
  let w2 := after_spawn P (pdfinfo_call path) w1 in
  (forall content,
      files w !! path = Some content ->
      exists n, 0 <= n /\ try_markers path w = (Returned (Some n), w))
  /\ (forall w', try_markers path w = (Normal tt, w') -> files w !! path = None)
  /\ (forall content,
        (try_mdls P path w).1 = Normal tt ->
        (try_pdfinfo P path w1).1 = Normal tt ->
        files w2 !! path = Some content ->
        exists n, get_pdf_page_count (R':=unit) P path w = (Normal (Some n), w2)).
Proof.
  intros w1 w2. split; [|split].
  - intros content Hf. rewrite (try_markers_readable _ _ _ Hf).
    eexists; split; [|reflexivity]. cbv zeta.
    pose proof (bytes_count_nonneg content (blit "/Type /Page")).
    destruct (Z.gtb_spec (bytes_count content (blit "/Type /Page"))
                         (bytes_count content (blit "/Type /Pages"))); lia.
  - intros w' H. destruct (files w !! path) eqn:Hf; [|reflexivity].
    rewrite (try_markers_readable _ _ _ Hf) in H. discriminate.
  - intros content H1 H2 Hf. rewrite (markers_decide path w content H1 H2 Hf). eauto.
Qed.
End ResolverClaims.

(** *** Page objects and pages collections *)

Lemma agrees_drop_step (m : bytes) (n : nat) (b : byte) (s : bytes) :
  agrees (drop n m) (b :: s) = true -> agrees (drop (S n) m) s = true.
Proof.
  destruct (m !! n) as [x|] eqn:Hx.
  - rewrite (drop_S _ _ _ Hx). simpl. intros H. now apply andb_prop in H as [_ H].
  - intros _. rewrite drop_ge; [reflexivity|]. apply lookup_ge_None in Hx. lia.
Qed.

(** The two counts of the heuristic in terms of the markers: every
    pages-collection marker is counted as an occurrence of [/Type /Page]
    too. The three scans are followed side by side; [k1] and [k2] are what
    the two [bytes.count] scans have left to skip, [k3] what the scan of the
    markers has. *)
Lemma counts_by_kind_from (s : bytes) (k1 k2 k3 : nat) :
  (k1 = 0 /\ k2 = 0 /\ k3 = 0)%nat
  \/ ((1 <= k1 <= 10)%nat /\ k3 = k1 /\ k2 = 0%nat
      /\ agrees (drop (11 - k1) (blit "/Type /Page")) s = true)
  \/ ((1 <= k2 <= 11)%nat /\ k3 = k2 /\ k1 = (k2 - 1)%nat
      /\ agrees (drop (12 - k2) (blit "/Type /Pages")) s = true) ->
  count_from (blit "/Type /Page") k1 s
  = fst (markers_from k3 s) + snd (markers_from k3 s)
  /\ count_from (blit "/Type /Pages") k2 s = snd (markers_from k3 s).
Proof.
  revert k1 k2 k3. induction s as [|b s IH]; intros k1 k2 k3 Hinv; [split; reflexivity|].
  assert (Hpages_page : bytes_prefix (blit "/Type /Pages") (b :: s) = true ->
                        bytes_prefix (blit "/Type /Page") (b :: s) = true)
    by exact (bytes_prefix_app_l (blit "/Type /Page") (blit "s") (b :: s)).
  assert (Hafter_page : bytes_prefix (blit "/Type /Page") (b :: s) = true ->
            agrees (drop (11 - 10) (blit "/Type /Page")) s = true).
  { intros H. change (bytes_prefix (blit "/Type /Page") (b :: s))
      with (Byte.eqb "/"%byte b && bytes_prefix (drop 1 (blit "/Type /Page")) s) in H.
    apply andb_prop in H as [_ H]. now apply agrees_of_prefix. }
  assert (Hafter_pages : bytes_prefix (blit "/Type /Pages") (b :: s) = true ->
            agrees (drop (12 - 11) (blit "/Type /Pages")) s = true).
  { intros H. change (bytes_prefix (blit "/Type /Pages") (b :: s))
      with (Byte.eqb "/"%byte b && bytes_prefix (drop 1 (blit "/Type /Pages")) s) in H.
    apply andb_prop in H as [_ H]. now apply agrees_of_prefix. }
  assert (Upage : count_from (blit "/Type /Page") 0 (b :: s)
                  = if bytes_prefix (blit "/Type /Page") (b :: s)
                    then 1 + count_from (blit "/Type /Page") 10 s
                    else count_from (blit "/Type /Page") 0 s) by reflexivity.
  assert (Upages : count_from (blit "/Type /Pages") 0 (b :: s)
                   = if bytes_prefix (blit "/Type /Pages") (b :: s)
                     then 1 + count_from (blit "/Type /Pages") 11 s
                     else count_from (blit "/Type /Pages") 0 s) by reflexivity.
  assert (Umarkers : markers_from 0 (b :: s)
                     = if bytes_prefix (blit "/Type /Pages") (b :: s)
                       then (fst (markers_from 11 s), 1 + snd (markers_from 11 s))
                       else if bytes_prefix (blit "/Type /Page") (b :: s)
                            then (1 + fst (markers_from 10 s), snd (markers_from 10 s))
                            else markers_from 0 s) by reflexivity.
  assert (Spage : forall k, count_from (blit "/Type /Page") (S k) (b :: s)
                            = count_from (blit "/Type /Page") k s) by reflexivity.
  assert (Spages : forall k, count_from (blit "/Type /Pages") (S k) (b :: s)
                             = count_from (blit "/Type /Pages") k s) by reflexivity.
  assert (Smarkers : forall k, markers_from (S k) (b :: s) = markers_from k s) by reflexivity.
  destruct Hinv as [(-> & -> & ->)|[(Hk & -> & -> & Hag)|(Hk & -> & -> & Hag)]].
  - (* all three scans look at this byte *)
    rewrite Upage, Upages, Umarkers.
    destruct (bytes_prefix (blit "/Type /Pages") (b :: s)) eqn:Hq.
    + rewrite (Hpages_page eq_refl). cbn [fst snd].
      destruct (IH 10%nat 11%nat 11%nat) as [E1 E2].
      { right. right. split; [lia|]. split; [reflexivity|]. split; [reflexivity|].
        exact (Hafter_pages eq_refl). }
      rewrite E1, E2. split; lia.
    + destruct (bytes_prefix (blit "/Type /Page") (b :: s)) eqn:Hp.
      * cbn [fst snd].
        destruct (IH 10%nat 0%nat 10%nat) as [E1 E2].
        { right. left. split; [lia|]. split; [reflexivity|]. split; [reflexivity|].
          exact (Hafter_page eq_refl). }
        rewrite E1, E2. split; lia.
      * apply IH. left. auto.
  - (* behind a page-object marker: no pages-collection marker starts here *)
    destruct k1 as [|k1]; [lia|]. rewrite Spage, Smarkers, Upages.
    assert (Hq : bytes_prefix (blit "/Type /Pages") (b :: s) = false).
    { destruct (bytes_prefix (blit "/Type /Pages") (b :: s)) eqn:Hq; [|reflexivity].
      destruct (bytes_prefix_inv _ _ Hq) as [rest Hrest]. rewrite Hrest in Hag.
      rewrite page_marker_has_no_border in Hag by lia. discriminate. }
    rewrite Hq. apply IH.
    destruct k1 as [|k1]; [left; auto|].
    right. left. split; [lia|]. split; [reflexivity|]. split; [reflexivity|].
    replace (11 - S k1)%nat with (S (11 - S (S k1))) by lia.
    exact (agrees_drop_step _ _ _ _ Hag).
  - (* behind a pages-collection marker *)
    destruct k2 as [|k2]; [lia|]. rewrite Spages, Smarkers.
    replace (S k2 - 1)%nat with k2 by lia.
    destruct k2 as [|k2].
    + (* its last byte: the scan for page objects looks at it, in vain *)
      rewrite Upage.
      assert (Hp : bytes_prefix (blit "/Type /Page") (b :: s) = false).
      { change (agrees (drop (12 - 1) (blit "/Type /Pages")) (b :: s))
          with (Byte.eqb "s"%byte b && true) in Hag.
        apply andb_prop in Hag as [Hb _]. apply Byte.byte_dec_bl in Hb. subst b.
        reflexivity. }
      rewrite Hp. apply IH. left. auto.
    + rewrite Spage. apply IH. right. right.
      split; [lia|]. split; [reflexivity|]. split; [lia|].
      replace (12 - S k2)%nat with (S (12 - S (S k2))) by lia.
      exact (agrees_drop_step _ _ _ _ Hag).
Qed.

Lemma counts_by_kind (content : bytes) :
  bytes_count content (blit "/Type /Page")
  = page_object_markers content + pages_collection_markers content
  /\ bytes_count content (blit "/Type /Pages") = pages_collection_markers content.
Proof. apply counts_by_kind_from. left. auto. Qed.

Lemma markers_from_nonneg (skip : nat) (s : bytes) :
  0 <= fst (markers_from skip s) /\ 0 <= snd (markers_from skip s).
Proof.
  revert skip. induction s as [|b s IH]; intros skip; [split; reflexivity|].
  destruct skip as [|k]; [|apply IH].
  change (markers_from 0 (b :: s))
    with (if bytes_prefix (blit "/Type /Pages") (b :: s)
          then (fst (markers_from 11 s), 1 + snd (markers_from 11 s))
          else if bytes_prefix (blit "/Type /Page") (b :: s)
               then (1 + fst (markers_from 10 s), snd (markers_from 10 s))
               else markers_from 0 s).
  destruct (bytes_prefix (blit "/Type /Pages") (b :: s)).
  - cbn [fst snd]. destruct (IH 11%nat). split; lia.
  - destruct (bytes_prefix (blit "/Type /Page") (b :: s)); [|apply IH].
    cbn [fst snd]. destruct (IH 10%nat). split; lia.
Qed.

Section MarkerKinds.
Context {Ext : Type} (P : Platform Ext).
Implicit Types w : World Ext.

(** The heuristic in terms of the markers: the number of page-object
    markers when there is one, the number of pages-collection markers
    otherwise. *)
Lemma marker_heuristic_by_kind path w content :
  let w1 := after_spawn P (mdls_call path) w in
  let w2 := after_spawn P (pdfinfo_call path) w1 in
  (try_mdls P path w).1 = Normal tt ->
  (try_pdfinfo P path w1).1 = Normal tt ->
  files w2 !! path = Some content ->
  get_pdf_page_count (R':=unit) P path w =
    (Normal (Some (if 0 <? page_object_markers content
                   then page_object_markers content
                   else pages_collection_markers content)),
     w2).
Proof.
  intros w1 w2 H1 H2 Hf.
  rewrite (markers_decide P path w content H1 H2 Hf). cbv zeta.
  destruct (counts_by_kind content) as [-> ->].
  destruct (markers_from_nonneg 0 content) as [Ha Hb].
  fold (page_object_markers content) in Ha. fold (pages_collection_markers content) in Hb.
  do 3 f_equal.
  destruct (Z.gtb_spec (page_object_markers content + pages_collection_markers content)
                       (pages_collection_markers content)),
           (Z.ltb_spec 0 (page_object_markers content)); lia.
Qed.

(** C2, as the code has it. A byte stream with three page-object markers
    and one pages-collection marker has page count 3 when the metadata query
    and the introspection utility are unavailable: the pages-collection
    marker is itself counted as an occurrence of [/Type /Page], which makes
    four, and one is subtracted. The count is 2 for a stream in which
    [/Type /Page] occurs three times in all, one of them at the start of the
    single [/Type /Pages]: two page objects and one collection. *)
Theorem three_page_objects_one_pages_collection path w content :
  let w1 := after_spawn P (mdls_call path) w in
  let w2 := after_spawn P (pdfinfo_call path) w1 in
  (try_mdls P path w).1 = Normal tt ->
  (try_pdfinfo P path w1).1 = Normal tt ->
  files w2 !! path = Some content ->
  (page_object_markers content = 3 ->
   pages_collection_markers content = 1 ->
   bytes_count content (blit "/Type /Page") = 4
   /\ bytes_count content (blit "/Type /Pages") = 1
   /\ get_pdf_page_count (R':=unit) P path w = (Normal (Some 3), w2))
  /\ (bytes_count content (blit "/Type /Page") = 3 ->
      bytes_count content (blit "/Type /Pages") = 1 ->
      page_object_markers content = 2
      /\ pages_collection_markers content = 1
      /\ get_pdf_page_count (R':=unit) P path w = (Normal (Some 2), w2)).
Proof.
  intros w1 w2 H1 H2 Hf.
  pose proof (marker_heuristic_by_kind path w content H1 H2 Hf) as E. cbv zeta in E.
  destruct (counts_by_kind content) as [E1 E2].
  split.
  - intros Ha Hb. rewrite E1, E2, Ha, Hb. split; [reflexivity|]. split; [reflexivity|].
    rewrite E, Ha. reflexivity.
  - intros Hc Hd. rewrite E2 in Hd. rewrite E1, Hd in Hc.
    assert (Ha : page_object_markers content = 2) by lia.
    split; [exact Ha|]. split; [exact Hd|]. rewrite E, Ha. reflexivity.
Qed.
End MarkerKinds.

(** *** The resolver on the concrete machine *)

(** C2, as the spec has it, fails: the document of three pages has three
    page-object markers and one pages-collection marker, and its page count
    is 3. *)
Lemma three_page_objects_give_three :
  page_object_markers three_page_pdf = 3
  /\ pages_collection_markers three_page_pdf = 1
  /\ (get_pdf_page_count (R':=unit) (Demo.platform Demo.fine) Demo.pdf
        (Demo.with_pdf three_page_pdf)).1 = Normal (Some 3)
  /\ ~ three_page_objects_give_two (Demo.platform Demo.fine) Demo.pdf
         (Demo.with_pdf three_page_pdf).
Proof.
  assert (E : (get_pdf_page_count (R':=unit) (Demo.platform Demo.fine) Demo.pdf
                 (Demo.with_pdf three_page_pdf)).1 = Normal (Some 3))
    by (vm_compute; exact eq_refl).
  split; [vm_compute; exact eq_refl|]. split; [vm_compute; exact eq_refl|].
  split; [exact E|].
  intros H. unfold three_page_objects_give_two in H. cbv zeta in H.
  specialize (H three_page_pdf).
  rewrite H in E.
  - discriminate E.
  - vm_compute; exact eq_refl.
  - vm_compute; exact eq_refl.
  - vm_compute; exact eq_refl.
  - vm_compute; exact eq_refl.
  - vm_compute; exact eq_refl.
Qed.

Lemma three_page_objects_one_pages_collection_witness :
  (get_pdf_page_count (R':=unit) (Demo.platform Demo.fine) Demo.pdf
     (Demo.with_pdf three_page_pdf)).1 = Normal (Some 3)
  /\ (get_pdf_page_count (R':=unit) (Demo.platform Demo.fine) Demo.pdf
        (Demo.with_pdf Demo.two_page_pdf)).1 = Normal (Some 2).
Proof.
  split.
  - destruct (three_page_objects_one_pages_collection (Demo.platform Demo.fine) Demo.pdf
                (Demo.with_pdf three_page_pdf) three_page_pdf) as [H _].
    + vm_compute; exact eq_refl.
    + vm_compute; exact eq_refl.
    + vm_compute; exact eq_refl.
    + destruct H as (_ & _ & ->); [vm_compute; exact eq_refl|vm_compute; exact eq_refl|].
      reflexivity.
  - destruct (three_page_objects_one_pages_collection (Demo.platform Demo.fine) Demo.pdf
                (Demo.with_pdf Demo.two_page_pdf) Demo.two_page_pdf) as [_ H].
    + vm_compute; exact eq_refl.
    + vm_compute; exact eq_refl.
    + vm_compute; exact eq_refl.
    + destruct H as (_ & _ & ->); [vm_compute; exact eq_refl|vm_compute; exact eq_refl|].
      reflexivity.
Defined.

Lemma three_page_markers_one_pages_marker_witness :
  (get_pdf_page_count (R':=unit) (Demo.platform Demo.fine) Demo.pdf
     (Demo.with_pdf Demo.two_page_pdf)).1 = Normal (Some 2).
Proof.
  rewrite (three_page_markers_one_pages_marker (Demo.platform Demo.fine) Demo.pdf
             (Demo.with_pdf Demo.two_page_pdf) Demo.two_page_pdf);
    vm_compute; exact eq_refl.
Defined.

Lemma marker_heuristic_result_witness :
  (get_pdf_page_count (R':=unit) (Demo.platform Demo.fine) Demo.pdf
     (Demo.with_pdf Demo.one_page_pdf)).1 = Normal (Some 1).
Proof.
  rewrite (marker_heuristic_result (Demo.platform Demo.fine) Demo.pdf
             (Demo.with_pdf Demo.one_page_pdf) Demo.one_page_pdf);
    vm_compute; exact eq_refl.
Defined.

Lemma metadata_value_is_returned_witness :
  (get_pdf_page_count (R':=unit) (Demo.mac "5") Demo.pdf
     (Demo.with_pdf Demo.two_page_pdf)).1 = Normal (Some 5).
Proof.
  rewrite (metadata_value_is_returned (Demo.mac "5") Demo.pdf
             (Demo.with_pdf Demo.two_page_pdf)
             (mkCompleted 0 (lit "kMDItemNumberOfPages = " ++ lit "5" ++ nl) [])
             (lit "5"));
    vm_compute; exact eq_refl.
Defined.


(** C6, as the spec has it, fails: the marker strategy returns 0 for a
    document without a page marker. *)
Lemma resolver_returns_zero :
  get_pdf_page_count (R':=unit) (Demo.platform Demo.fine) Demo.pdf
    (Demo.with_pdf (blit "%PDF-1.4"))
  = (Normal (Some 0),
     after_spawn (Demo.platform Demo.fine) (pdfinfo_call Demo.pdf)
       (after_spawn (Demo.platform Demo.fine) (mdls_call Demo.pdf)
          (Demo.with_pdf (blit "%PDF-1.4"))))
  /\ ~ resolver_result_positive (Demo.platform Demo.fine) Demo.pdf
         (Demo.with_pdf (blit "%PDF-1.4")).
Proof.
  assert (E : get_pdf_page_count (R':=unit) (Demo.platform Demo.fine) Demo.pdf
                (Demo.with_pdf (blit "%PDF-1.4"))
              = (Normal (Some 0),
                 after_spawn (Demo.platform Demo.fine) (pdfinfo_call Demo.pdf)
                   (after_spawn (Demo.platform Demo.fine) (mdls_call Demo.pdf)
                      (Demo.with_pdf (blit "%PDF-1.4")))))
    by (vm_compute; exact eq_refl).
  split; [exact E|].
  intros H. specialize (H _ _ E). lia.
Qed.

Lemma resolver_result_nonnegative_witness :
  0 <= 0
  /\ (try_markers Demo.pdf
        (after_spawn (Demo.platform Demo.fine) (pdfinfo_call Demo.pdf)
           (after_spawn (Demo.platform Demo.fine) (mdls_call Demo.pdf)
              (Demo.with_pdf (blit "%PDF-1.4"))))).1 = Returned (Some 0).
Proof.
  destruct (resolver_result_nonnegative (Demo.platform Demo.fine) Demo.pdf
              (Demo.with_pdf (blit "%PDF-1.4")) 0
              (after_spawn (Demo.platform Demo.fine) (pdfinfo_call Demo.pdf)
                 (after_spawn (Demo.platform Demo.fine) (mdls_call Demo.pdf)
                    (Demo.with_pdf (blit "%PDF-1.4")))))
    as [H _]; [vm_compute; exact eq_refl|].
  split; [exact H|vm_compute; exact eq_refl].
Defined.

Lemma marker_strategy_always_answers_witness :
  exists n, get_pdf_page_count (R':=unit) (Demo.platform Demo.fine) Demo.pdf
              (Demo.with_pdf (blit "/Count 7"))
            = (Normal (Some n),
               after_spawn (Demo.platform Demo.fine) (pdfinfo_call Demo.pdf)
                 (after_spawn (Demo.platform Demo.fine) (mdls_call Demo.pdf)
                    (Demo.with_pdf (blit "/Count 7")))).
Proof.
  destruct (marker_strategy_always_answers (Demo.platform Demo.fine) Demo.pdf
              (Demo.with_pdf (blit "/Count 7"))) as (_ & _ & H).
  apply (H (blit "/Count 7")); vm_compute; exact eq_refl.
Defined.

(** ** The stamping loop *)




Section Stamping.
Context {Ext : Type} (P : Platform Ext) (base_dir : Path).
Implicit Types w : World Ext.

(** One turn of the loop.  It launches the stamp call for its page; when
    curl exits with status 0 and has left [output_temp.pdf], that file
    replaces the document and the loop goes on; in every other case the
    turn executes [return 1] with the files as the call left them. *)
Lemma stamp_page_outcome N page w :
  let w1 := after_spawn P (stamp_call base_dir page) w in
  exists out,
    stamp_page P base_dir N page w =
      match answer P (stamp_call base_dir page) w, files w1 !! temp_output base_dir with
      | inr c, Some doc =>
          if returncode c =? 0
          then (Normal tt,
                mkWorld (<[output_pdf_file base_dir := doc]>
                           (delete (temp_output base_dir) (files w1)))
                        (outside w1) (console w ++ out) (spawned w1))
          else (Returned 1, mkWorld (files w1) (outside w1) (console w ++ out) (spawned w1))
      | _, _ => (Returned 1, mkWorld (files w1) (outside w1) (console w ++ out) (spawned w1))
      end.
Proof.
  destruct w as [fs o con sp]. unfold stamp_page, stamp_call. exec.
  destruct (spawn P _ fs o) as [[[e|c] fs1] o1]; cbn [fst snd].
  - tidy. destruct (fs1 !! temp_output base_dir); eexists; reflexivity.
  - destruct (nonempty (stderr c)); exec; destruct (returncode c =? 0); exec;
      destruct (fs1 !! temp_output base_dir); tidy; eexists; reflexivity.
Qed.

(** A turn never raises, and it launches exactly its own call. *)
Lemma stamp_page_cases N page w :
  exists w',
    (stamp_page P base_dir N page w = (Normal tt, w')
     \/ stamp_page P base_dir N page w = (Returned 1, w'))
    /\ spawned w' = spawned w ++ [stamp_call base_dir page].
Proof.
  destruct (stamp_page_outcome N page w) as [out ->].
  destruct (answer _ _ _) as [e|c]; [eauto|].
  destruct (files _ !! _); [|eauto].
  destruct (returncode c =? 0); eauto.
Qed.

Lemma stamp_page_launches N page w r w' :
  stamp_page P base_dir N page w = (r, w') ->
  spawned w' = spawned w ++ [stamp_call base_dir page].
Proof.
  destruct (stamp_page_cases N page w) as (w1 & [E|E] & Hs); rewrite E; intros [= <- <-]; exact Hs.
Qed.

(** A turn that completes has put the output of its call in the place of
    the document. *)
Lemma stamp_page_replaces N page w w' :
  stamp_page P base_dir N page w = (Normal tt, w') ->
  exists c doc,
    answer P (stamp_call base_dir page) w = inr c /\ returncode c = 0
    /\ files (after_spawn P (stamp_call base_dir page) w) !! temp_output base_dir = Some doc
    /\ files w' = <[output_pdf_file base_dir := doc]>
                    (delete (temp_output base_dir)
                       (files (after_spawn P (stamp_call base_dir page) w))).
Proof.
  destruct (stamp_page_outcome N page w) as [out ->].
  destruct (answer _ _ _) as [e|c]; [discriminate|].
  destruct (files _ !! _) as [doc|]; [|discriminate].
  destruct (returncode c =? 0) eqn:Hrc; [|discriminate].
  intros [= <-]. exists c, doc. apply Z.eqb_eq in Hrc. auto.
Qed.


(** The calls of a loop that completes: one for each page, in order. *)
Lemma stamp_pages_complete N pages w w' :
  for_ pages (stamp_page P base_dir N) w = (Normal tt, w') ->
  spawned w' = spawned w ++ map (stamp_call base_dir) pages.
Proof.
  revert w. induction pages as [|p pages IH]; intros w; simpl.
  - intros [= <-]. now rewrite app_nil_r.
  - unfold mbind, M_mbind, M_bind.
    destruct (stamp_page P base_dir N p w) as [[[]|r|e] w1] eqn:E; try discriminate.
    intros H. rewrite (IH _ H), (stamp_page_launches _ _ _ _ _ E).
    now rewrite <- app_assoc.
Qed.


(** The loop never raises. *)
Lemma stamp_pages_total N pages w :
  exists w',
    for_ pages (stamp_page P base_dir N) w = (Normal tt, w')
    \/ for_ pages (stamp_page P base_dir N) w = (Returned 1, w').
Proof.
  revert w. induction pages as [|p pages IH]; intros w; simpl; [eauto|].
  unfold mbind, M_mbind, M_bind.
  destruct (stamp_page_cases N p w) as (w1 & [E|E] & _); rewrite E; eauto.
Qed.



End Stamping.


(** ** [main] *)

Section MainFacts.
Context {Ext : Type} (P : Platform Ext) (base_dir : Path).
Implicit Types w : World Ext.

(** [main] runs its steps in order. *)
Lemma main_body_steps w :
  main_body P base_dir w =
    (prologue;; foldr (fun s k => s;; k) (epilogue base_dir) (steps P base_dir)) w.
Proof. reflexivity. Qed.

(** A step that executes [return c] after the steps before it have
    completed ends [main] with [c], in the world the step left. *)
Lemma steps_return (before behind : list (M Ext Z unit)) (s : M Ext Z unit)
    (last : M Ext Z Empty_set) (first : M Ext Z unit) w0 w w' c :
  (first;; for_ before (fun s => s)) w0 = (Normal tt, w) ->
  s w = (Returned c, w') ->
  (first;; foldr (fun s k => s;; k) last (before ++ s :: behind)) w0 = (Returned c, w').
Proof.
  unfold mbind, M_mbind, M_bind.
  destruct (first w0) as [[[]|r|e] w1]; try discriminate.
  revert w1. induction before as [|b before IH]; intros w1; simpl.
  - intros [= ->] Hs. unfold mbind, M_mbind, M_bind. now rewrite Hs.
  - unfold mbind, M_mbind, M_bind.
    destruct (b w1) as [[[]|r|e] w2]; try discriminate. apply IH.
Qed.

Lemma steps_raise (before behind : list (M Ext Z unit)) (s : M Ext Z unit)
    (last : M Ext Z Empty_set) (first : M Ext Z unit) w0 w w' e :
  (first;; for_ before (fun s => s)) w0 = (Normal tt, w) ->
  s w = (Raised e, w') ->
  (first;; foldr (fun s k => s;; k) last (before ++ s :: behind)) w0 = (Raised e, w').
Proof.
  unfold mbind, M_mbind, M_bind.
  destruct (first w0) as [[[]|r|e0] w1]; try discriminate.
  revert w1. induction before as [|b before IH]; intros w1; simpl.
  - intros [= ->] Hs. unfold mbind, M_mbind, M_bind. now rewrite Hs.
  - unfold mbind, M_mbind, M_bind.
    destruct (b w1) as [[[]|r|e0] w2]; try discriminate. apply IH.
Qed.

(** The same for step number [k + 1] of [main]. *)
Lemma main_returns_at (k : nat) s w0 w w' c :
  steps P base_dir !! k = Some s ->
  reaches P base_dir k w0 w ->
  s w = (Returned c, w') ->
  main P base_dir w0 = (Normal c, w').
Proof.
  intros Hk Hr Hs. unfold main, call. rewrite main_body_steps.
  rewrite <- (take_drop_middle _ _ _ Hk).
  now rewrite (steps_return _ _ _ _ _ _ _ _ _ Hr Hs).
Qed.

Lemma main_raises_at (k : nat) s w0 w w' e :
  steps P base_dir !! k = Some s ->
  reaches P base_dir k w0 w ->
  s w = (Raised e, w') ->
  main P base_dir w0 = (Raised e, w').
Proof.
  intros Hk Hr Hs. unfold main, call. rewrite main_body_steps.
  rewrite <- (take_drop_middle _ _ _ Hk).
  now rewrite (steps_raise _ _ _ _ _ _ _ _ _ Hr Hs).
Qed.

End MainFacts.

Section RenameClaim.
Context {Ext : Type} (P : Platform Ext) (base_dir : Path).
Implicit Types w : World Ext.

End RenameClaim.




(** ** The HTTP steps *)

Section HttpSteps.
Context {Ext : Type} (P : Platform Ext) (base_dir : Path).
Implicit Types w : World Ext.


(** The render call, once input.json has been read. *)
Lemma step11_outcome w raw text :
  files w !! pdfgen_input_file base_dir = Some raw ->
  utf8_decode raw = Some text ->
  let c := render_call base_dir (universal_newlines text) in
  exists out,
    step11 P base_dir w =
      (if succeeded (answer P c w) then Normal tt else Returned 1,
       mkWorld (files (after_spawn P c w)) (outside (after_spawn P c w))
               (console w ++ out) (spawned w ++ [c])).
Proof.
  destruct w as [fs o con sp]. cbn [files]. intros Hf Hd. cbv zeta.
  unfold step11, banner, render_call. exec. rewrite Hf, Hd. exec.
  destruct (spawn P _ fs o) as [[[e|c] fs1] o1]; cbn [fst snd succeeded].
  - tidy; eexists; reflexivity.
  - destruct (nonempty (stderr c)); exec; destruct (returncode c =? 0); exec;
      tidy; eexists; reflexivity.
Qed.

(** When input.json cannot be read as UTF-8 text, the exception leaves
    step 11, and nothing is printed on its way out. *)
Lemma step11_undecodable w raw :
  files w !! pdfgen_input_file base_dir = Some raw ->
  utf8_decode raw = None ->
  step11 P base_dir w =
    (Raised UnicodeDecodeError,
     mkWorld (files w) (outside w)
       (console w ++ [nl ++ nl ++ times "#" 70;
                      lit "# STEP 11: Calling Docx-to-PDF API and saving PDF output";
                      times "#" 70])
       (spawned w)).
Proof.
  destruct w as [fs o con sp]. cbn [files outside console spawned]. intros Hf Hd.
  unfold step11, banner. exec. rewrite Hf, Hd. exec. tidy. reflexivity.
Qed.
End HttpSteps.



Section HttpClaim.
Context {Ext : Type} (P : Platform Ext) (base_dir : Path).
Implicit Types w : World Ext.

End HttpClaim.



(** ** Exit status and failing steps *)

Section ExitStatus.
Context {Ext : Type} (P : Platform Ext) (base_dir : Path).
Implicit Types w : World Ext.
Implicit Types s : M Ext Z unit.

(** The shape of ten of the twelve steps: a banner, a helper that answers
    [True] or [False], and on [False] an error line and [return 1]. *)
Lemma guarded_step (title : string) (f : M Ext Z bool) (message : str) w :
  (forall w, exists b w', f w = (Normal b, w')) ->
  exists w',
    (banner title;; ok ← f; when_ (negb ok) (print message;; return_ 1)) w = (Normal tt, w')
    \/ ((banner title;; ok ← f; when_ (negb ok) (print message;; return_ 1)) w
        = (Returned 1, w')
        /\ last (console w') = Some message).
Proof.
  intros Hf. unfold banner. exec.
  match goal with |- context [f ?w0] => destruct (Hf w0) as (b & w1 & ->) end.
  destruct b; exec; [eauto|].
  eexists. right. split; [reflexivity|]. cbn [console]. apply last_snoc.
Qed.

Lemma run_command_total cmd cwd inp w :
  exists b w', run_command (R':=Z) P cmd cwd inp w = (Normal b, w').
Proof. destruct (run_command_outcome (R':=Z) P cmd cwd inp w) as [out ->]. eauto. Qed.

Lemma rename_file_answers src dst w :
  exists b w', rename_file (R':=Z) P src dst w = (Normal b, w').
Proof. destruct (rename_file_total (R':=Z) P src dst w) as (b & fs & out & ->). eauto. Qed.

Lemma copy_file_answers src dst w :
  exists b w', copy_file (R':=Z) P src dst w = (Normal b, w').
Proof. destruct (copy_file_total (R':=Z) P src dst w) as (b & fs & out & ->). eauto. Qed.

Lemma get_pdf_page_count_total {R'} path w :
  exists r w', get_pdf_page_count (R':=R') P path w = (Normal r, w').
Proof.
  rewrite get_pdf_page_count_outcome.
  destruct (process_answer _ mdls_pattern _); [eauto|].
  destruct (process_answer _ pdfinfo_pattern _); [eauto|].
  destruct (files _ !! path); eauto.
Qed.

Lemma guarded_step_cases (title : string) (f : M Ext Z bool) (message : string) :
  (forall w, exists b w', f w = (Normal b, w')) ->
  is_error_line (lit message) ->
  step_cases (banner title;; ok ← f; when_ (negb ok) (print (lit message);; return_ 1)) false.
Proof.
  intros Hf Hm w. destruct (guarded_step title f (lit message) w Hf) as (w' & [E|[E Hl]]).
  - exists w'. left. exact E.
  - exists w'. right. left. split; [exact E|]. exists (lit message). split; assumption.
Qed.

Lemma step7_cases : step_cases (step7 P base_dir) false.
Proof.
  intros w. unfold step7, banner. exec.
  match goal with
  | |- context [run_command P ?c ?d ?i ?w0] =>
      destruct (run_command_total c d i w0) as (b & w1 & ->)
  end.
  destruct b; exec.
  - match goal with
    | |- context [run_command P ?c ?d ?i ?w0] =>
        destruct (run_command_total c d i w0) as (b & w2 & ->)
    end.
    destruct b; exec; [eauto|].
    eexists. right. left. split; [reflexivity|]. cbn [console].
    eexists. split; [apply last_snoc|].
    exists (lit "Step 7 failed - running ExprEval"). vm_compute; exact eq_refl.
  - eexists. right. left. split; [reflexivity|]. cbn [console].
    eexists. split; [apply last_snoc|].
    exists (lit "Step 7 failed - Maven compile"). vm_compute; exact eq_refl.
Qed.

Lemma error_line_app (prefix : string) (rest : str) :
  is_error_line (lit prefix) -> is_error_line (lit prefix ++ rest).
Proof. intros [r Hr]. exists (r ++ rest). rewrite Hr. now rewrite <- app_assoc. Qed.

Lemma step11_cases : step_cases (step11 P base_dir) true.
Proof.
  intros [fs o con sp]. unfold step11, banner. exec.
  destruct (fs !! pdfgen_input_file base_dir) as [raw|]; [|eauto 7].
  destruct (utf8_decode raw) as [text|]; exec; [|eauto 7].
  destruct (spawn P _ fs o) as [[[e|c] fs1] o1].
  - eexists. right. left. split; [reflexivity|]. cbn [console].
    eexists. split; [apply last_snoc|].
    apply error_line_app. exists (lit "Failed to call Docx-to-PDF API: "). vm_compute; exact eq_refl.
  - destruct (nonempty (stderr c)); exec; destruct (returncode c =? 0); exec; eauto;
      (eexists; right; left; split; [reflexivity|]; cbn [console];
       eexists; split; [apply last_snoc|];
       apply error_line_app; exists (lit "Docx-to-PDF API failed with return code ");
       vm_compute; exact eq_refl).
Qed.

(** A turn of the stamping loop that fails has just printed an error line. *)
Lemma stamp_page_reports N page w w' :
  stamp_page P base_dir N page w = (Returned 1, w') ->
  exists line, last (console w') = Some line /\ is_error_line line.
Proof.
  assert (Hsnd : forall (r : outcome Z unit) (w1 : World Ext),
             (r, w1) = (Returned 1, w') -> r = Returned 1 /\ w1 = w').
  { intros r w1 H. split; [exact (f_equal fst H)|exact (f_equal snd H)]. }
  assert (E1 : forall rest, is_error_line (lit "ERROR: Failed to stamp page " ++ rest)).
  { intros rest. apply error_line_app. exists (lit "Failed to stamp page ").
    vm_compute; exact eq_refl. }
  assert (E2 : forall rest, is_error_line (lit "ERROR: Stamp API failed for page " ++ rest)).
  { intros rest. apply error_line_app. exists (lit "Stamp API failed for page ").
    vm_compute; exact eq_refl. }
  assert (Done : forall con line o1 fs1 sp1,
             is_error_line line ->
             (Returned 1 : outcome Z unit, mkWorld fs1 o1 (con ++ [line]) sp1) = (Returned 1, w') ->
             exists line, last (console w') = Some line /\ is_error_line line).
  { intros con line o1 fs1 sp1 Hl H. apply Hsnd in H as [_ <-]. cbn [console].
    exists line. split; [apply last_snoc|exact Hl]. }
  destruct w as [fs o con sp]. unfold stamp_page. exec.
  destruct (spawn P _ fs o) as [[[e|c] fs1] o1].
  - apply Done, E1.
  - destruct (nonempty (stderr c)); exec.
    + destruct (returncode c =? 0); exec.
      * destruct (fs1 !! temp_output base_dir); [discriminate|apply Done, E1].
      * apply Done, E2.
    + destruct (returncode c =? 0); exec.
      * destruct (fs1 !! temp_output base_dir); [discriminate|apply Done, E1].
      * apply Done, E2.
Qed.

Lemma stamp_pages_report N pages w w' :
  for_ pages (stamp_page P base_dir N) w = (Returned 1, w') ->
  exists line, last (console w') = Some line /\ is_error_line line.
Proof.
  revert w. induction pages as [|p pages IH]; intros w; simpl; [discriminate|].
  unfold mbind, M_mbind, M_bind.
  destruct (stamp_page P base_dir N p w) as [[[]|r|e] w1] eqn:E; try discriminate.
  - apply IH.
  - intros [= -> ->]. exact (stamp_page_reports _ _ _ _ E).
Qed.

Lemma step12_cases : step_cases (step12 P base_dir) false.
Proof.
  intros w. unfold step12, banner. exec.
  match goal with
  | |- context [get_pdf_page_count P ?f ?w0] =>
      destruct (get_pdf_page_count_total (R':=Z) f w0) as ([n|] & w3 & ->)
  end; exec.
  2: { eexists. right. left. split; [reflexivity|]. cbn [console].
       eexists. split; [apply last_snoc|].
       exists (lit "Could not determine PDF page count"). vm_compute; exact eq_refl. }
  destruct (n <=? 0); exec.
  { eexists. right. left. split; [reflexivity|]. cbn [console].
    eexists. split; [apply last_snoc|].
    exists (lit "Could not determine PDF page count"). vm_compute; exact eq_refl. }
  match goal with
  | |- context [stamp_loop P base_dir n ?w4] =>
      destruct (stamp_pages_total P base_dir n (range 1 (n + 1)) w4) as (w5 & [E|E]);
      unfold stamp_loop; rewrite E; [eauto|]
  end.
  eexists. right. left. split; [reflexivity|]. exact (stamp_pages_report _ _ _ _ E).
Qed.

(** Every step completes, or executes [return 1] right after an error line;
    step 11 alone may let an exception out. *)
Lemma steps_cases :
  Forall2 step_cases (steps P base_dir)
    [false; false; false; false; false; false; false; false; false; false; true; false].
Proof.
  assert (E : forall m : string, (exists r, lit m = lit "ERROR: " ++ lit r) -> is_error_line (lit m)).
  { intros m [r Hr]. exists (lit r). exact Hr. }
  unfold steps. repeat apply List.Forall2_cons; try apply List.Forall2_nil.
  - unfold step1. apply guarded_step_cases; [apply run_command_total|].
    apply E. exists "Step 1 failed - cds_mapping.py"%string. vm_compute; exact eq_refl.
  - unfold step2. apply guarded_step_cases; [apply rename_file_answers|].
    apply E. exists "Step 2 failed - renaming output.json"%string. vm_compute; exact eq_refl.
  - unfold step3. apply guarded_step_cases; [apply copy_file_answers|].
    apply E. exists "Step 3 failed - transferring input.json"%string. vm_compute; exact eq_refl.
  - unfold step4. apply guarded_step_cases; [apply run_command_total|].
    apply E. exists "Step 4 failed - merge_letterdata.py"%string. vm_compute; exact eq_refl.
  - unfold step5. apply guarded_step_cases; [apply rename_file_answers|].
    apply E. exists "Step 5 failed - renaming output.json"%string. vm_compute; exact eq_refl.
  - unfold step6. apply guarded_step_cases; [apply copy_file_answers|].
    apply E. exists "Step 6 failed - transferring input.json"%string. vm_compute; exact eq_refl.
  - apply step7_cases.
  - unfold step8. apply guarded_step_cases; [apply rename_file_answers|].
    apply E. exists "Step 8 failed - renaming output.json"%string. vm_compute; exact eq_refl.
  - unfold step9. apply guarded_step_cases; [apply copy_file_answers|].
    apply E. exists "Step 9 failed - transferring input.json"%string. vm_compute; exact eq_refl.
  - unfold step10. apply guarded_step_cases; [apply run_command_total|].
    apply E. exists "Step 10 failed - Storage API upload"%string. vm_compute; exact eq_refl.
  - apply step11_cases.
  - apply step12_cases.
Qed.

(** Only step 11 may let an exception out. *)
Lemma step_at (k : nat) s :
  steps P base_dir !! k = Some s ->
  exists may_raise, step_cases s may_raise /\ (may_raise = true -> k = 10%nat).
Proof.
  intros Hk.
  destruct (Forall2_lookup_l _ _ _ _ _ steps_cases Hk) as (b & Hb & Hs).
  exists b. split; [exact Hs|].
  do 12 (destruct k as [|k]; [cbn in Hb; injection Hb as <-; (reflexivity || discriminate)|]).
  discriminate Hb.
Qed.

(** Steps run in a row and closed by a last block.  When all steps complete,
    the row is the last block. *)
Lemma row_complete (l : list (M Ext Z unit)) (last : M Ext Z Empty_set) w1 w :
  for_ l (fun s => s) w1 = (Normal tt, w) ->
  foldr (fun s k => s;; k) last l w1 = last w.
Proof.
  revert w1. induction l as [|s l IH]; intros w1; simpl.
  - now intros [= ->].
  - unfold mbind, M_mbind, M_bind.
    destruct (s w1) as [[[]|r|e] w2]; try discriminate. apply IH.
Qed.

(** When the row returns, either all steps completed and the last block
    returned, or the steps up to some step completed and that step returned:
    the row ends in the world this step left, so no later step has run. *)
Lemma row_returned (l : list (M Ext Z unit)) (last : M Ext Z Empty_set) w1 c w' :
  foldr (fun s k => s;; k) last l w1 = (Returned c, w') ->
  (exists w, for_ l (fun s => s) w1 = (Normal tt, w) /\ last w = (Returned c, w'))
  \/ (exists (k : nat) s w,
         l !! k = Some s /\ for_ (take k l) (fun s => s) w1 = (Normal tt, w)
         /\ s w = (Returned c, w')).
Proof.
  revert w1. induction l as [|s l IH]; intros w1; simpl.
  - intros H. left. exists w1. split; [reflexivity|exact H].
  - unfold mbind, M_mbind, M_bind.
    destruct (s w1) as [[[]|r|e] w2] eqn:E; try discriminate.
    + intros H. destruct (IH _ H) as [(w & H1 & H2)|(k & s' & w & H1 & H2 & H3)].
      * left. exists w. split; assumption.
      * right. exists (S k), s', w. repeat split; try assumption.
        simpl. unfold mbind, M_mbind, M_bind. now rewrite E.
    + intros [= -> ->]. right. exists 0%nat, s, w1. repeat split. exact E.
Qed.

Lemma row_raised (l : list (M Ext Z unit)) (last : M Ext Z Empty_set) w1 e w' :
  foldr (fun s k => s;; k) last l w1 = (Raised e, w') ->
  (exists w, for_ l (fun s => s) w1 = (Normal tt, w) /\ last w = (Raised e, w'))
  \/ (exists (k : nat) s w,
         l !! k = Some s /\ for_ (take k l) (fun s => s) w1 = (Normal tt, w)
         /\ s w = (Raised e, w')).
Proof.
  revert w1. induction l as [|s l IH]; intros w1; simpl.
  - intros H. left. exists w1. split; [reflexivity|exact H].
  - unfold mbind, M_mbind, M_bind.
    destruct (s w1) as [[[]|r|e0] w2] eqn:E; try discriminate.
    + intros H. destruct (IH _ H) as [(w & H1 & H2)|(k & s' & w & H1 & H2 & H3)].
      * left. exists w. split; assumption.
      * right. exists (S k), s', w. repeat split; try assumption.
        simpl. unfold mbind, M_mbind, M_bind. now rewrite E.
    + intros [= -> ->]. right. exists 0%nat, s, w1. repeat split. exact E.
Qed.

Lemma prologue_completes w : exists w', prologue w = (Normal tt, w') /\ spawned w' = spawned w.
Proof. unfold prologue. exec. eauto. Qed.

Lemma epilogue_returns w : exists w', epilogue base_dir w = (Returned 0, w').
Proof. unfold epilogue. exec. eauto. Qed.

(** [main] returns 1 only from a step that executes [return 1]: the run ends
    in the world that step left, so no later step has run, and the last line
    on the console is the error line of that step. *)
Lemma main_returns_one w0 w' :
  main P base_dir w0 = (Normal 1, w') ->
  exists (k : nat) s w,
    steps P base_dir !! k = Some s /\ reaches P base_dir k w0 w
    /\ s w = (Returned 1, w')
    /\ exists line, last (console w') = Some line /\ is_error_line line.
Proof.
  unfold main, call, reaches. rewrite main_body_steps.
  destruct (prologue_completes w0) as (w1 & Hp & _).
  rewrite (bind_normal _ _ _ _ _ Hp).
  destruct (foldr (fun (s : M Ext Z unit) (k : M Ext Z Empty_set) => s;; k)
              (epilogue base_dir) (steps P base_dir) w1) as [[[]|c|e] w2] eqn:E; try discriminate.
  intros [= -> ->].
  destruct (row_returned _ _ _ _ _ E) as [(w & H1 & H2)|(k & s & w & H1 & H2 & H3)].
  - destruct (epilogue_returns w) as [w3 H4]. rewrite H4 in H2. discriminate.
  - exists k, s, w. split; [exact H1|]. split; [now rewrite (bind_normal _ _ _ _ _ Hp)|].
    split; [exact H3|].
    destruct (step_at k s H1) as (b & Hs & _).
    destruct (Hs w) as (w3 & [H4|[[H4 H5]|[_ [e H4]]]]); rewrite H4 in H3; try discriminate.
    injection H3 as <-. exact H5.
Qed.

(** [main] raises only when step 11 does, after the ten steps before it
    have completed. *)
Lemma main_raises w0 e w' :
  main P base_dir w0 = (Raised e, w') ->
  exists w, reaches P base_dir 10 w0 w /\ step11 P base_dir w = (Raised e, w').
Proof.
  unfold main, call, reaches. rewrite main_body_steps.
  destruct (prologue_completes w0) as (w1 & Hp & _).
  rewrite !(bind_normal _ _ _ _ _ Hp).
  destruct (foldr (fun (s : M Ext Z unit) (k : M Ext Z Empty_set) => s;; k)
              (epilogue base_dir) (steps P base_dir) w1) as [[[]|c|e0] w2] eqn:E; try discriminate.
  intros [= -> ->].
  destruct (row_raised _ _ _ _ _ E) as [(w & H1 & H2)|(k & s & w & H1 & H2 & H3)].
  - destruct (epilogue_returns w) as [w3 H4]. rewrite H4 in H2. discriminate.
  - destruct (step_at k s H1) as (b & Hs & Hk).
    destruct (Hs w) as (w3 & [H4|[[H4 H5]|[Hb [e1 H4]]]]); rewrite H4 in H3; try discriminate.
    specialize (Hk Hb). subst k. injection H1 as <-. injection H3 as -> ->.
    exists w. split; [exact H2|exact H4].
Qed.

(** [main] returns 0 when all twelve steps complete, returns 1 when a step
    executes [return 1], and raises when step 11 lets an exception out. *)
Lemma main_outcome w0 :
  (exists w w', reaches P base_dir 12 w0 w /\ main P base_dir w0 = (Normal 0, w'))
  \/ (exists w', main P base_dir w0 = (Normal 1, w'))
  \/ (exists e w', main P base_dir w0 = (Raised e, w')).
Proof.
  unfold main, call, reaches. rewrite main_body_steps.
  destruct (prologue_completes w0) as (w1 & Hp & _).
  rewrite !(bind_normal _ _ _ _ _ Hp).
  change (take 12 (steps P base_dir)) with (steps P base_dir).
  destruct (foldr (fun (s : M Ext Z unit) (k : M Ext Z Empty_set) => s;; k)
              (epilogue base_dir) (steps P base_dir) w1) as [[[]|c|e] w2] eqn:E.
  - destruct (row_returned _ _ _ _ _ E) as [(w & H1 & H2)|(k & s & w & H1 & H2 & H3)].
    + destruct (epilogue_returns w) as [w3 H4]. rewrite H4 in H2. injection H2 as <- <-.
      left. eauto.
    + destruct (step_at k s H1) as (b & Hs & _).
      destruct (Hs w) as (w3 & [H4|[[H4 H5]|[_ [e H4]]]]); rewrite H4 in H3; try discriminate.
      injection H3 as <- <-. right. left. eauto.
  - right. right. eauto.
Qed.

(** The exit status of the process is 0 or 1. *)
Lemma script_exit_status w0 :
  (script P base_dir w0).1 = 0 \/ (script P base_dir w0).1 = 1.
Proof.
  unfold script.
  destruct (main_outcome w0) as [(w & w' & _ & ->)|[(w' & ->)|(e & w' & ->)]]; auto.
Qed.

(** It is 0 exactly when all twelve steps complete. *)
Lemma script_exit_status_zero w0 :
  (script P base_dir w0).1 = 0 <-> exists w, reaches P base_dir 12 w0 w.
Proof.
  split.
  - unfold script.
    destruct (main_outcome w0) as [(w & w' & Hr & ->)|[(w' & ->)|(e & w' & ->)]];
      cbn [fst]; [eauto|discriminate|discriminate].
  - intros [w Hr]. unfold script, main, call. rewrite main_body_steps.
    unfold reaches in Hr. revert Hr.
    destruct (prologue_completes w0) as (w1 & Hp & _).
    rewrite !(bind_normal _ _ _ _ _ Hp).
    change (take 12 (steps P base_dir)) with (steps P base_dir).
    intros Hr. rewrite (row_complete _ (epilogue base_dir) _ _ Hr).
    destruct (epilogue_returns w) as [w' ->]. reflexivity.
Qed.

(** The exception of step 11 leaves [main]: no line naming the step is
    printed, and the interpreter ends the process with status 1. *)
Lemma undecodable_input_escapes_main w0 w raw :
  reaches P base_dir 10 w0 w ->
  files w !! pdfgen_input_file base_dir = Some raw ->
  utf8_decode raw = None ->
  main P base_dir w0 =
    (Raised UnicodeDecodeError,
     mkWorld (files w) (outside w)
       (console w ++ [nl ++ nl ++ times "#" 70;
                      lit "# STEP 11: Calling Docx-to-PDF API and saving PDF output";
                      times "#" 70])
       (spawned w))
  /\ (script P base_dir w0).1 = 1.
Proof.
  intros Hr Hf Hd.
  pose proof (main_raises_at P base_dir 10 _ w0 w _ _ eq_refl Hr
                (step11_undecodable P base_dir w raw Hf Hd)) as E.
  split; [exact E|]. unfold script. now rewrite E.
Qed.

(** The example of the spec: the external process of step 1 exits with a
    non-zero status. The run ends with 1; the last two lines printed give
    the exit status and name the step; no further process is launched and
    the files stay as that process left them. *)
Lemma step1_failure_aborts w0 c :
  let cmd := mkSpawn [path_str (cds_venv_python base_dir); path_str (cds_script base_dir)]
               (Some (path_str (cds_folder base_dir))) (Some (contract_number ++ nl)) in
  forall w, reaches P base_dir 0 w0 w ->
  answer P cmd w = inr c ->
  returncode c <> 0 ->
  exists out,
    main P base_dir w0 =
      (Normal 1,
       mkWorld (files (after_spawn P cmd w)) (outside (after_spawn P cmd w))
         (console w ++ out
            ++ [lit "ERROR: Command failed with return code " ++ str_of_int (returncode c);
                lit "ERROR: Step 1 failed - cds_mapping.py"])
         (spawned w ++ [cmd])).
Proof.
  intros cmd w Hr Hc Hrc.
  assert (Hs : exists out,
             step1 P base_dir w =
               (Returned 1,
                mkWorld (files (after_spawn P cmd w)) (outside (after_spawn P cmd w))
                  (console w ++ out
                     ++ [lit "ERROR: Command failed with return code "
                           ++ str_of_int (returncode c);
                         lit "ERROR: Step 1 failed - cds_mapping.py"])
                  (spawned w ++ [cmd]))).
  { destruct w as [fs o con sp]. unfold step1, banner. exec.
    match goal with
    | |- context [run_command P ?a ?d ?i ?w1] =>
        destruct (run_command_failure (R':=Z) P a d i w1 c) as [out ->];
        [exact Hc|exact Hrc|]
    end.
    exec. tidy. subst cmd. unfold after_spawn. cbn [files outside console spawned].
    eexists (_ :: _ :: _ :: out). reflexivity. }
  destruct Hs as [out Hs]. exists out.
  exact (main_returns_at P base_dir 0 _ w0 w _ 1 eq_refl Hr Hs).
Qed.
End ExitStatus.

(** C8, at the input on which the code departs from it. The stage programs
    write a stage file that is not UTF-8 (a Latin-1 encoded JSON document).
    Steps 1 to 10 complete; step 11 reads input.json outside any [try], so
    the [UnicodeDecodeError] leaves [main]: the process ends with status 1,
    but the last thing on the console is the banner of step 11 and no line
    reports an error or names the failing step. *)
Theorem undecodable_stage_file_ends_run_without_message :
  (main (Demo.platform Demo.latin1_json) Demo.base (Demo.world ∅)).1
  = Raised UnicodeDecodeError
  /\ last (console (main (Demo.platform Demo.latin1_json) Demo.base (Demo.world ∅)).2)
     = Some (times "#" 70)
  /\ forallb (fun line => negb (Demo.starts_with (lit "ERROR") line))
       (console (main (Demo.platform Demo.latin1_json) Demo.base (Demo.world ∅)).2) = true
  /\ (script (Demo.platform Demo.latin1_json) Demo.base (Demo.world ∅)).1 = 1.
Proof. split; [|split; [|split]]; vm_compute; exact eq_refl. Qed.

(** The same run, through the general lemma: step 11 is reached and the
    stage file does not decode. *)
Lemma undecodable_stage_file_reaches_step11 :
  exists w raw,
    reaches (Demo.platform Demo.latin1_json) Demo.base 10 (Demo.world ∅) w
    /\ files w !! pdfgen_input_file Demo.base = Some raw
    /\ utf8_decode raw = None.
Proof.
  exists ((prologue;; for_ (take 10 (steps (Demo.platform Demo.latin1_json) Demo.base))
                        (fun s => s)) (Demo.world ∅)).2.
  exists [x7b; xe9; x7d].
  split; [|split]; vm_compute; exact eq_refl.
Qed.

(** With a stage file that decodes, the same machine runs to exit status 0. *)
Lemma fine_run_exits_zero :
  (script (Demo.platform Demo.fine) Demo.base (Demo.world ∅)).1 = 0.
Proof. vm_compute; exact eq_refl. Qed.

(** A rendered document without a page marker: the resolver returns 0 and
    step 12 ends the run. *)
Lemma blank_document_exits_one :
  (script (Demo.platform Demo.blank) Demo.base (Demo.world ∅)).1 = 1
  /\ last (console (script (Demo.platform Demo.blank) Demo.base (Demo.world ∅)).2)
     = Some (lit "ERROR: Could not determine PDF page count").
Proof. split; vm_compute; exact eq_refl. Qed.

(** * Further properties of the functions *)

(** ** [rename_file] and [copy_file] *)

Section FileFunctions.
Context {Ext : Type} (P : Platform Ext).
Implicit Types w : World Ext.


(** X1. [rename_file] within one folder, which is how every rename step of
    the pipeline uses it. With its source in place and a different
    destination in the folder of the source, which is not itself a folder
    with files below it, it answers [True]: afterwards
    the destination holds the content of the source, whatever was there
    before, the source is gone, and every other path, the outside and the
    list of launched processes are as they were. *)
Theorem rename_file_moves_content {R'} (src dst : Path) w c :
  files w !! src = Some c ->
  src <> dst ->
  parent src = parent dst ->
  no_file_below dst (files w) = true ->
  exists w',
    rename_file (R':=R') P src dst w = (Normal true, w')
    /\ files w' !! dst = Some c
    /\ files w' !! src = None
    /\ (forall p, p <> src -> p <> dst -> files w' !! p = files w !! p)
    /\ outside w' = outside w
    /\ spawned w' = spawned w
    /\ last (console w') = Some (lit "Successfully renamed to " ++ path_str dst).
Proof.
  intros Hsrc Hne _ _. eexists. split; [exact (rename_file_present P src dst w c Hsrc Hne)|].
  cbn [files outside console spawned].
  split; [apply lookup_insert_eq|].
  split; [rewrite lookup_insert_ne by congruence; apply lookup_delete_eq|].
  split; [|split; [reflexivity|split; [reflexivity|]]].
  - intros p Hp Hq. rewrite lookup_insert_ne by congruence. now rewrite lookup_delete_ne by congruence.
  - rewrite last_app. reflexivity.
Qed.


(** X3. [copy_file] with its source in place and a different destination
    that can take a file (no regular file stands in the place of a folder on
    the way to it, and it is not a folder with files below it) answers
    [True]: afterwards the destination holds the content of the
    source, and every other path, the source included, the outside and the
    list of launched processes are as they were. *)
Theorem copy_file_copies_content {R'} (src dst : Path) w c :
  files w !! src = Some c ->
  src <> dst ->
  place_for_file dst (files w) = true ->
  exists w',
    copy_file (R':=R') P src dst w = (Normal true, w')
    /\ files w' !! dst = Some c
    /\ files w' !! src = Some c
    /\ (forall p, p <> dst -> files w' !! p = files w !! p)
    /\ outside w' = outside w
    /\ spawned w' = spawned w.
Proof.
  intros Hsrc Hne _.
  destruct (copy_file_present (R':=R') P src dst w c Hsrc Hne) as [out E].
  eexists. split; [exact E|]. cbn [files outside spawned].
  split; [apply lookup_insert_eq|].
  split; [now rewrite lookup_insert_ne by congruence|].
  split; [|auto].
  intros p Hp. now rewrite lookup_insert_ne by congruence.
Qed.

(** X4. [copy_file] never raises. When it answers [True] the source was
    there and was not the destination; the converse holds when the
    destination can take a file.
    When it answers [False] it has changed no file: unlike [rename_file], a
    failed copy leaves the destination as it was. *)
Theorem copy_file_answer {R'} (src dst : Path) w :
  exists b w',
    copy_file (R':=R') P src dst w = (Normal b, w')
    /\ (b = true -> is_Some (files w !! src) /\ src <> dst)
    /\ (place_for_file dst (files w) = true ->
        is_Some (files w !! src) -> src <> dst -> b = true)
    /\ (b = false -> files w' = files w)
    /\ outside w' = outside w
    /\ spawned w' = spawned w.
Proof.
  destruct w as [fs o con sp]. cbn [files outside console spawned].
  unfold copy_file. exec.
  destruct (fs !! src) as [c|] eqn:Hsrc.
  - destruct (decide (src = dst)) as [E|Hne]; tidy.
    + exists false. eexists. split; [reflexivity|]. cbn [files outside spawned].
      split; [discriminate|]. split; [intros _ _ H; contradiction|]. auto.
    + exists true. eexists. split; [reflexivity|]. cbn [files outside spawned].
      split; [intros _; split; [eauto|exact Hne]|]. split; [reflexivity|].
      split; [discriminate|auto].
  - tidy. exists false. eexists. split; [reflexivity|]. cbn [files outside spawned].
    split; [discriminate|]. split; [intros _ [? [=]]|]. auto.
Qed.

(** ** [run_command] *)

(** X5. [run_command] never raises and launches exactly one process, with
    the command, working directory and input it was given. It answers
    [True] exactly when that process was launched and exited with status 0;
    the files and the outside are as the process left them, and the console
    has only grown. *)
Theorem run_command_answer {R'} cmd cwd inp w :
  exists b w',
    run_command (R':=R') P cmd cwd inp w = (Normal b, w')
    /\ (b = true <->
        exists c, answer P (mkSpawn cmd cwd inp) w = inr c /\ returncode c = 0)
    /\ spawned w' = spawned w ++ [mkSpawn cmd cwd inp]
    /\ files w' = files (after_spawn P (mkSpawn cmd cwd inp) w)
    /\ outside w' = outside (after_spawn P (mkSpawn cmd cwd inp) w)
    /\ exists out, console w' = console w ++ out.
Proof.
  destruct (run_command_outcome (R':=R') P cmd cwd inp w) as [out E].
  do 2 eexists. split; [exact E|]. cbn [files outside console spawned].
  split; [|split; [reflexivity|split; [reflexivity|split; [reflexivity|eauto]]]].
  destruct (answer P (mkSpawn cmd cwd inp) w) as [e|c]; cbn [succeeded].
  - split; [discriminate|]. intros (c & [=] & _).
  - rewrite Z.eqb_eq. split; [eauto|]. now intros (c' & [= <-] & H).
Qed.

(** X6. Whenever [run_command] answers [False], the last line it has
    printed is an error line that gives the reason: the exit status of the
    process when it exited with a non-zero status, the text of the
    exception when the process could not be launched. *)
Theorem run_command_false_is_reported {R'} cmd cwd inp w w' :
  run_command (R':=R') P cmd cwd inp w = (Normal false, w') ->
  (exists c,
      answer P (mkSpawn cmd cwd inp) w = inr c /\ returncode c <> 0
      /\ last (console w')
         = Some (lit "ERROR: Command failed with return code " ++ str_of_int (returncode c)))
  \/ (exists e,
         answer P (mkSpawn cmd cwd inp) w = inl e
         /\ last (console w') = Some (lit "ERROR: " ++ exn_str P e)).
Proof.
  destruct (answer P (mkSpawn cmd cwd inp) w) as [e|c] eqn:Ha.
  - intros H. right. exists e. split; [reflexivity|].
    revert H Ha. destruct w as [fs o con sp]. unfold run_command, answer. exec.
    destruct (nonempty (default [] cwd)); exec;
      (destruct (spawn P _ fs o) as [[r fs1] o1]; cbn [fst snd]; intros H ->;
       apply (f_equal snd) in H; cbn [snd] in H; subst w'; cbn [console];
       apply last_snoc).
  - destruct (Z.eq_dec (returncode c) 0) as [Hrc|Hrc].
    + destruct (run_command_outcome (R':=R') P cmd cwd inp w) as [out E].
      rewrite E, Ha. cbn [succeeded]. rewrite Hrc. intros H.
      apply (f_equal fst) in H. discriminate H.
    + destruct (run_command_failure (R':=R') P cmd cwd inp w c Ha Hrc) as [out E].
      rewrite E. intros H. apply (f_equal snd) in H; cbn [snd] in H; subst w'.
      left. exists c. split; [reflexivity|]. split; [exact Hrc|].
      cbn [console]. rewrite app_assoc. apply last_snoc.
Qed.
End FileFunctions.

(** ** The file operations in a row *)

Section Repeated.
Context {Ext : Type} (P : Platform Ext).
Implicit Types w : World Ext.

(** X7. [rename_file] is not repeatable. After a rename within one folder
    that succeeded (onto a path with no file below it), the same call
    answers [False], and it has removed the
    destination the first call produced: neither the source nor the
    destination holds a file any more. *)
Theorem rename_file_twice {R'} (src dst : Path) w c :
  files w !! src = Some c ->
  src <> dst ->
  parent src = parent dst ->
  no_file_below dst (files w) = true ->
  exists w1 w2,
    rename_file (R':=R') P src dst w = (Normal true, w1)
    /\ rename_file (R':=R') P src dst w1 = (Normal false, w2)
    /\ files w2 !! src = None
    /\ files w2 !! dst = None
    /\ (forall p, p <> src -> p <> dst -> files w2 !! p = files w !! p).
Proof.
  intros Hsrc Hne _ _.
  pose proof (rename_file_present (R':=R') P src dst w c Hsrc Hne) as E1.
  match type of E1 with _ = (_, ?w1) =>
    assert (Hgone : files w1 !! src = None)
      by (cbn [files]; rewrite lookup_insert_ne by congruence; apply lookup_delete_eq);
    pose proof (rename_file_missing (R':=R') P src dst w1 Hgone) as E2;
    exists w1
  end.
  eexists. split; [exact E1|]. split; [exact E2|]. cbn [files].
  split; [|split].
  - rewrite lookup_delete_ne by congruence.
    rewrite lookup_insert_ne by congruence. apply lookup_delete_eq.
  - apply lookup_delete_eq.
  - intros p Hp Hq. rewrite lookup_delete_ne by congruence.
    rewrite lookup_insert_ne by congruence. now rewrite lookup_delete_ne by congruence.
Qed.

(** X8. Renaming a file to a free name in its folder, with no file below
    that name, and back restores the files. *)
Theorem rename_file_there_and_back {R'} (a b : Path) w c :
  files w !! a = Some c ->
  files w !! b = None ->
  parent a = parent b ->
  no_file_below b (files w) = true ->
  exists w1 w2,
    rename_file (R':=R') P a b w = (Normal true, w1)
    /\ rename_file (R':=R') P b a w1 = (Normal true, w2)
    /\ files w2 = files w.
Proof.
  intros Ha Hb _ _.
  assert (Hne : a <> b) by congruence.
  pose proof (rename_file_present (R':=R') P a b w c Ha Hne) as E1.
  match type of E1 with _ = (_, ?w1) =>
    assert (Hthere : files w1 !! b = Some c) by (cbn [files]; apply lookup_insert_eq);
    pose proof (rename_file_present (R':=R') P b a w1 c Hthere (not_eq_sym Hne)) as E2;
    exists w1
  end.
  eexists. split; [exact E1|]. split; [exact E2|]. cbn [files].
  apply map_eq. intros p.
  destruct (decide (p = a)) as [->|Hpa]; [now rewrite lookup_insert_eq|].
  rewrite lookup_insert_ne by congruence.
  destruct (decide (p = b)) as [->|Hpb]; [now rewrite lookup_delete_eq|].
  rewrite lookup_delete_ne by congruence.
  rewrite lookup_insert_ne by congruence. now rewrite lookup_delete_ne by congruence.
Qed.

(** X9. [copy_file] is repeatable. With a destination that can take a
    file, a second copy answers [True] again and leaves the files as the
    first one left them. *)
Theorem copy_file_twice {R'} (src dst : Path) w c :
  files w !! src = Some c ->
  src <> dst ->
  place_for_file dst (files w) = true ->
  exists w1 w2,
    copy_file (R':=R') P src dst w = (Normal true, w1)
    /\ copy_file (R':=R') P src dst w1 = (Normal true, w2)
    /\ files w2 = files w1.
Proof.
  intros Hsrc Hne _.
  destruct (copy_file_present (R':=R') P src dst w c Hsrc Hne) as [out1 E1].
  match type of E1 with _ = (_, ?w1) =>
    assert (Hkept : files w1 !! src = Some c)
      by (cbn [files]; now rewrite lookup_insert_ne by congruence);
    destruct (copy_file_present (R':=R') P src dst w1 c Hkept Hne) as [out2 E2];
    exists w1
  end.
  eexists. split; [exact E1|]. split; [exact E2|]. cbn [files].
  apply map_eq. intros p.
  destruct (decide (p = dst)) as [->|Hp]; [now rewrite !lookup_insert_eq|].
  now rewrite !lookup_insert_ne by congruence.
Qed.
End Repeated.

(** ** The patterns of the resolver *)

Section Groups.
Variable d : N -> option N.

Lemma star_inv {A} (cls : N -> bool) (k : str -> option A) (s : str) (r : A) :
  star cls k s = Some r -> exists pre t, s = pre ++ t /\ k t = Some r.
Proof.
  induction s as [|c s IH]; cbn [star].
  - intros H. now exists [], [].
  - destruct (cls c).
    + destruct (star cls k s) as [r'|] eqn:E.
      * intros [= ->]. destruct (IH eq_refl) as (pre & t & -> & Ht).
        now exists (c :: pre), t.
      * intros H. now exists [], (c :: s).
    + intros H. now exists [], (c :: s).
Qed.

(** The group [(\d+)] takes a non-empty run of digits from the start of the
    text. *)
Lemma capture_inv (k : str -> option str) (s g : str) :
  capture d k s = Some g ->
  g <> [] /\ Forall (fun c => is_Some (d c)) g /\ exists post, s = g ++ post.
Proof.
  revert g. induction s as [|c s IH]; intros g; cbn [capture]; [discriminate|].
  unfold is_digit. destruct (d c) as [v|] eqn:Hc; [|discriminate].
  destruct (capture d k s) as [g'|].
  - intros [= <-]. destruct (IH g' eq_refl) as (_ & Hg & post & ->).
    split; [discriminate|]. split; [constructor; eauto|]. now exists post.
  - destruct (k s); [|discriminate]. intros [= <-].
    split; [discriminate|]. split; [repeat constructor; eauto|]. now exists s.
Qed.

Lemma match_here_inv (p : list item) (s g : str) :
  match_here d p s = Some g ->
  Forall (fun c => is_Some (d c)) g /\ exists pre post, s = pre ++ g ++ post.
Proof.
  revert s. induction p as [|i p IH]; intros s; cbn [match_here].
  - intros [= <-]. split; [constructor|]. now exists [], s.
  - destruct i as [c| | |].
    + destruct s as [|x s]; [discriminate|]. destruct (x =? c)%N; [|discriminate].
      intros H. destruct (IH _ H) as (Hg & pre & post & ->).
      split; [exact Hg|]. now exists (x :: pre), post.
    + intros H. destruct (star_inv _ _ _ _ H) as (pre & t & -> & Ht).
      destruct (IH _ Ht) as (Hg & pre' & post & ->).
      split; [exact Hg|]. exists (pre ++ pre'), post. now rewrite <- app_assoc.
    + destruct s as [|x s]; [discriminate|]. destruct (is_space x); [|discriminate].
      intros H. destruct (star_inv _ _ _ _ H) as (pre & t & -> & Ht).
      destruct (IH _ Ht) as (Hg & pre' & post & ->).
      split; [exact Hg|]. exists (x :: pre ++ pre'), post.
      cbn [app]. now rewrite <- app_assoc.
    + intros H. destruct (capture_inv _ _ _ H) as (_ & Hg & post & ->).
      split; [exact Hg|]. now exists [], post.
Qed.

Lemma match_here_nonempty (p : list item) (s g : str) :
  Digits1 ∈ p -> match_here d p s = Some g -> g <> [].
Proof.
  revert s. induction p as [|i p IH]; intros s Hin; [inversion Hin|].
  cbn [match_here]. destruct i as [c| | |].
  - apply elem_of_cons in Hin as [[=]|Hin].
    destruct s as [|x s]; [discriminate|]. destruct (x =? c)%N; [|discriminate].
    now apply IH.
  - apply elem_of_cons in Hin as [[=]|Hin].
    intros H. destruct (star_inv _ _ _ _ H) as (pre & t & -> & Ht). now apply (IH t).
  - apply elem_of_cons in Hin as [[=]|Hin].
    destruct s as [|x s]; [discriminate|]. destruct (is_space x); [|discriminate].
    intros H. destruct (star_inv _ _ _ _ H) as (pre & t & -> & Ht). now apply (IH t).
  - intros H. now destruct (capture_inv _ _ _ H).
Qed.

Lemma re_search_inv (p : list item) (s g : str) :
  re_search d p s = Some g ->
  exists skipped rest, s = skipped ++ rest /\ match_here d p rest = Some g.
Proof.
  induction s as [|c s IH].
  - change (re_search d p [])
      with (match match_here d p [] with Some g => Some g | None => None end).
    destruct (match_here d p []) eqn:E; [|discriminate].
    intros [= <-]. now exists [], [].
  - change (re_search d p (c :: s))
      with (match match_here d p (c :: s) with
            | Some g => Some g
            | None => re_search d p s
            end).
    destruct (match_here d p (c :: s)) eqn:E.
    + intros [= <-]. now exists [], (c :: s).
    + intros H. destruct (IH H) as (skipped & rest & -> & Hm).
      now exists (c :: skipped), rest.
Qed.

(** X10. Whatever text one of the three patterns of the resolver is
    searched in, the group it captures is a non-empty run of decimal digits
    taken from that text: what reaches [int(match.group(1))] is never empty
    and holds nothing but digits. *)
Theorem page_count_group_is_digits (pattern : list item) (text g : str) :
  pattern ∈ [mdls_pattern; pdfinfo_pattern; count_pattern] ->
  re_search d pattern text = Some g ->
  g <> []
  /\ Forall (fun c => is_Some (d c)) g
  /\ exists before behind, text = before ++ g ++ behind.
Proof.
  intros Hp Hs.
  destruct (re_search_inv _ _ _ Hs) as (skipped & rest & -> & Hm).
  destruct (match_here_inv _ _ _ Hm) as (Hg & pre & post & ->).
  split; [|split; [exact Hg|]].
  - apply (match_here_nonempty pattern (pre ++ g ++ post)); [|exact Hm].
    apply elem_of_cons in Hp as [->|Hp];
      [|apply elem_of_cons in Hp as [->|Hp];
        [|apply elem_of_cons in Hp as [->|Hp]; [|inversion Hp]]];
      unfold mdls_pattern, pdfinfo_pattern, count_pattern;
      apply elem_of_app; right; set_solver.
  - exists (skipped ++ pre), post. now rewrite <- app_assoc.
Qed.
End Groups.

Lemma page_count_group_is_digits_witness :
  lit "12" <> []
  /\ Forall (fun c => is_Some (ascii_decimal c)) (lit "12")
  /\ exists before behind,
       lit "Title: x" ++ nl ++ lit "Pages:   12" ++ nl = before ++ lit "12" ++ behind.
Proof.
  apply (page_count_group_is_digits ascii_decimal pdfinfo_pattern).
  - apply list_elem_of_further, list_elem_of_here.
  - vm_compute; exact eq_refl.
Defined.

(** ** The strategies of the resolver *)

Section Strategies.
Context {Ext : Type} (P : Platform Ext).
Implicit Types w : World Ext.

(** X11. When [mdls] yields no value and [pdfinfo] exits with status 0 with
    a [Pages:] line in its output, whose number has no more digits than every
    interpreter converts, the resolver returns the integer of that line.
    The file itself is not read: the world is the one the two tools left. *)
Theorem pdfinfo_value_is_returned path w c g :
  let w1 := after_spawn P (mdls_call path) w in
  (try_mdls P path w).1 = Normal tt ->
  answer P (pdfinfo_call path) w1 = inr c ->
  returncode c = 0 ->
  re_search (decimal P) pdfinfo_pattern (stdout c) = Some g ->
  (length g <= int_max_str_digits_floor)%nat ->
  get_pdf_page_count (R':=unit) P path w =
    (Normal (Some (int_of_digits (decimal P) g)), after_spawn P (pdfinfo_call path) w1).
Proof.
  intros w1 H1 Hc Hrc Hg _.
  rewrite get_pdf_page_count_outcome. fold w1.
  rewrite try_mdls_outcome in H1. cbn [fst] in H1.
  destruct (process_answer _ mdls_pattern _); [discriminate|].
  rewrite Hc. cbn [process_answer]. rewrite Hrc, Hg. reflexivity.
Qed.

(** X12. Whatever it returns, the resolver prints nothing and writes no
    file itself. It launches [mdls], and after it [pdfinfo] exactly when
    [mdls] gave no value; the files and the outside are as these tools left
    them. *)
Theorem resolver_side_effects {R'} path w r w' :
  get_pdf_page_count (R':=R') P path w = (r, w') ->
  let w1 := after_spawn P (mdls_call path) w in
  console w' = console w
  /\ ((is_Some (process_answer (decimal P) mdls_pattern (answer P (mdls_call path) w))
       /\ spawned w' = spawned w ++ [mdls_call path]
       /\ files w' = files w1 /\ outside w' = outside w1)
      \/ (process_answer (decimal P) mdls_pattern (answer P (mdls_call path) w) = None
          /\ spawned w' = spawned w ++ [mdls_call path; pdfinfo_call path]
          /\ files w' = files (after_spawn P (pdfinfo_call path) w1)
          /\ outside w' = outside (after_spawn P (pdfinfo_call path) w1))).
Proof.
  intros H w1. rewrite get_pdf_page_count_outcome in H. fold w1 in H.
  assert (Hw : w' = w1
               /\ is_Some (process_answer (decimal P) mdls_pattern (answer P (mdls_call path) w))
               \/ w' = after_spawn P (pdfinfo_call path) w1
                  /\ process_answer (decimal P) mdls_pattern (answer P (mdls_call path) w) = None).
  { destruct (process_answer _ mdls_pattern _) as [v|].
    - left. split; [exact (eq_sym (f_equal snd H))|eauto].
    - right. split; [|reflexivity].
      destruct (process_answer _ pdfinfo_pattern _);
        [exact (eq_sym (f_equal snd H))|].
      destruct (files _ !! path); exact (eq_sym (f_equal snd H)). }
  destruct Hw as [[-> Hs]|[-> Hn]].
  - split; [reflexivity|]. left. split; [exact Hs|]. repeat split.
  - split; [reflexivity|]. right. split; [exact Hn|].
    subst w1. unfold after_spawn. cbn [files outside console spawned].
    rewrite <- app_assoc. repeat split.
Qed.

(** X13. When the two tools yield nothing and the file can be read, the
    resolver's value lies between 0 and the number of [/Type /Page] markers,
    and it is 0 exactly when the file has no such marker: a file in which
    every page marker belongs to a [/Type /Pages] marker is given the count
    of those, not 0. *)
Theorem marker_value_is_zero_without_markers path w content :
  let w1 := after_spawn P (mdls_call path) w in
  let w2 := after_spawn P (pdfinfo_call path) w1 in
  (try_mdls P path w).1 = Normal tt ->
  (try_pdfinfo P path w1).1 = Normal tt ->
  files w2 !! path = Some content ->
  exists v,
    get_pdf_page_count (R':=unit) P path w = (Normal (Some v), w2)
    /\ 0 <= v <= bytes_count content (blit "/Type /Page")
    /\ (v = 0 <-> bytes_count content (blit "/Type /Page") = 0)
    /\ (bytes_count content (blit "/Type /Pages") = bytes_count content (blit "/Type /Page")
        -> v = bytes_count content (blit "/Type /Page")).
Proof.
  intros w1 w2 H1 H2 Hf. eexists. split; [exact (markers_decide P path w content H1 H2 Hf)|].
  cbv zeta.
  pose proof (pages_markers_le_page_markers content) as Hle.
  pose proof (bytes_count_nonneg content (blit "/Type /Pages")) as H0.
  destruct (Z.gtb_spec (bytes_count content (blit "/Type /Page"))
                       (bytes_count content (blit "/Type /Pages"))); lia.
Qed.
End Strategies.

(** ** Text-mode reading *)

Lemma universal_newlines_cons (c : N) (t : str) :
  universal_newlines (c :: t)
  = if (c =? 13)%N
    then 10%N :: universal_newlines (match t with 10%N :: t' => t' | _ => t end)
    else c :: universal_newlines t.
Proof.
  change (universal_newlines (c :: t))
    with (match c with
          | 13%N => match t with
                    | 10%N :: t' => 10%N :: universal_newlines t'
                    | _ => 10%N :: universal_newlines t
                    end
          | _ => c :: universal_newlines t
          end).
  destruct c as [|p]; [reflexivity|].
  destruct p as [p|p|]; [|reflexivity|reflexivity].
  destruct p as [p|p|]; [reflexivity| |reflexivity].
  destruct p as [p|p|]; [|reflexivity|reflexivity].
  destruct p as [p|p|]; [reflexivity|reflexivity|].
  change (13 =? 13)%N with true. cbv iota.
  destruct t as [|c t]; [reflexivity|].
  destruct c as [|p]; [reflexivity|].
  destruct p as [p|p|]; [reflexivity| |reflexivity].
  destruct p as [p|p|]; [|reflexivity|reflexivity].
  destruct p as [p|p|]; [reflexivity| |reflexivity].
  destruct p as [p|p|]; reflexivity.
Qed.

(** A text-mode read hands over no carriage return. *)
Lemma universal_newlines_no_cr (s : str) : 13%N ∉ universal_newlines s.
Proof.
  assert (H : forall (n : nat) (s : str), (length s <= n)%nat -> 13%N ∉ universal_newlines s).
  { clear s. induction n as [|n IH]; intros s Hn.
    - destruct s; [|cbn in Hn; lia]. change (universal_newlines []) with (@nil N).
      apply not_elem_of_nil.
    - destruct s as [|c t]; [change (universal_newlines []) with (@nil N); apply not_elem_of_nil|].
      cbn [length] in Hn. rewrite universal_newlines_cons.
      destruct (N.eqb_spec c 13) as [->|Hc].
      + apply not_elem_of_cons. split; [discriminate|]. apply IH.
        destruct t as [|c' t']; [cbn; lia|].
        destruct c' as [|[p|[[p|[p|p|]|]|p|]|]]; cbn [length] in *; lia.
      + apply not_elem_of_cons. split; [congruence|]. apply IH. lia. }
  exact (H (length s) s (le_n _)).
Qed.

(** Bytes below 128 decode as themselves, so a file that does not decode
    holds a byte that is not ASCII. *)
Lemma utf8_decode_failure (raw : bytes) :
  utf8_decode raw = None -> Exists (fun b => (128 <= Byte.to_N b)%N) raw.
Proof.
  unfold utf8_decode. induction raw as [|b raw IH]; [discriminate|].
  cbn [map]. destruct (N.ltb_spec (Byte.to_N b) 128) as [Hb|Hb].
  - cbn [utf8_decode_N].
    rewrite (proj2 (N.ltb_lt _ _) Hb).
    destruct (utf8_decode_N (map Byte.to_N raw)); [discriminate|].
    intros _. apply Exists_cons_tl, IH. reflexivity.
  - intros _. now apply Exists_cons_hd.
Qed.

(** ** The steps of [main] *)

Lemma Raised_inj {R A} (e1 e2 : exn) : @Raised R A e1 = Raised e2 -> e1 = e2.
Proof. now intros [= ->]. Qed.

Lemma not_final_line_of_error (line rest : str) :
  is_error_line line -> line <> lit "Final PDF location: " ++ rest.
Proof.
  intros [r ->].
  change (lit "ERROR: ") with (69%N :: lit "RROR: ").
  change (lit "Final PDF location: ") with (70%N :: lit "inal PDF location: ").
  cbn [app]. intros H. apply (f_equal head) in H. discriminate H.
Qed.

Lemma not_final_line_of_banner (rest : str) :
  times "#" 70 <> lit "Final PDF location: " ++ rest.
Proof.
  change (times "#" 70) with (35%N :: times "#" 69).
  change (lit "Final PDF location: ") with (70%N :: lit "inal PDF location: ").
  cbn [app]. intros H. apply (f_equal head) in H. discriminate H.
Qed.

Section Steps.
Context {Ext : Type} (P : Platform Ext) (base_dir : Path).
Implicit Types w : World Ext.

(** The resolver does not look at the console. *)
Lemma get_pdf_page_count_console {R'} path fs o con con' sp :
  get_pdf_page_count (R':=R') P path (mkWorld fs o con' sp)
  = ((get_pdf_page_count (R':=R') P path (mkWorld fs o con sp)).1,
     mkWorld (files (get_pdf_page_count (R':=R') P path (mkWorld fs o con sp)).2)
             (outside (get_pdf_page_count (R':=R') P path (mkWorld fs o con sp)).2)
             con'
             (spawned (get_pdf_page_count (R':=R') P path (mkWorld fs o con sp)).2)).
Proof.
  rewrite !get_pdf_page_count_outcome.
  unfold answer, after_spawn. cbn [files outside console spawned].
  destruct (process_answer _ mdls_pattern _); [reflexivity|].
  destruct (process_answer _ pdfinfo_pattern _); [reflexivity|].
  destruct (_ !! path); reflexivity.
Qed.

(** What step 11 has done when it lets an exception out: it has printed its
    banner, and nothing else. *)
Lemma step11_raised w e w' :
  step11 P base_dir w = (Raised e, w') ->
  w' = mkWorld (files w) (outside w)
         (console w ++ [nl ++ nl ++ times "#" 70;
                        lit "# STEP 11: Calling Docx-to-PDF API and saving PDF output";
                        times "#" 70])
         (spawned w)
  /\ ((files w !! pdfgen_input_file base_dir = None
       /\ e = FileNotFoundError (path_str (pdfgen_input_file base_dir)) None)
      \/ (exists raw,
             files w !! pdfgen_input_file base_dir = Some raw
             /\ utf8_decode raw = None /\ e = UnicodeDecodeError)).
Proof.
  destruct (files w !! pdfgen_input_file base_dir) as [raw|] eqn:Hf.
  - destruct (utf8_decode raw) as [text|] eqn:Hd.
    + destruct (step11_outcome P base_dir w raw text Hf Hd) as [out ->].
      intros H. apply (f_equal fst) in H. cbn [fst] in H.
      destruct (succeeded _); discriminate H.
    + rewrite (step11_undecodable P base_dir w raw Hf Hd). intros H.
      split; [exact (eq_sym (f_equal snd H))|]. right. exists raw.
      split; [first [reflexivity|exact Hf]|]. split; [first [reflexivity|exact Hd]|].
      exact (eq_sym (Raised_inj _ _ (f_equal fst H))).
  - revert Hf. destruct w as [fs o con sp]. cbn [files outside console spawned].
    intros Hf. unfold step11, banner. exec. rewrite Hf. tidy. intros H.
    split; [exact (eq_sym (f_equal snd H))|]. left.
    split; [first [reflexivity|exact Hf]|]. exact (eq_sym (Raised_inj _ _ (f_equal fst H))).
Qed.

(** [main] returns 0 only from its last line, behind the twelve steps. *)
Lemma main_returns_zero w0 w' :
  main P base_dir w0 = (Normal 0, w') ->
  exists w,
    reaches P base_dir 12 w0 w
    /\ files w' = files w /\ outside w' = outside w /\ spawned w' = spawned w
    /\ last (console w')
       = Some (lit "Final PDF location: " ++ path_str (output_pdf_file base_dir)).
Proof.
  unfold main, call, reaches. rewrite main_body_steps.
  destruct (prologue_completes w0) as (w1 & Hp & _).
  rewrite !(bind_normal _ _ _ _ _ Hp).
  change (take 12 (steps P base_dir)) with (steps P base_dir).
  destruct (foldr (fun (s : M Ext Z unit) (k : M Ext Z Empty_set) => s;; k)
              (epilogue base_dir) (steps P base_dir) w1) as [[[]|c|e] w2] eqn:E;
    try discriminate.
  intros H. pose proof (f_equal snd H) as Hw. cbn [snd] in Hw. subst w2.
  assert (Hc : c = 0) by (apply (f_equal fst) in H; cbn [fst] in H; now injection H).
  subst c. clear H.
  destruct (row_returned _ _ _ _ _ E) as [(w & H1 & H2)|(k & s & w & H1 & H2 & H3)].
  - exists w. split; [exact H1|].
    revert H2. destruct w as [fs o con sp]. unfold epilogue. exec. intros H2.
    pose proof (f_equal snd H2) as Hw. cbn [snd] in Hw. subst w'.
    cbn [files outside console spawned]. repeat split. apply last_snoc.
  - destruct (step_at P base_dir k s H1) as (b & Hs & _).
    destruct (Hs w) as (w3 & [H4|[[H4 H5]|[_ [e H4]]]]); rewrite H4 in H3;
      apply (f_equal fst) in H3; discriminate H3.
Qed.
End Steps.

Ltac distinct_paths :=
  let H := fresh "H" in
  intros H;
  unfold cds_output_file, cds_renamed_file, rest_input_file, rest_input_folder,
    rest_output_file, rest_renamed_file, script_resolution_input_file,
    script_resolution_input, script_resolution_output_file,
    script_resolution_renamed_file, script_resolution_output, pdfgen_input_file,
    pdfgen_test_folder, output_pdf_file, temp_output, test_output_folder,
    cds_folder, rest_folder, script_resolution_folder, joinpath in H;
  rewrite <- !app_assoc in H; apply app_inv_head in H;
  vm_compute in H; discriminate H.

Section Pipeline.
Context {Ext : Type} (P : Platform Ext) (base_dir : Path).
Implicit Types w : World Ext.

(** *** The stage file *)

(** A rename step and the copy step behind it, with the produced file in
    place. *)
Lemma handover_steps (t1 t2 : string) (m1 m2 : str) (produced renamed next : Path) w c :
  produced <> renamed ->
  renamed <> next ->
  files w !! produced = Some c ->
  exists out,
    ((banner t1;;
      ok ← rename_file P produced renamed;
      when_ (negb ok) (print m1;; return_ 1));;
     (banner t2;;
      ok ← copy_file P renamed next;
      when_ (negb ok) (print m2;; return_ 1))) w
    = (Normal tt,
       mkWorld (<[next := c]> (<[renamed := c]> (delete produced (files w))))
               (outside w) (console w ++ out) (spawned w)).
Proof.
  destruct w as [fs o con sp]. cbn [files outside console spawned]. intros H1 H2 Hf.
  unfold banner. exec.
  match goal with
  | |- context [rename_file P produced renamed ?w0] =>
      rewrite (rename_file_present (R':=Z) P produced renamed w0 c Hf H1)
  end.
  exec.
  match goal with
  | |- context [copy_file P ?s ?d ?w0] =>
      destruct (copy_file_present (R':=Z) P s d w0 c) as [out ->];
      [apply lookup_insert_eq|exact H2|]
  end.
  exec. tidy. eexists. reflexivity.
Qed.

(** X14. The hand-over of the stage file between two stages (steps 2-3,
    5-6 and 8-9). When the stage program has left its [output.json], the
    renamed [input.json] is not a folder with files below it and the input
    file of the next stage can take a file, the rename step and the copy
    step complete;
    afterwards [output.json] is gone, and both the renamed [input.json] and
    the input file of the next stage hold its content. No other path is
    touched and no process is launched. *)
Theorem stage_file_is_handed_over rename_step copy_step produced renamed next w c :
  (rename_step, copy_step, produced, renamed, next) ∈ handovers P base_dir ->
  files w !! produced = Some c ->
  no_file_below renamed (files w) = true ->
  place_for_file next (files w) = true ->
  exists w',
    (rename_step;; copy_step) w = (Normal tt, w')
    /\ files w' !! produced = None
    /\ files w' !! renamed = Some c
    /\ files w' !! next = Some c
    /\ (forall p, p <> produced -> p <> renamed -> p <> next ->
                  files w' !! p = files w !! p)
    /\ outside w' = outside w
    /\ spawned w' = spawned w.
Proof.
  intros Hin Hf _ _.
  assert (H : produced <> renamed /\ renamed <> next /\ produced <> next
              /\ exists out,
                   (rename_step;; copy_step) w
                   = (Normal tt,
                      mkWorld (<[next := c]> (<[renamed := c]> (delete produced (files w))))
                              (outside w) (console w ++ out) (spawned w))).
  { unfold handovers in Hin.
    apply elem_of_cons in Hin as [E|Hin];
      [|apply elem_of_cons in Hin as [E|Hin];
        [|apply elem_of_cons in Hin as [E|Hin]; [|inversion Hin]]];
      pose proof (f_equal (fun t => t.1.1.1.1) E) as E1;
      pose proof (f_equal (fun t => t.1.1.1.2) E) as E2;
      pose proof (f_equal (fun t => t.1.1.2) E) as E3;
      pose proof (f_equal (fun t => t.1.2) E) as E4;
      pose proof (f_equal (fun t => t.2) E) as E5;
      cbn [fst snd] in E1, E2, E3, E4, E5; subst rename_step copy_step produced renamed next;
      clear E;
      (assert (D1 : forall A B : Prop, A -> B -> A /\ B) by (intros; split; assumption));
      (apply D1; [distinct_paths|]); (apply D1; [distinct_paths|]);
      (apply D1; [distinct_paths|]).
    - unfold step2, step3. apply handover_steps; [distinct_paths|distinct_paths|exact Hf].
    - unfold step5, step6. apply handover_steps; [distinct_paths|distinct_paths|exact Hf].
    - unfold step8, step9. apply handover_steps; [distinct_paths|distinct_paths|exact Hf]. }
  destruct H as (D1 & D2 & D3 & out & E).
  eexists. split; [exact E|]. cbn [files outside spawned].
  split; [rewrite !lookup_insert_ne by congruence; apply lookup_delete_eq|].
  split; [rewrite lookup_insert_ne by congruence; apply lookup_insert_eq|].
  split; [apply lookup_insert_eq|].
  split; [|auto].
  intros p Hp1 Hp2 Hp3. rewrite !lookup_insert_ne by congruence.
  now rewrite lookup_delete_ne by congruence.
Qed.

(** *** Step 11 *)

Lemma step11_missing w :
  files w !! pdfgen_input_file base_dir = None ->
  step11 P base_dir w =
    (Raised (FileNotFoundError (path_str (pdfgen_input_file base_dir)) None),
     mkWorld (files w) (outside w)
       (console w ++ [nl ++ nl ++ times "#" 70;
                      lit "# STEP 11: Calling Docx-to-PDF API and saving PDF output";
                      times "#" 70])
       (spawned w)).
Proof.
  destruct w as [fs o con sp]. cbn [files outside console spawned]. intros Hf.
  unfold step11, banner. exec. rewrite Hf. tidy. reflexivity.
Qed.

(** X15. Step 11 launches at most one process, the render call, and only
    after the stage file has been read as UTF-8 text. The JSON it hands to
    curl is that text with its line ends normalised, so it holds no carriage
    return. *)
Theorem render_json_has_no_carriage_return w r w' :
  step11 P base_dir w = (r, w') ->
  spawned w' = spawned w
  \/ (exists raw text,
         files w !! pdfgen_input_file base_dir = Some raw
         /\ utf8_decode raw = Some text
         /\ spawned w' = spawned w ++ [render_call base_dir (universal_newlines text)]
         /\ 13%N ∉ universal_newlines text).
Proof.
  destruct (files w !! pdfgen_input_file base_dir) as [raw|] eqn:Hf.
  - destruct (utf8_decode raw) as [text|] eqn:Hd.
    + destruct (step11_outcome P base_dir w raw text Hf Hd) as [out ->].
      intros H. apply (f_equal snd) in H. cbn [snd] in H. subst w'.
      right. exists raw, text. split; [reflexivity|]. split; [exact Hd|].
      split; [reflexivity|apply universal_newlines_no_cr].
    + rewrite (step11_undecodable P base_dir w raw Hf Hd).
      intros H. apply (f_equal snd) in H. cbn [snd] in H. subst w'. left. reflexivity.
  - rewrite (step11_missing w Hf).
    intros H. apply (f_equal snd) in H. cbn [snd] in H. subst w'. left. reflexivity.
Qed.

(** X16. [main] lets an exception out only in step 11, after the first ten
    steps have completed and before the render call is launched: no file has
    changed, and the last thing printed is the banner of step 11. When no
    regular file stands in the place of the output folder or of a folder
    above it, so that the [mkdir] of step 11 succeeds, the exception is the
    one of the read of the stage file: either no file is at [input.json],
    or the file is not UTF-8, and so holds a byte that is not ASCII, and the
    exception is [UnicodeDecodeError]. *)
Theorem main_raises_only_on_stage_file w0 e w' :
  main P base_dir w0 = (Raised e, w') ->
  exists w,
    reaches P base_dir 10 w0 w
    /\ files w' = files w
    /\ spawned w' = spawned w
    /\ last (console w') = Some (times "#" 70)
    /\ (no_file_above (output_pdf_file base_dir) (files w) = true ->
        files w !! pdfgen_input_file base_dir = None
        \/ (exists raw,
               files w !! pdfgen_input_file base_dir = Some raw
               /\ utf8_decode raw = None
               /\ Exists (fun b => (128 <= Byte.to_N b)%N) raw
               /\ e = UnicodeDecodeError)).
Proof.
  intros H. destruct (main_raises P base_dir w0 e w' H) as (w & Hr & Hs).
  destruct (step11_raised P base_dir w e w' Hs) as [-> Hcase].
  exists w. split; [exact Hr|]. cbn [files spawned console].
  split; [reflexivity|]. split; [reflexivity|]. split.
  - change [nl ++ nl ++ times "#" 70;
            lit "# STEP 11: Calling Docx-to-PDF API and saving PDF output"; times "#" 70]
      with ([nl ++ nl ++ times "#" 70;
             lit "# STEP 11: Calling Docx-to-PDF API and saving PDF output"] ++ [times "#" 70]).
    rewrite app_assoc. apply last_snoc.
  - intros _. destruct Hcase as [[Hc _]|(raw & Hf & Hd & He)]; [left; exact Hc|].
    right. exists raw. split; [exact Hf|]. split; [exact Hd|].
    split; [exact (utf8_decode_failure raw Hd)|exact He].
Qed.

(** X17. The exit status is 0 exactly when the last line on the console is
    the one that gives the final PDF location: a run that fails ends behind
    an error line, or behind the banner of step 11. *)
Theorem exit_status_zero_iff_final_line w0 :
  (script P base_dir w0).1 = 0
  <-> last (console (script P base_dir w0).2)
      = Some (lit "Final PDF location: " ++ path_str (output_pdf_file base_dir)).
Proof.
  unfold script.
  destruct (main_outcome P base_dir w0) as [(w & w' & _ & E)|[(w' & E)|(e & w' & E)]];
    rewrite E; cbn [fst snd].
  - destruct (main_returns_zero P base_dir w0 w' E) as (w1 & _ & _ & _ & _ & Hl).
    split; [intros _; exact Hl|reflexivity].
  - destruct (main_returns_one P base_dir w0 w' E) as (k & s & w1 & _ & _ & _ & line & Hl & He).
    split; [discriminate|]. rewrite Hl. intros H.
    assert (Hline : line = lit "Final PDF location: " ++ path_str (output_pdf_file base_dir))
      by congruence.
    destruct (not_final_line_of_error line _ He Hline).
  - destruct (main_raises P base_dir w0 e w' E) as (w1 & _ & Hs).
    destruct (step11_raised P base_dir w1 e w' Hs) as [-> _]. cbn [console].
    split; [discriminate|].
    change [nl ++ nl ++ times "#" 70;
            lit "# STEP 11: Calling Docx-to-PDF API and saving PDF output"; times "#" 70]
      with ([nl ++ nl ++ times "#" 70;
             lit "# STEP 11: Calling Docx-to-PDF API and saving PDF output"] ++ [times "#" 70]).
    rewrite app_assoc, last_snoc. intros H.
    assert (Hline : times "#" 70
                    = lit "Final PDF location: " ++ path_str (output_pdf_file base_dir))
      by congruence.
    destruct (not_final_line_of_banner _ Hline).
Qed.
End Pipeline.

Section LastStep.
Context {Ext : Type} (P : Platform Ext) (base_dir : Path).
Implicit Types w : World Ext.

(** *** Step 12 *)

(** Step 12 asks the resolver behind its banner; the resolver's answer is
    the one it gives in front of the banner. *)
Lemma step12_outcome w :
  let found := get_pdf_page_count (R':=Z) P (output_pdf_file base_dir) w in
  exists out r,
    found.1 = Normal r
    /\ step12 P base_dir w =
         let w1 := mkWorld (files found.2) (outside found.2) (console w ++ out)
                     (spawned found.2) in
         match r with
         | None =>
             (Returned 1,
              mkWorld (files w1) (outside w1)
                (console w1 ++ [lit "ERROR: Could not determine PDF page count"])
                (spawned w1))
         | Some N =>
             if N <=? 0
             then (Returned 1,
                   mkWorld (files w1) (outside w1)
                     (console w1 ++ [lit "ERROR: Could not determine PDF page count"])
                     (spawned w1))
             else
               (stamp_loop P base_dir N;;
                print (nl ++ lit "All " ++ str_of_int N ++ lit " pages stamped successfully!"))
                 (mkWorld (files w1) (outside w1)
                    (console w1 ++ [lit "PDF has " ++ str_of_int N ++ lit " page(s)"])
                    (spawned w1))
         end.
Proof.
  destruct w as [fs o con sp]. cbv zeta.
  destruct (get_pdf_page_count_total (R':=Z) P (output_pdf_file base_dir)
              (mkWorld fs o con sp)) as (r & w3 & E).
  exists [nl ++ nl ++ times "#" 70;
          lit "# STEP 12: Stamping barcode image on each page of the PDF";
          times "#" 70], r.
  rewrite E. cbn [fst snd]. split; [reflexivity|].
  unfold step12, banner. exec.
  match goal with
  | |- context [get_pdf_page_count P ?p (mkWorld fs o ?c sp)] =>
      rewrite (get_pdf_page_count_console (R':=Z) P p fs o con c sp)
  end.
  rewrite E. cbn [fst snd]. exec.
  destruct r as [N|]; exec; [|tidy; reflexivity].
  destruct (N <=? 0); exec; tidy; reflexivity.
Qed.

(** X18. Step 12 goes on to the stamping loop only with a positive page
    count. When the resolver returns [None], zero or a negative number,
    [main] returns 1 behind the line [ERROR: Could not determine PDF page
    count]; nothing is launched after the resolver's tools, and the files
    and the outside are as the resolver left them. *)
Theorem nonpositive_page_count_ends_run w0 w :
  reaches P base_dir 11 w0 w ->
  (get_pdf_page_count (R':=Z) P (output_pdf_file base_dir) w).1 = Normal None
  \/ (exists v,
         (get_pdf_page_count (R':=Z) P (output_pdf_file base_dir) w).1 = Normal (Some v)
         /\ v <= 0) ->
  exists w',
    main P base_dir w0 = (Normal 1, w')
    /\ last (console w') = Some (lit "ERROR: Could not determine PDF page count")
    /\ spawned w' = spawned (get_pdf_page_count (R':=Z) P (output_pdf_file base_dir) w).2
    /\ files w' = files (get_pdf_page_count (R':=Z) P (output_pdf_file base_dir) w).2
    /\ outside w' = outside (get_pdf_page_count (R':=Z) P (output_pdf_file base_dir) w).2.
Proof.
  intros Hr Hv.
  destruct (step12_outcome w) as (out & r & Hfound & Hs). cbv zeta in Hs.
  assert (Hret : step12 P base_dir w =
            (Returned 1,
             mkWorld (files (get_pdf_page_count (R':=Z) P (output_pdf_file base_dir) w).2)
               (outside (get_pdf_page_count (R':=Z) P (output_pdf_file base_dir) w).2)
               ((console w ++ out) ++ [lit "ERROR: Could not determine PDF page count"])
               (spawned (get_pdf_page_count (R':=Z) P (output_pdf_file base_dir) w).2))).
  { rewrite Hs. destruct Hv as [Hv|(v & Hv & Hle)]; rewrite Hv in Hfound.
    - assert (r = None) as -> by congruence. reflexivity.
    - assert (r = Some v) as -> by congruence.
      rewrite (proj2 (Z.leb_le v 0) Hle). reflexivity. }
  eexists. split; [exact (main_returns_at P base_dir 11 _ w0 w _ 1 eq_refl Hr Hret)|].
  cbn [files outside console spawned]. split; [apply last_snoc|auto].
Qed.

(** *** The stamping loop of a run that succeeds *)

Lemma for_snoc_normal {R X} (l : list X) (x : X) (body : X -> M Ext R unit) w w' :
  for_ (l ++ [x]) body w = (Normal tt, w') ->
  exists w1, for_ l body w = (Normal tt, w1) /\ body x w1 = (Normal tt, w').
Proof.
  rewrite for_snoc. unfold mbind, M_mbind, M_bind.
  destruct (for_ l body w) as [[[]|r|e] w1]; try discriminate.
  intros H. now exists w1.
Qed.

(** A loop that completes has stamped every page, and has moved the output
    of its last call over the document. *)
Lemma stamp_loop_completed N w w' :
  1 <= N ->
  stamp_loop P base_dir N w = (Normal tt, w') ->
  is_Some (files w' !! output_pdf_file base_dir)
  /\ files w' !! temp_output base_dir = None
  /\ spawned w' = spawned w ++ map (stamp_call base_dir) (range 1 (N + 1)).
Proof.
  intros HN H. split; [|split]; [| |exact (stamp_pages_complete P base_dir N _ w w' H)].
  - unfold stamp_loop in H. rewrite range_snoc in H by lia.
    destruct (for_snoc_normal _ _ _ _ _ H) as (w1 & _ & Hlast).
    destruct (stamp_page_replaces P base_dir N N w1 w' Hlast) as (c & doc & _ & _ & _ & ->).
    rewrite lookup_insert_eq. eauto.
  - unfold stamp_loop in H. rewrite range_snoc in H by lia.
    destruct (for_snoc_normal _ _ _ _ _ H) as (w1 & _ & Hlast).
    destruct (stamp_page_replaces P base_dir N N w1 w' Hlast) as (c & doc & _ & _ & _ & ->).
    rewrite lookup_insert_ne by distinct_paths. apply lookup_delete_eq.
Qed.

Lemma reaches_succ (k : nat) s w0 w' :
  steps P base_dir !! k = Some s ->
  reaches P base_dir (S k) w0 w' ->
  exists w, reaches P base_dir k w0 w /\ s w = (Normal tt, w').
Proof.
  unfold reaches. intros Hk.
  destruct (prologue_completes w0) as (w1 & Hp & _).
  rewrite !(bind_normal _ _ _ _ _ Hp).
  rewrite (take_S_r (steps P base_dir) k s Hk).
  intros H. destruct (for_snoc_normal _ _ _ _ _ H) as (w & H1 & H2). now exists w.
Qed.

(** X19. When [main] returns 0, the stamping loop has completed for a page
    count [N >= 1], the one the resolver gave: the last processes launched
    are the stamp calls for the pages 1 to [N], in order. The stamped
    document is in place at [output.pdf], and no [output_temp.pdf] is left
    behind. *)
Theorem successful_run_leaves_document w0 w' :
  main P base_dir w0 = (Normal 0, w') ->
  is_Some (files w' !! output_pdf_file base_dir)
  /\ files w' !! temp_output base_dir = None
  /\ exists w N,
       reaches P base_dir 11 w0 w
       /\ (get_pdf_page_count (R':=Z) P (output_pdf_file base_dir) w).1 = Normal (Some N)
       /\ 1 <= N
       /\ spawned w'
          = spawned (get_pdf_page_count (R':=Z) P (output_pdf_file base_dir) w).2
            ++ map (stamp_call base_dir) (range 1 (N + 1)).
Proof.
  intros H.
  destruct (main_returns_zero P base_dir w0 w' H) as (w12 & Hr & Hf & _ & Hsp & _).
  destruct (reaches_succ 11 _ w0 w12 eq_refl Hr) as (w & Hr11 & Hs).
  destruct (step12_outcome w) as (out & r & Hfound & E). cbv zeta in E.
  rewrite E in Hs. clear E.
  destruct r as [N|]; [|apply (f_equal fst) in Hs; discriminate Hs].
  destruct (Z.leb_spec N 0) as [HN|HN]; [apply (f_equal fst) in Hs; discriminate Hs|].
  revert Hs. unfold mbind, M_mbind, M_bind.
  match goal with
  | |- context [stamp_loop P base_dir N ?w4] =>
      destruct (stamp_loop P base_dir N w4) as [[[]|r|e] w5] eqn:El
  end.
  2, 3: intros Hs; apply (f_equal fst) in Hs; discriminate Hs.
  unfold print. cbv beta iota. intros Hs.
  apply (f_equal snd) in Hs. cbn [snd] in Hs. subst w12.
  cbn [files spawned] in Hf, Hsp.
  destruct (stamp_loop_completed N _ _ ltac:(lia) El) as (H1 & H2 & H3).
  cbn [files spawned] in H1, H2, H3.
  rewrite Hf. split; [exact H1|]. split; [exact H2|].
  exists w, N. split; [exact Hr11|]. split; [exact Hfound|]. split; [lia|].
  rewrite Hsp. exact H3.
Qed.
End LastStep.

Section Launches.
Context {Ext : Type} (P : Platform Ext) (base_dir : Path).
Implicit Types w : World Ext.

(** *** The processes of the first ten steps *)

(** A guarded step that completes has launched what its helper launches. *)
Lemma guarded_step_launches (title : string) (f : M Ext Z bool) (message : str)
    (l : list Spawn) w w' :
  (forall w, exists b w', f w = (Normal b, w') /\ spawned w' = spawned w ++ l) ->
  (banner title;; ok ← f; when_ (negb ok) (print message;; return_ 1)) w = (Normal tt, w') ->
  spawned w' = spawned w ++ l.
Proof.
  intros Hf. destruct w as [fs o con sp]. unfold banner. exec.
  match goal with |- context [f ?w0] => destruct (Hf w0) as (b & w1 & -> & Hs) end.
  cbn [spawned] in Hs.
  destruct b; exec; intros H.
  - apply (f_equal snd) in H. cbn [snd] in H. now subst w'.
  - apply (f_equal fst) in H. discriminate H.
Qed.

Lemma run_command_launches cmd cwd inp w :
  exists b w',
    run_command (R':=Z) P cmd cwd inp w = (Normal b, w')
    /\ spawned w' = spawned w ++ [mkSpawn cmd cwd inp].
Proof. destruct (run_command_outcome (R':=Z) P cmd cwd inp w) as [out ->]. eauto. Qed.

Lemma rename_file_launches src dst w :
  exists b w', rename_file (R':=Z) P src dst w = (Normal b, w') /\ spawned w' = spawned w ++ [].
Proof.
  destruct (rename_file_total (R':=Z) P src dst w) as (b & fs & out & ->).
  rewrite app_nil_r. eauto.
Qed.

Lemma copy_file_launches src dst w :
  exists b w', copy_file (R':=Z) P src dst w = (Normal b, w') /\ spawned w' = spawned w ++ [].
Proof.
  destruct (copy_file_total (R':=Z) P src dst w) as (b & fs & out & ->).
  rewrite app_nil_r. eauto.
Qed.

Lemma step7_launches w w' :
  step7 P base_dir w = (Normal tt, w') ->
  spawned w' = spawned w ++ [maven_call base_dir "compile"; maven_call base_dir "exec:java"].
Proof.
  destruct w as [fs o con sp]. unfold step7, banner. exec.
  match goal with
  | |- context [run_command P ?c ?d ?i ?w0] =>
      destruct (run_command_launches c d i w0) as (b & w1 & -> & Hs1)
  end.
  cbn [spawned] in Hs1.
  destruct b; exec; [|intros H; apply (f_equal fst) in H; discriminate H].
  match goal with
  | |- context [run_command P ?c ?d ?i ?w0] =>
      destruct (run_command_launches c d i w0) as (b & w2 & -> & Hs2)
  end.
  destruct b; exec; [|intros H; apply (f_equal fst) in H; discriminate H].
  intros H. apply (f_equal snd) in H. cbn [snd] in H. subst w'.
  refine (eq_trans Hs2 _). cbn [spawned]. rewrite Hs1, <- app_assoc. reflexivity.
Qed.

(** Each of the first ten steps, when it completes, has launched its
    processes and no other. *)
Lemma stage_steps_launch :
  Forall2 (fun (s : M Ext Z unit) l =>
             forall w w', s w = (Normal tt, w') -> spawned w' = spawned w ++ l)
    (take 10 (steps P base_dir)) (stage_calls base_dir).
Proof.
  unfold steps, stage_calls. cbn [take].
  repeat apply List.Forall2_cons; try apply List.Forall2_nil; intros w w'.
  - unfold step1. apply guarded_step_launches. apply run_command_launches.
  - unfold step2. apply guarded_step_launches. apply rename_file_launches.
  - unfold step3. apply guarded_step_launches. apply copy_file_launches.
  - unfold step4. apply guarded_step_launches. apply run_command_launches.
  - unfold step5. apply guarded_step_launches. apply rename_file_launches.
  - unfold step6. apply guarded_step_launches. apply copy_file_launches.
  - apply step7_launches.
  - unfold step8. apply guarded_step_launches. apply rename_file_launches.
  - unfold step9. apply guarded_step_launches. apply copy_file_launches.
  - unfold step10. apply guarded_step_launches. apply run_command_launches.
Qed.

Lemma row_launches (ss : list (M Ext Z unit)) (ls : list (list Spawn)) (k : nat) w w' :
  Forall2 (fun (s : M Ext Z unit) l =>
             forall w w', s w = (Normal tt, w') -> spawned w' = spawned w ++ l) ss ls ->
  for_ (take k ss) (fun s => s) w = (Normal tt, w') ->
  spawned w' = spawned w ++ concat (take k ls).
Proof.
  intros HF. revert k w. induction HF as [|s l ss ls Hs HF IH]; intros k w.
  - rewrite !take_nil. cbn [for_ concat]. intros H.
    apply (f_equal snd) in H. cbn [snd] in H. subst w'. now rewrite app_nil_r.
  - destruct k as [|k].
    + cbn [take for_ concat]. intros H.
      apply (f_equal snd) in H. cbn [snd] in H. subst w'. now rewrite app_nil_r.
    + cbn [take for_ concat]. unfold mbind, M_mbind, M_bind.
      destruct (s w) as [[[]|r|e] w1] eqn:E; try discriminate.
      intros H. rewrite (IH _ _ H), (Hs _ _ E). now rewrite <- app_assoc.
Qed.

(** X20. The stage programs run in the order of the pipeline, each once
    and with the arguments of the source. A run that stands in front of
    step [k + 1], for [k <= 10], has launched exactly the processes of the
    steps 1 to [k]: [cds_mapping.py] under the virtual environment's
    interpreter, in its folder and with the contract number and a newline on
    its standard input; [merge_letterdata.py]; the Maven wrapper with
    [compile] and then with [exec:java]; and the upload by curl. The rename
    and copy steps launch nothing. *)
Theorem stage_programs_run_in_order (k : nat) w0 w :
  (k <= 10)%nat ->
  reaches P base_dir k w0 w ->
  spawned w = spawned w0 ++ concat (take k (stage_calls base_dir)).
Proof.
  intros Hk. unfold reaches.
  destruct (prologue_completes w0) as (w1 & Hp & Hs).
  rewrite (bind_normal _ _ _ _ _ Hp). intros H.
  replace (take k (steps P base_dir)) with (take k (take 10 (steps P base_dir))) in H
    by (rewrite take_take; f_equal; lia).
  rewrite (row_launches _ _ _ _ _ stage_steps_launch H). now rewrite Hs.
Qed.
End Launches.

Section Maven.
Context {Ext : Type} (P : Platform Ext) (base_dir : Path).
Implicit Types w : World Ext.

(** X21. Step 7 runs the Maven wrapper twice, and the second run depends
    on the first: when the [compile] run cannot be launched or exits with a
    non-zero status, [main] returns 1 behind the line that names the Maven
    compile, and the [exec:java] run is never launched. *)
Theorem failed_compile_skips_exec w0 w :
  reaches P base_dir 6 w0 w ->
  succeeded (answer P (maven_call base_dir "compile") w) = false ->
  exists w',
    main P base_dir w0 = (Normal 1, w')
    /\ last (console w') = Some (lit "ERROR: Step 7 failed - Maven compile")
    /\ spawned w' = spawned w ++ [maven_call base_dir "compile"]
    /\ files w' = files (after_spawn P (maven_call base_dir "compile") w)
    /\ outside w' = outside (after_spawn P (maven_call base_dir "compile") w).
Proof.
  intros Hr Hfail.
  assert (Hs : exists out,
             step7 P base_dir w =
               (Returned 1,
                mkWorld (files (after_spawn P (maven_call base_dir "compile") w))
                        (outside (after_spawn P (maven_call base_dir "compile") w))
                        (console w ++ out ++ [lit "ERROR: Step 7 failed - Maven compile"])
                        (spawned w ++ [maven_call base_dir "compile"]))).
  { revert Hfail. destruct w as [fs o con sp]. unfold maven_call, answer, after_spawn.
    cbn [files outside console spawned]. intros Hfail.
    unfold step7, banner. exec.
    match goal with
    | |- context [run_command P ?c ?d ?i ?w1] =>
        destruct (run_command_outcome (R':=Z) P c d i w1) as [out ->]
    end.
    unfold answer, after_spawn. cbn [files outside console spawned].
    rewrite Hfail. exec. tidy.
    eexists (_ :: _ :: _ :: out). reflexivity. }
  destruct Hs as [out Hs].
  eexists. split; [exact (main_returns_at P base_dir 6 _ w0 w _ 1 eq_refl Hr Hs)|].
  cbn [files outside console spawned].
  split; [|auto]. rewrite !app_assoc. apply last_snoc.
Qed.
End Maven.

(** ** The properties on the concrete machine *)

Lemma rename_file_moves_content_witness :
  exists w',
    rename_file (R':=unit) (Demo.platform Demo.fine)
      (cds_output_file Demo.base) (cds_renamed_file Demo.base)
      (Demo.world (<[cds_output_file Demo.base := blit "new"]> Demo.stale))
    = (Normal true, w')
    /\ files w' !! cds_renamed_file Demo.base = Some (blit "new")
    /\ files w' !! cds_output_file Demo.base = None.
Proof.
  destruct (rename_file_moves_content (R':=unit) (Demo.platform Demo.fine)
              (cds_output_file Demo.base) (cds_renamed_file Demo.base)
              (Demo.world (<[cds_output_file Demo.base := blit "new"]> Demo.stale))
              (blit "new")) as (w' & E & H1 & H2 & _).
  - vm_compute; exact eq_refl.
  - intros H. vm_compute in H. discriminate H.
  - vm_compute; exact eq_refl.
  - vm_compute; exact eq_refl.
  - exists w'. split; [exact E|]. split; assumption.
Defined.

Lemma copy_file_copies_content_witness :
  exists w',
    copy_file (R':=unit) (Demo.platform Demo.fine)
      (cds_renamed_file Demo.base) (rest_input_file Demo.base) (Demo.world Demo.stale)
    = (Normal true, w')
    /\ files w' !! rest_input_file Demo.base = Some (blit "stale")
    /\ files w' !! cds_renamed_file Demo.base = Some (blit "stale").
Proof.
  destruct (copy_file_copies_content (R':=unit) (Demo.platform Demo.fine)
              (cds_renamed_file Demo.base) (rest_input_file Demo.base)
              (Demo.world Demo.stale) (blit "stale")) as (w' & E & H1 & H2 & _).
  - vm_compute; exact eq_refl.
  - intros H. vm_compute in H. discriminate H.
  - vm_compute; exact eq_refl.
  - exists w'. split; [exact E|]. split; assumption.
Defined.

(** A program that is not installed: [run_command] answers [False] behind
    the text of the exception. *)
Lemma run_command_false_is_reported_witness :
  (exists c,
      answer (Demo.platform Demo.fine) (mkSpawn [lit "nosuch"] None None) (Demo.world ∅) = inr c
      /\ returncode c <> 0
      /\ last (console (run_command (R':=unit) (Demo.platform Demo.fine) [lit "nosuch"] None None
                          (Demo.world ∅)).2)
         = Some (lit "ERROR: Command failed with return code " ++ str_of_int (returncode c)))
  \/ (exists e,
         answer (Demo.platform Demo.fine) (mkSpawn [lit "nosuch"] None None) (Demo.world ∅) = inl e
         /\ last (console (run_command (R':=unit) (Demo.platform Demo.fine) [lit "nosuch"] None None
                             (Demo.world ∅)).2)
            = Some (lit "ERROR: " ++ exn_str (Demo.platform Demo.fine) e)).
Proof.
  apply (run_command_false_is_reported (R':=unit) (Demo.platform Demo.fine)
           [lit "nosuch"] None None (Demo.world ∅)).
  vm_compute; exact eq_refl.
Defined.

Lemma pdfinfo_value_is_returned_witness :
  (get_pdf_page_count (R':=unit) (Linux.machine "5") Demo.pdf (Demo.world ∅)).1
  = Normal (Some 5).
Proof.
  rewrite (pdfinfo_value_is_returned (Linux.machine "5") Demo.pdf (Demo.world ∅)
             (mkCompleted 0
                (lit "Producer:       pdfgen" ++ nl
                 ++ lit "Pages:          " ++ lit "5" ++ nl
                 ++ lit "Encrypted:      no" ++ nl) [])
             (lit "5"));
    [vm_compute; exact eq_refl|vm_compute; exact eq_refl|vm_compute; exact eq_refl
    |vm_compute; exact eq_refl|vm_compute; exact eq_refl
    |unfold int_max_str_digits_floor; cbn [length lit]; vm_compute; lia].
Defined.

Lemma resolver_side_effects_witness :
  console (get_pdf_page_count (R':=unit) (Demo.mac "5") Demo.pdf
             (Demo.with_pdf Demo.two_page_pdf)).2
  = console (Demo.with_pdf Demo.two_page_pdf).
Proof.
  destruct (resolver_side_effects (R':=unit) (Demo.mac "5") Demo.pdf
              (Demo.with_pdf Demo.two_page_pdf)
              (get_pdf_page_count (R':=unit) (Demo.mac "5") Demo.pdf
                 (Demo.with_pdf Demo.two_page_pdf)).1
              (get_pdf_page_count (R':=unit) (Demo.mac "5") Demo.pdf
                 (Demo.with_pdf Demo.two_page_pdf)).2) as [Hc _].
  - apply surjective_pairing.
  - exact Hc.
Defined.

(** A document whose only markers are pages-collection markers is given
    their number. *)
Lemma marker_value_is_zero_without_markers_witness :
  exists v,
    (get_pdf_page_count (R':=unit) (Demo.platform Demo.fine) Demo.pdf
       (Demo.with_pdf (blit "/Type /Pages /Type /Pages"))).1 = Normal (Some v)
    /\ 0 <= v <= 2
    /\ (v = 0 <-> bytes_count (blit "/Type /Pages /Type /Pages") (blit "/Type /Page") = 0).
Proof.
  destruct (marker_value_is_zero_without_markers (Demo.platform Demo.fine) Demo.pdf
              (Demo.with_pdf (blit "/Type /Pages /Type /Pages"))
              (blit "/Type /Pages /Type /Pages")) as (v & E & Hv & Hz & _).
  - vm_compute; exact eq_refl.
  - vm_compute; exact eq_refl.
  - vm_compute; exact eq_refl.
  - exists v. split; [now rewrite E|]. split; [|exact Hz].
    replace 2 with (bytes_count (blit "/Type /Pages /Type /Pages") (blit "/Type /Page"))
      by (vm_compute; exact eq_refl).
    exact Hv.
Defined.

Lemma nonpositive_page_count_ends_run_witness :
  exists w',
    main (Demo.platform Demo.blank) Demo.base (Demo.world ∅) = (Normal 1, w')
    /\ last (console w') = Some (lit "ERROR: Could not determine PDF page count").
Proof.
  destruct (nonpositive_page_count_ends_run (Demo.platform Demo.blank) Demo.base (Demo.world ∅)
              ((prologue;; for_ (take 11 (steps (Demo.platform Demo.blank) Demo.base))
                              (fun s => s)) (Demo.world ∅)).2) as (w' & E & Hl & _).
  - unfold reaches. vm_compute; exact eq_refl.
  - right. exists 0. split; [vm_compute; exact eq_refl|lia].
  - exists w'. split; assumption.
Defined.

Lemma stage_file_is_handed_over_witness :
  exists w',
    (step2 (Demo.platform Demo.fine) Demo.base;; step3 (Demo.platform Demo.fine) Demo.base)
      (Demo.world (<[cds_output_file Demo.base := blit "new"]> Demo.stale))
    = (Normal tt, w')
    /\ files w' !! cds_output_file Demo.base = None
    /\ files w' !! cds_renamed_file Demo.base = Some (blit "new")
    /\ files w' !! rest_input_file Demo.base = Some (blit "new").
Proof.
  destruct (stage_file_is_handed_over (Demo.platform Demo.fine) Demo.base
              (step2 (Demo.platform Demo.fine) Demo.base)
              (step3 (Demo.platform Demo.fine) Demo.base)
              (cds_output_file Demo.base) (cds_renamed_file Demo.base)
              (rest_input_file Demo.base)
              (Demo.world (<[cds_output_file Demo.base := blit "new"]> Demo.stale))
              (blit "new")) as (w' & E & H1 & H2 & H3 & _).
  - apply list_elem_of_here.
  - vm_compute; exact eq_refl.
  - vm_compute; exact eq_refl.
  - vm_compute; exact eq_refl.
  - exists w'. split; [exact E|]. split; [exact H1|]. split; assumption.
Defined.

Lemma successful_run_leaves_document_witness :
  is_Some (files (main (Demo.platform Demo.fine) Demo.base (Demo.world ∅)).2
             !! output_pdf_file Demo.base)
  /\ files (main (Demo.platform Demo.fine) Demo.base (Demo.world ∅)).2
       !! temp_output Demo.base = None.
Proof.
  destruct (successful_run_leaves_document (Demo.platform Demo.fine) Demo.base (Demo.world ∅)
              (main (Demo.platform Demo.fine) Demo.base (Demo.world ∅)).2) as (H1 & H2 & _).
  - vm_compute; exact eq_refl.
  - split; assumption.
Defined.

Lemma main_raises_only_on_stage_file_witness :
  exists w,
    reaches (Demo.platform Demo.latin1_json) Demo.base 10 (Demo.world ∅) w
    /\ spawned (main (Demo.platform Demo.latin1_json) Demo.base (Demo.world ∅)).2 = spawned w
    /\ last (console (main (Demo.platform Demo.latin1_json) Demo.base (Demo.world ∅)).2)
       = Some (times "#" 70).
Proof.
  destruct (main_raises_only_on_stage_file (Demo.platform Demo.latin1_json) Demo.base
              (Demo.world ∅) UnicodeDecodeError
              (main (Demo.platform Demo.latin1_json) Demo.base (Demo.world ∅)).2)
    as (w & Hr & _ & Hs & Hl & _).
  - vm_compute; exact eq_refl.
  - exists w. split; [exact Hr|]. split; assumption.
Defined.

(** A stage file with Windows line ends: the JSON of the render call has
    none. *)
Lemma render_json_has_no_carriage_return_witness :
  spawned (step11 (Demo.platform Demo.fine) Demo.base crlf_stage_file).2
  = spawned crlf_stage_file
  \/ (exists raw text,
         files crlf_stage_file !! pdfgen_input_file Demo.base = Some raw
         /\ utf8_decode raw = Some text
         /\ spawned (step11 (Demo.platform Demo.fine) Demo.base crlf_stage_file).2
            = spawned crlf_stage_file
              ++ [render_call Demo.base (universal_newlines text)]
         /\ 13%N ∉ universal_newlines text).
Proof.
  apply (render_json_has_no_carriage_return (Demo.platform Demo.fine) Demo.base
           crlf_stage_file
           (step11 (Demo.platform Demo.fine) Demo.base crlf_stage_file).1).
  apply surjective_pairing.
Defined.

Lemma stage_programs_run_in_order_witness :
  spawned ((prologue;; for_ (take 10 (steps (Demo.platform Demo.fine) Demo.base)) (fun s => s))
             (Demo.world ∅)).2
  = [cds_call Demo.base; merge_call Demo.base;
     maven_call Demo.base "compile"; maven_call Demo.base "exec:java";
     upload_call Demo.base].
Proof.
  rewrite (stage_programs_run_in_order (Demo.platform Demo.fine) Demo.base 10 (Demo.world ∅)
             ((prologue;; for_ (take 10 (steps (Demo.platform Demo.fine) Demo.base))
                             (fun s => s)) (Demo.world ∅)).2).
  - reflexivity.
  - lia.
  - unfold reaches. vm_compute; exact eq_refl.
Defined.

Lemma rename_file_twice_witness :
  exists w1 w2,
    rename_file (R':=unit) (Demo.platform Demo.fine)
      (cds_output_file Demo.base) (cds_renamed_file Demo.base)
      (Demo.world {[ cds_output_file Demo.base := blit "new" ]}) = (Normal true, w1)
    /\ rename_file (R':=unit) (Demo.platform Demo.fine)
         (cds_output_file Demo.base) (cds_renamed_file Demo.base) w1 = (Normal false, w2)
    /\ files w2 !! cds_renamed_file Demo.base = None.
Proof.
  destruct (rename_file_twice (R':=unit) (Demo.platform Demo.fine)
              (cds_output_file Demo.base) (cds_renamed_file Demo.base)
              (Demo.world {[ cds_output_file Demo.base := blit "new" ]}) (blit "new"))
    as (w1 & w2 & E1 & E2 & _ & H & _).
  - vm_compute; exact eq_refl.
  - intros H. vm_compute in H. discriminate H.
  - vm_compute; exact eq_refl.
  - vm_compute; exact eq_refl.
  - exists w1, w2. split; [exact E1|]. split; assumption.
Defined.

Lemma rename_file_there_and_back_witness :
  exists w1 w2,
    rename_file (R':=unit) (Demo.platform Demo.fine)
      (cds_output_file Demo.base) (cds_renamed_file Demo.base)
      (Demo.world {[ cds_output_file Demo.base := blit "new" ]}) = (Normal true, w1)
    /\ rename_file (R':=unit) (Demo.platform Demo.fine)
         (cds_renamed_file Demo.base) (cds_output_file Demo.base) w1 = (Normal true, w2)
    /\ files w2 = {[ cds_output_file Demo.base := blit "new" ]}.
Proof.
  destruct (rename_file_there_and_back (R':=unit) (Demo.platform Demo.fine)
              (cds_output_file Demo.base) (cds_renamed_file Demo.base)
              (Demo.world {[ cds_output_file Demo.base := blit "new" ]}) (blit "new"))
    as (w1 & w2 & E1 & E2 & H).
  - vm_compute; exact eq_refl.
  - vm_compute; exact eq_refl.
  - vm_compute; exact eq_refl.
  - vm_compute; exact eq_refl.
  - exists w1, w2. split; [exact E1|]. split; [exact E2|exact H].
Defined.

Lemma copy_file_twice_witness :
  exists w1 w2,
    copy_file (R':=unit) (Demo.platform Demo.fine)
      (cds_renamed_file Demo.base) (rest_input_file Demo.base) (Demo.world Demo.stale)
    = (Normal true, w1)
    /\ copy_file (R':=unit) (Demo.platform Demo.fine)
         (cds_renamed_file Demo.base) (rest_input_file Demo.base) w1 = (Normal true, w2)
    /\ files w2 = files w1.
Proof.
  apply (copy_file_twice (R':=unit) (Demo.platform Demo.fine)
           (cds_renamed_file Demo.base) (rest_input_file Demo.base)
           (Demo.world Demo.stale) (blit "stale")).
  - vm_compute; exact eq_refl.
  - intros H. vm_compute in H. discriminate H.
  - vm_compute; exact eq_refl.
Defined.

(** On a machine whose Maven build fails the run ends in step 7, after
    the compile run. *)
Lemma failed_compile_skips_exec_witness :
  exists w',
    main Linux.no_maven Demo.base
      (Demo.world ∅) = (Normal 1, w')
    /\ last (console w') = Some (lit "ERROR: Step 7 failed - Maven compile").
Proof.
  destruct (failed_compile_skips_exec Linux.no_maven Demo.base
              (Demo.world ∅)
              ((prologue;; for_ (take 6 (steps Linux.no_maven Demo.base)) (fun s => s))
                 (Demo.world ∅)).2)
    as (w' & E & Hl & _).
  - unfold reaches. vm_compute; exact eq_refl.
  - vm_compute; exact eq_refl.
  - exists w'. split; assumption.
Defined.
